(** * cookiecutter.prompt: configuration resolution

    A shallow embedding of [cookiecutter/prompt.py]: the variable
    renderer, the nested configuration resolver, the two-pass top-level
    resolver [prompt_for_config] and the template selector
    [choose_nested_template], followed by the properties established
    about them.

    Modelling conventions.
    - Python values of the schema are the inductive [value].  Numbers are
      the integers; a mapping is an insertion-ordered association list
      with string keys (the schema comes from a JSON document) tagged with
      its Python class, because [==] on two [OrderedDict]s is sensitive to
      order while [==] involving a plain [dict] is not.
    - Exceptions are the type [exn]; fallible code is in the error monad
      [result].
    - The Jinja2 environment and its renderer, [json]/[pathlib] and the
      [rich] widgets are collaborators outside this module.  The
      construction of the environment, the renderer and the path
      operations are section variables.  The operator sitting
      in front of the widgets is a [script]: the list of responses the
      widgets hand back, [Default] for an empty input (the widget returns
      its default) and [Typed v] for a validated response [v]; a response
      that a widget cannot return is re-prompted, and an exhausted script
      is end of input ([EOFError]).  The text of a question is not part
      of the model: the prompt functions are taken from the point where
      the question is on display.  Building that text can itself raise
      ([TypeError] for a ['__prompts__'] entry of the wrong type, the
      [MarkupError] of [rich] for a stray closing tag), so what is
      stated about a call that asks the operator is stated of a call
      that returns; calls without input build no question, except that
      [_prompt_for_nested_config] looks each field up in its
      ['__prompts__'], which is modelled.
    - [context] is mutated by the callee ([pop]); functions that do so
      return the new context beside their outcome. *)

From Stdlib Require Import List String Ascii ZArith Bool Arith Lia.
From Stdlib Require Import DecimalString.
From Stdlib Require DecimalNat DecimalFacts.
Import ListNotations.
Local Open Scope string_scope.
Local Open Scope list_scope.

Set Implicit Arguments.
Set Warnings "-register-all".
Set Warnings "-automation".
Set Warnings "-default".

(** ** Values *)

Inductive dict_kind : Type := PlainDict | OrderedDict.

Inductive value : Type :=
| VNone
| VBool (b : bool)
| VInt (n : Z)
| VStr (s : string)
| VList (l : list value)
| VDict (kind : dict_kind) (items : list (string * value)).

Definition odict : Type := list (string * value).

(** ** Insertion-ordered mappings *)

Module Od.

Definition keys {A} (d : list (string * A)) : list string := map fst d.

Fixpoint get {A} (k : string) (d : list (string * A)) : option A :=
  match d with
  | [] => None
  | (k', v) :: rest => if String.eqb k k' then Some v else get k rest
  end.

Definition mem {A} (k : string) (d : list (string * A)) : bool :=
  match get k d with Some _ => true | None => false end.

(** [d[k] = v]: overwrite in place, or append. *)
Fixpoint set {A} (k : string) (v : A) (d : list (string * A))
  : list (string * A) :=
  match d with
  | [] => [(k, v)]
  | (k', v') :: rest =>
      if String.eqb k k' then (k', v) :: rest else (k', v') :: set k v rest
  end.

(** [d.pop(k, default)] and comprehension filters: the binding of [k]
    is dropped, the other bindings keep their order. *)
Definition remove {A} (k : string) (d : list (string * A))
  : list (string * A) :=
  filter (fun kv => negb (String.eqb k (fst kv))) d.

(** [{**d, **e}]: update [d] with the items of [e], in order. *)
Definition update {A} (d e : list (string * A)) : list (string * A) :=
  fold_left (fun acc kv => set (fst kv) (snd kv) acc) e d.

End Od.

(** ** Exceptions and the error monad *)

Inductive exn : Type :=
| UndefinedError (message : string)
| TemplateError (message : string)
| UndefinedVariableInTemplate (message : string) (error : exn)
                              (context : odict)
| KeyError (key : string)
| IndexError
| ValueError (message : string)
| TypeError
| AttributeError
| EOFError.

Inductive result (A : Type) : Type :=
| Ok (a : A)
| Err (e : exn).

Arguments Ok {A} a.
Arguments Err {A} e.

Definition bind {A B} (m : result A) (f : A -> result B) : result B :=
  match m with
  | Ok a => f a
  | Err e => Err e
  end.

Notation "x <- m ;; k" := (bind m (fun x => k))
  (at level 61, m at next level, right associativity).
Notation "' pat <- m ;; k" := (bind m (fun x => match x with pat => k end))
  (at level 61, pat pattern, m at next level, right associativity).

(** Loops over a list.  The body is a section variable so that a
    recursive function on [value] may pass itself as the body. *)
Section Loops.

Context {A B S : Type}.
Variable f : A -> result B.
Variable g : S -> A -> result S.

(** [[f(a) for a in l]] *)
Fixpoint mapM (l : list A) : result (list B) :=
  match l with
  | [] => Ok []
  | a :: rest => b <- f a ;; bs <- mapM rest ;; Ok (b :: bs)
  end.

(** [for a in l: s = g(s, a)] *)
Fixpoint foldM (l : list A) (s : S) : result S :=
  match l with
  | [] => Ok s
  | a :: rest => s' <- g s a ;; foldM rest s'
  end.

End Loops.

Arguments mapM {A B} f l.
Arguments foldM {A S} g l s.

(** ** Python primitives on values *)

Definition is_dict (v : value) : bool :=
  match v with VDict _ _ => true | _ => false end.

(** [bool(v)]. *)
Definition truthy (v : value) : bool :=
  match v with
  | VNone => false
  | VBool b => b
  | VInt n => negb (Z.eqb n 0)
  | VStr s => negb (String.eqb s "")
  | VList l => match l with [] => false | _ => true end
  | VDict _ d => match d with [] => false | _ => true end
  end.

(** [v == w].  [True == 1] and [False == 0] hold in Python; two
    [OrderedDict]s compare item by item in order, any other pair of
    mappings compares as sets of bindings. *)
Fixpoint py_eq (v w : value) {struct v} : bool :=
  match v, w with
  | VNone, VNone => true
  | VBool a, VBool b => Bool.eqb a b
  | VBool a, VInt n => Z.eqb (if a then 1 else 0) n
  | VInt n, VBool b => Z.eqb n (if b then 1 else 0)
  | VInt n, VInt m => Z.eqb n m
  | VStr s, VStr t => String.eqb s t
  | VList l, VList m =>
      (fix list_eq (l m : list value) {struct l} : bool :=
         match l, m with
         | [], [] => true
         | a :: l', b :: m' => py_eq a b && list_eq l' m'
         | _, _ => false
         end) l m
  | VDict kd d, VDict ke e =>
      match kd, ke with
      | OrderedDict, OrderedDict =>
          (fix items_eq (d e : odict) {struct d} : bool :=
             match d, e with
             | [], [] => true
             | (k, a) :: d', (k', b) :: e' =>
                 String.eqb k k' && py_eq a b && items_eq d' e'
             | _, _ => false
             end) d e
      | _, _ =>
          Nat.eqb (List.length d) (List.length e) &&
          (fix sub_eq (d : odict) {struct d} : bool :=
             match d with
             | [] => true
             | (k, a) :: d' =>
                 match Od.get k e with
                 | Some b => py_eq a b
                 | None => false
                 end && sub_eq d'
             end) d
      end
  | _, _ => false
  end.

(** [str(n)] for an integer. *)
Definition py_str_int (n : Z) : string := NilZero.string_of_int (Z.to_int n).

(** [f'{i}'] for a natural number. *)
Definition py_str_nat (i : nat) : string :=
  NilZero.string_of_uint (Nat.to_uint i).

(** [key.startswith(p)]. *)
Fixpoint startswith (p key : string) : bool :=
  match p, key with
  | EmptyString, _ => true
  | String _ _, EmptyString => false
  | String a p', String b key' => Ascii.eqb a b && startswith p' key'
  end.

Arguments startswith : simpl never.

(** [for x in v]: a list yields its elements, a mapping its keys, a
    string its characters; nothing else is iterable. *)
Definition py_iter (v : value) : result (list value) :=
  match v with
  | VList l => Ok l
  | VDict _ d => Ok (map (fun kv => VStr (fst kv)) d)
  | VStr s => Ok (map (fun c => VStr (String c EmptyString))
                      (list_ascii_of_string s))
  | _ => Err TypeError
  end.

(** [v.get(k)] and [v.get(k, default)]: only mappings have [get]. *)
Definition py_get (v : value) (k : string) (default : value) : result value :=
  match v with
  | VDict _ d => Ok (match Od.get k d with Some x => x | None => default end)
  | _ => Err AttributeError
  end.

(** [d[k]] on a mapping known to be one. *)
Definition py_item (d : odict) (k : string) : result value :=
  match Od.get k d with
  | Some x => Ok x
  | None => Err (KeyError k)
  end.

(** ** The operator *)

Inductive answer : Type :=
| Default
| Typed (v : value).

Definition script : Type := list answer.

(** [Prompt.ask(label, default=d)]: free text. *)
Fixpoint Prompt_ask (default : value) (sc : script)
  : result (value * script) :=
  match sc with
  | [] => Err EOFError
  | Default :: sc' => Ok (default, sc')
  | Typed (VStr s) :: sc' => Ok (VStr s, sc')
  | Typed _ :: sc' => Prompt_ask default sc'
  end.

(** [Prompt.ask(label, choices=cs, default=d)]: one of [cs]. *)
Fixpoint Prompt_ask_choices (choices : list string) (default : string)
                            (sc : script) : result (string * script) :=
  match sc with
  | [] => Err EOFError
  | Default :: sc' => Ok (default, sc')
  | Typed (VStr s) :: sc' =>
      if existsb (String.eqb s) choices then Ok (s, sc')
      else Prompt_ask_choices choices default sc'
  | Typed _ :: sc' => Prompt_ask_choices choices default sc'
  end.

(** [YesNoPrompt.ask(label, default=d)]. *)
Fixpoint YesNoPrompt_ask (default : value) (sc : script)
  : result (value * script) :=
  match sc with
  | [] => Err EOFError
  | Default :: sc' => Ok (default, sc')
  | Typed (VBool b) :: sc' => Ok (VBool b, sc')
  | Typed _ :: sc' => YesNoPrompt_ask default sc'
  end.

(** [JsonPrompt.ask(label, default=d, show_default=False)]:
    [process_json] accepts a JSON object only. *)
Fixpoint JsonPrompt_ask (default : value) (sc : script)
  : result (value * script) :=
  match sc with
  | [] => Err EOFError
  | Default :: sc' => Ok (default, sc')
  | Typed (VDict k d) :: sc' => Ok (VDict k d, sc')
  | Typed _ :: sc' => JsonPrompt_ask default sc'
  end.

(** [read_user_variable]: ask until the answer is not [None].  The loop
    [while True: variable = Prompt.ask(...)] is unfolded over the
    script; [read_user_variable_loop] states it as written. *)
Fixpoint read_user_variable (default_value : value) (sc : script)
  : result (value * script) :=
  match sc with
  | [] => Err EOFError
  | Default :: sc' =>
      match default_value with
      | VNone => read_user_variable default_value sc'
      | _ => Ok (default_value, sc')
      end
  | Typed (VStr s) :: sc' => Ok (VStr s, sc')
  | Typed _ :: sc' => read_user_variable default_value sc'
  end.

Definition read_user_yes_no (default_value : value) (sc : script)
  : result (value * script) :=
  YesNoPrompt_ask default_value sc.

(** [OrderedDict((f'{i}', value) for i, value in enumerate(options, 1))] *)
Definition choice_map (options : list value) : odict :=
  combine (map py_str_nat (seq 1 (List.length options))) options.

Definition read_user_choice (options : list value) (sc : script)
  : result (value * script) :=
  match options with
  | [] => Err (ValueError "")
  | _ :: _ =>
      let cm := choice_map options in
      let choices := Od.keys cm in
      '(user_choice, sc') <-
         Prompt_ask_choices choices (hd "" choices) sc ;;
      v <- py_item cm user_choice ;;
      Ok (v, sc')
  end.

Definition read_user_dict (default_value : value) (sc : script)
  : result (value * script) :=
  if is_dict default_value then JsonPrompt_ask default_value sc
  else Err TypeError.

(** ** The resolution algorithm *)

Section Resolver.

(** The Jinja2 side: [create_env_with_context] lives in
    [cookiecutter.utils]; [render_template env s bindings] is
    [env.from_string(s).render(...)] with keyword arguments [bindings]. *)
Variable Environment : Type.
Variable create_env_with_context : odict -> Environment.
Variable render_template : Environment -> string -> odict -> result string.

(** [pathlib] and [re]: [Path(p).is_absolute()], [Path(p).resolve()],
    [a / b], and group 1 of [re.search(r'\((.+)\)', s)]. *)
Variable path_is_absolute : string -> bool.
Variable path_resolve : string -> string.
Variable path_join : string -> string -> string.
Variable re_search_paren : string -> option string.

(** The keyword arguments of [template.render(cookiecutter=...)]. *)
Definition bindings (cookiecutter_dict : odict) : odict :=
  [("cookiecutter", VDict OrderedDict cookiecutter_dict)].

Definition render_str (env : Environment) (raw : string)
                      (cookiecutter_dict : odict) : result string :=
  render_template env raw (bindings cookiecutter_dict).

Fixpoint render_variable (env : Environment) (raw : value)
                         (cookiecutter_dict : odict) {struct raw}
  : result value :=
  match raw with
  | VNone => Ok VNone
  | VBool b => Ok (VBool b)
  | VDict _ items =>
      d <- foldM (fun acc kv =>
                    k' <- render_str env (fst kv) cookiecutter_dict ;;
                    v' <- render_variable env (snd kv) cookiecutter_dict ;;
                    Ok (Od.set k' v' acc))
                 items [] ;;
      Ok (VDict PlainDict d)
  | VList l =>
      l' <- mapM (fun v => render_variable env v cookiecutter_dict) l ;;
      Ok (VList l')
  | VInt n =>
      s <- render_str env (py_str_int n) cookiecutter_dict ;; Ok (VStr s)
  | VStr raw =>
      s <- render_str env raw cookiecutter_dict ;; Ok (VStr s)
  end.

(** [_prompts_from_options]: the labels are display only; what is kept
    is that every option must be a mapping ([option_value.get]). *)
Definition _prompts_from_options (options : odict) : result unit :=
  if forallb (fun kv => is_dict (snd kv)) options then Ok tt
  else Err AttributeError.

Definition prompt_choice_for_template (options : value) (no_input : bool)
                                      (sc : script)
  : result (value * script) :=
  match options with
  | VDict _ d =>
      let opts := map VStr (Od.keys d) in
      _ <- _prompts_from_options d ;;
      if no_input then
        match opts with
        | [] => Err IndexError
        | o :: _ => Ok (o, sc)
        end
      else read_user_choice opts sc
  | _ => Err AttributeError
  end.

Definition prompt_choice_for_config (cookiecutter_dict : odict)
           (env : Environment) (options : value) (no_input : bool)
           (sc : script) : result (value * script) :=
  its <- py_iter options ;;
  rendered_options <-
    mapM (fun raw => render_variable env raw cookiecutter_dict) its ;;
  if no_input then
    match rendered_options with
    | [] => Err IndexError
    | o :: _ => Ok (o, sc)
    end
  else read_user_choice rendered_options sc.

Definition reserved (key : string) : bool :=
  String.eqb key "__prompts__" || String.eqb key "__conditional__".

(** [isinstance(value, dict) and '__prompts__' in value] *)
Definition is_nested_config (v : value) : bool :=
  match v with
  | VDict _ d => Od.mem "__prompts__" d
  | _ => false
  end.

(** The loop of [_prompt_for_nested_config] over the fields, with the
    recursive call [resolve] for a field that is itself a nested
    configuration.  [prompts_nested.get(key, ...)] is evaluated for
    every field that is not reserved, so a ['__prompts__'] that is no
    mapping raises there. *)
Section NestedFields.

Variable resolve : value -> script -> result (odict * script).
Variable prompts_nested : value.
Variable no_input : bool.

Fixpoint nested_fields (its : odict) (res : odict) (sc : script)
  : result (odict * script) :=
  match its with
  | [] => Ok (res, sc)
  | (key, value) :: rest =>
      if reserved key then nested_fields rest res sc
      else
        _ <- py_get prompts_nested key VNone ;;
        '(val, sc') <-
          (if is_nested_config value then
             '(sub, sc') <- resolve value sc ;;
             Ok (VDict OrderedDict sub, sc')
           else if no_input then Ok (value, sc)
           else Prompt_ask value sc) ;;
        nested_fields rest (Od.set key val res) sc'
  end.

End NestedFields.

(** [_prompt_for_nested_config]; the returned items are those of the
    [OrderedDict] it builds. *)
Fixpoint _prompt_for_nested_config (nested_config : value)
         (no_input : bool) (sc : script) {struct nested_config}
  : result (odict * script) :=
  match nested_config with
  | VDict _ items =>
      let prompts_nested :=
        match Od.get "__prompts__" items with
        | Some p => p
        | None => VDict PlainDict []
        end in
      nested_fields
        (fun value sc => _prompt_for_nested_config value no_input sc)
        prompts_nested no_input items [] sc
  | _ => Err AttributeError
  end.

(** *** [prompt_for_config]

    The local variables of the function: the growing
    [cookiecutter_dict], the progress counter [count] and what is left
    of the operator's script.  [ticks] and [writes] are history
    variables: the keys at which [count += 1] and
    [cookiecutter_dict[key] = ...] were executed, in order. *)
Record state : Type := mkState {
  cookiecutter_dict : odict;
  count : nat;
  pending : script;
  ticks : list string;
  writes : list string
}.

Definition init (sc : script) : state := mkState [] 0 sc [] [].

(** [cookiecutter_dict[key] = v] *)
Definition store (key : string) (v : value) (st : state) : state :=
  mkState (Od.set key v (cookiecutter_dict st)) (count st) (pending st)
          (ticks st) (writes st ++ [key]).

(** [count += 1] *)
Definition tick (key : string) (st : state) : state :=
  mkState (cookiecutter_dict st) (S (count st)) (pending st)
          (ticks st ++ [key]) (writes st).

Definition with_pending (sc : script) (st : state) : state :=
  mkState (cookiecutter_dict st) (count st) sc (ticks st) (writes st).

(** [except UndefinedError as err:
       raise UndefinedVariableInTemplate(msg, err, context) from err] *)
Definition wrap_undefined {A} (key : string) (context : odict)
                          (r : result A) : result A :=
  match r with
  | Err (UndefinedError m) =>
      Err (UndefinedVariableInTemplate
             ("Unable to render variable '" ++ key ++ "'")
             (UndefinedError m) context)
  | _ => r
  end.

Definition is_private (key : string) : bool :=
  startswith "_" key && negb (startswith "__" key).

(** [isinstance(raw, dict) and "choices" in raw and "_" in raw] *)
Definition is_choice_with_nested (raw : value) : bool :=
  match raw with
  | VDict _ d => Od.mem "choices" d && Od.mem "_" d
  | _ => false
  end.

(** [{"choice": choice_val, **nested_val}] *)
Definition choice_merge (choice_val : value) (nested_val : odict) : value :=
  VDict PlainDict (Od.update [("choice", choice_val)] nested_val).

Definition choice_only (choice_val : value) : value :=
  VDict PlainDict [("choice", choice_val)].

Section Passes.

Variable env : Environment.
Variable context : odict.
Variable no_input : bool.

(** Lines 353-373: the choice-with-nested-config construct. *)
Definition resolve_choice_with_nested (key : string) (d : odict)
                                      (st : state) : result state :=
  let st := tick key st in
  choices <- py_item d "choices" ;;
  '(choice_val, sc) <-
     prompt_choice_for_config (cookiecutter_dict st) env choices
                              no_input (pending st) ;;
  nested_cfg <- py_item d "_" ;;
  condition <- py_get nested_cfg "__conditional__" VNone ;;
  if negb no_input && truthy condition then
    expected_value <- py_get condition "value" VNone ;;
    if py_eq choice_val expected_value then
      '(nested_val, sc') <-
         _prompt_for_nested_config nested_cfg no_input sc ;;
      Ok (store key (choice_merge choice_val nested_val)
                (with_pending sc' st))
    else
      Ok (store key (choice_only choice_val) (with_pending sc st))
  else if negb no_input && negb (truthy condition) then
    '(nested_val, sc') <-
       _prompt_for_nested_config nested_cfg no_input sc ;;
    Ok (store key (choice_merge choice_val nested_val)
              (with_pending sc' st))
  else
    Ok (store key (choice_only choice_val) (with_pending sc st)).

(** Lines 375-395: lists, booleans and the other scalars; a mapping
    falls through untouched. *)
Definition resolve_simple (key : string) (raw : value) (st : state)
  : result state :=
  let st := if is_dict raw then st else tick key st in
  wrap_undefined key context
    (match raw with
     | VList _ =>
         '(val, sc) <-
            prompt_choice_for_config (cookiecutter_dict st) env raw
                                     no_input (pending st) ;;
         Ok (store key (choice_only val) (with_pending sc st))
     | VBool _ =>
         if no_input then
           v <- render_variable env raw (cookiecutter_dict st) ;;
           Ok (store key v st)
         else
           '(v, sc) <- read_user_yes_no raw (pending st) ;;
           Ok (store key v (with_pending sc st))
     | VDict _ _ => Ok st
     | _ =>
         val <- render_variable env raw (cookiecutter_dict st) ;;
         if negb no_input then
           '(val, sc) <- read_user_variable val (pending st) ;;
           Ok (store key val (with_pending sc st))
         else Ok (store key val st)
     end).

(** One iteration of the first loop. *)
Definition pass1_step (st : state) (item : string * value)
  : result state :=
  let '(key, raw) := item in
  if is_private key then Ok (store key raw st)
  else if startswith "__" key then
    v <- render_variable env raw (cookiecutter_dict st) ;;
    Ok (store key v st)
  else
    match raw with
    | VDict _ d =>
        if is_choice_with_nested raw
        then resolve_choice_with_nested key d st
        else resolve_simple key raw st
    | _ => resolve_simple key raw st
    end.

(** [cookiecutter_dict.get(cond_key)]: a key that is no string is
    never bound; a list or a mapping is not hashable. *)
Definition context_get (d : odict) (cond_key : value) : result value :=
  match cond_key with
  | VStr k => Ok (match Od.get k d with Some v => v | None => VNone end)
  | VList _ | VDict _ _ => Err TypeError
  | _ => Ok VNone
  end.

(** [{k: v for k, v in raw.items()
      if k not in ['__prompts__', '__conditional__']}] *)
Definition strip_reserved (items : odict) : value :=
  VDict PlainDict
    (fold_left (fun acc kv => Od.set (fst kv) (snd kv) acc)
               (filter (fun kv => negb (reserved (fst kv))) items) []).

(** Lines 405-416: a mapping that carries ['__prompts__']. *)
Definition resolve_nested_config (key : string) (raw : value)
                                 (d : odict) (st : state)
  : result state :=
  '(val, sc) <-
     (if Od.mem "__conditional__" d then
        condition <- py_item d "__conditional__" ;;
        cond_key <- py_get condition "option" VNone ;;
        expected_value <- py_get condition "value" VNone ;;
        resolved <- context_get (cookiecutter_dict st) cond_key ;;
        if py_eq resolved expected_value then
          '(val, sc) <-
             _prompt_for_nested_config raw no_input (pending st) ;;
          Ok (VDict OrderedDict val, sc)
        else Ok (strip_reserved d, pending st)
      else
        '(val, sc) <-
           _prompt_for_nested_config raw no_input (pending st) ;;
        Ok (VDict OrderedDict val, sc)) ;;
  Ok (store key val (with_pending sc st)).

(** Lines 417-423: any other mapping. *)
Definition resolve_dict (key : string) (raw : value) (st : state)
  : result state :=
  let st := tick key st in
  val <- render_variable env raw (cookiecutter_dict st) ;;
  if negb no_input && negb (startswith "__" key) then
    '(val, sc) <- read_user_dict val (pending st) ;;
    Ok (store key val (with_pending sc st))
  else Ok (store key val st).

(** One iteration of the second loop. *)
Definition pass2_step (st : state) (item : string * value)
  : result state :=
  let '(key, raw) := item in
  if Od.mem key (cookiecutter_dict st) then Ok st
  else if is_private key then Ok st
  else
    wrap_undefined key context
      (match raw with
       | VDict _ d =>
           if Od.mem "__prompts__" d
           then resolve_nested_config key raw d st
           else resolve_dict key raw st
       | _ => Ok st
       end).

Definition pass1 (schema : odict) (st : state) : result state :=
  foldM pass1_step schema st.

Definition pass2 (schema : odict) (st : state) : result state :=
  foldM pass2_step schema st.

End Passes.

(** [context['cookiecutter'].pop('__prompts__', {})]: the outcome is
    the schema without the entry and the context that holds it. *)
Definition pop_prompts (context : odict) : result (odict * odict) :=
  match Od.get "cookiecutter" context with
  | None => Err (KeyError "cookiecutter")
  | Some (VDict kind schema) =>
      let schema' := Od.remove "__prompts__" schema in
      Ok (schema', Od.set "cookiecutter" (VDict kind schema') context)
  | Some (VList _) => Err TypeError
  | Some _ => Err AttributeError
  end.

(** [len([k for k, _ in all_prompts if not k.startswith("_")])] *)
Definition visible_size (schema : odict) : nat :=
  List.length (filter (fun k => negb (startswith "_" k)) (Od.keys schema)).

(** The whole function, with its final local state and the caller's
    context after the call. *)
Definition prompt_for_config_run (context : odict) (no_input : bool)
                                 (sc : script) : result state * odict :=
  let env := create_env_with_context context in
  match pop_prompts context with
  | Err e => (Err e, context)
  | Ok (schema, context') =>
      (st <- pass1 env context' no_input schema (init sc) ;;
       pass2 env context' no_input schema st, context')
  end.

Definition prompt_for_config (context : odict) (no_input : bool)
                             (sc : script) : result odict * odict :=
  let '(r, context') := prompt_for_config_run context no_input sc in
  (st <- r ;; Ok (cookiecutter_dict st), context').

(** *** [choose_nested_template] *)

(** [v[k]] with a string subscript. *)
Definition py_subscript (v : value) (k : string) : result value :=
  match v with
  | VDict _ d => py_item d k
  | _ => Err TypeError
  end.

(** Lines 460-468: [Path(template)] wants a string; an empty or an
    absolute path is illegal. *)
Definition template_path (repo_dir : string) (template : value)
  : result string :=
  if truthy template then
    match template with
    | VStr p =>
        if path_is_absolute p
        then Err (ValueError "Illegal template path")
        else Ok (path_resolve (path_join (path_resolve repo_dir) p))
    | _ => Err TypeError
    end
  else Err (ValueError "Illegal template path").

Definition choose_nested_template (context : odict) (repo_dir : string)
           (no_input : bool) (sc : script) : result string * odict :=
  let env := create_env_with_context context in
  match pop_prompts context with
  | Err e => (Err e, context)
  | Ok (schema, context') =>
      let config :=
        match Od.get "templates" schema with
        | Some c => c
        | None => VDict PlainDict []
        end in
      (template <-
         (if truthy config then
            '(val, _) <- prompt_choice_for_template config no_input sc ;;
            match val with
            | VStr k => opt <- py_subscript config k ;;
                        py_subscript opt "path"
            | _ => Err (KeyError "")
            end
          else
            let config :=
              match Od.get "template" schema with
              | Some c => c
              | None => VList []
              end in
            '(val, _) <- prompt_choice_for_config [] env config
                                                  no_input sc ;;
            match val with
            | VStr s =>
                match re_search_paren s with
                | Some g => Ok (VStr g)
                | None => Err AttributeError
                end
            | _ => Err TypeError
            end) ;;
       template_path repo_dir template, context')
  end.

End Resolver.


(** ** A concrete set of collaborators

    Used to run the resolver on examples: an environment that carries
    nothing, a renderer that knows literal text only and reports any
    expression as undefined (what the strict Jinja2 environment does for
    a name that is not bound), and POSIX-looking paths. *)

Module Demo.

Definition Environment : Type := unit.

Definition create_env_with_context (_ : odict) : Environment := tt.

Definition render_template (_ : Environment) (s : string) (_ : odict)
  : result string :=
  match String.index 0 "{{" s with
  | Some _ => Err (UndefinedError s)
  | None => Ok s
  end.

Definition path_is_absolute (p : string) : bool := String.prefix "/" p.
Definition path_resolve (p : string) : string := p.
Definition path_join (a b : string) : string := a ++ "/" ++ b.
Definition re_search_paren (_ : string) : option string := None.

Definition prompt_for_config :=
  prompt_for_config create_env_with_context render_template.

Definition prompt_for_config_run :=
  prompt_for_config_run create_env_with_context render_template.

Definition choose_nested_template :=
  choose_nested_template create_env_with_context render_template
    path_is_absolute path_resolve path_join re_search_paren.

Definition ctx (schema : odict) : odict :=
  [("cookiecutter", VDict OrderedDict schema)].

Definition dict (items : odict) : value := VDict OrderedDict items.

(** The local state a run ends in ([init []] stands for no state). *)
Definition final_of (schema : odict) (no_input : bool) (sc : script)
  : state :=
  match fst (prompt_for_config_run (ctx schema) no_input sc) with
  | Ok st => st
  | Err _ => init []
  end.

Definition context_after (schema : odict) : odict :=
  snd (prompt_for_config_run (ctx schema) true []).

(** Schemas used in the examples. *)

Definition undefined : string := "{{ cookiecutter.nope }}".

(** One key of every shape. *)
Definition mixed : odict :=
  [("name", VStr "x");
   ("cfg", dict [("a", VStr "b")]);
   ("_p", VInt 3);
   ("opts", VList [VStr "u"; VStr "v"]);
   ("__d", VStr "lit");
   ("__prompts__", dict [("name", VStr "Your name")]);
   ("db", dict [("__prompts__", dict []); ("host", VStr "h")])].

(** The choice-with-nested-config construct of the specification. *)
Definition gate (condition : odict) : value :=
  dict [("choices", dict [("a", dict []); ("b", dict [])]);
        ("_", dict [("x", VInt 1); ("__conditional__", dict condition)])].

Definition cwn : odict := [("db", gate [("value", VStr "a")])].

Definition cwn_empty_condition : odict := [("db", gate [])].

Definition cwn_private : odict := [("_db", gate [("value", VStr "a")])].

(** A nested configuration gated on an earlier answer. *)
Definition gated : odict :=
  [("use_db", VStr "yes");
   ("db", dict [("__prompts__", dict [("host", VStr "Host?")]);
                ("__conditional__",
                 dict [("option", VStr "use_db"); ("value", VStr "yes")]);
                ("host", VStr "localhost")])].

Definition nested_only : odict :=
  [("name", VStr "x");
   ("db", dict [("__prompts__", dict [("host", VStr "Host?")]);
                ("host", VStr "localhost")])].

Definition with_prompts : odict :=
  [("__prompts__", dict [("name", VStr "Your name")]);
   ("name", VStr "x")].

Definition templates : odict :=
  [("templates",
    dict [("default", dict [("path", VStr "tpl1")]);
          ("alt", dict [("path", VStr "tpl2")])])].

Definition undefined_in_construct : odict :=
  [("db", dict [("choices", VList [VStr undefined]); ("_", dict [])])].

Definition undefined_in_list : odict := [("db", VList [VStr undefined])].

Definition undefined_in_dunder : odict := [("__v", VStr undefined)].

End Demo.

(** ** Vocabulary of the statements *)

(** Which keys each loop assigns, and at which keys it counts. *)
Definition handled1 (item : string * value) : bool :=
  let '(key, raw) := item in
  startswith "_" key || negb (is_dict raw) || is_choice_with_nested raw.

Definition deferred (item : string * value) : bool :=
  let '(key, raw) := item in
  negb (startswith "_" key) && is_dict raw
  && negb (is_choice_with_nested raw).

Definition ticked1 (item : string * value) : bool :=
  let '(key, raw) := item in
  negb (startswith "_" key)
  && (negb (is_dict raw) || is_choice_with_nested raw).

Definition ticked2 (item : string * value) : bool :=
  deferred item && negb (is_nested_config (snd item)).

(** [st'] is [st] after one assignment to [k], with a count when [tk];
    the script may have advanced. *)
Definition wrote (k : string) (tk : bool) (st st' : state) : Prop :=
  (exists v, cookiecutter_dict st' = Od.set k v (cookiecutter_dict st)) /\
  writes st' = writes st ++ [k] /\
  ticks st' = ticks st ++ (if tk then [k] else []) /\
  count st' = count st + (if tk then 1 else 0).

Definition rmap {A B} (f : A -> B) (r : result A) : result B :=
  match r with
  | Ok a => Ok (f a)
  | Err e => Err e
  end.

(** A result whose script is put back to [sc]. *)
Definition keep (sc : script) {A} (p : A * script) : A * script :=
  (fst p, sc).

(** The progress property as the specification words it: every visible
    key is counted exactly once. *)
Definition progress_once (schema : odict) (st : state) : Prop :=
  forall key raw,
    In (key, raw) schema -> startswith "_" key = false ->
    count_occ string_dec (ticks st) key = 1.

(** Structural induction on values, through lists and mappings. *)
Section ValueInduction.

Variable P : value -> Prop.
Hypothesis HNone : P VNone.
Hypothesis HBool : forall b, P (VBool b).
Hypothesis HInt : forall n, P (VInt n).
Hypothesis HStr : forall s, P (VStr s).
Hypothesis HList : forall l, Forall P l -> P (VList l).
Hypothesis HDict :
  forall k d, Forall (fun kv => P (snd kv)) d -> P (VDict k d).

Fixpoint value_induction (v : value) : P v :=
  match v with
  | VNone => HNone
  | VBool b => HBool b
  | VInt n => HInt n
  | VStr s => HStr s
  | VList l =>
      HList ((fix go (l : list value) : Forall P l :=
                match l with
                | [] => Forall_nil _
                | x :: r => Forall_cons _ (value_induction x) (go r)
                end) l)
  | VDict k d =>
      HDict k ((fix go (d : odict) : Forall (fun kv => P (snd kv)) d :=
                  match d with
                  | [] => Forall_nil _
                  | (key, x) :: r =>
                      Forall_cons (key, x) (value_induction x) (go r)
                  end) d)
  end.

End ValueInduction.

(** ** The rest of the module *)

(** What [render_variable] leaves behind: no number anywhere, and plain
    mappings. *)
Fixpoint rendered_shape (v : value) : bool :=
  match v with
  | VNone | VBool _ | VStr _ => true
  | VInt _ => false
  | VList l => forallb rendered_shape l
  | VDict PlainDict d => forallb (fun kv => rendered_shape (snd kv)) d
  | VDict OrderedDict _ => false
  end.

(** The strings [render_variable] hands to the template engine, in the
    order in which it renders them: a string itself, the text of a
    number, the elements of a list one after the other, and for a
    mapping each key followed by what its value gives. *)
Fixpoint templates_of (raw : value) : list string :=
  match raw with
  | VNone | VBool _ => []
  | VInt n => [py_str_int n]
  | VStr s => [s]
  | VList l => flat_map templates_of l
  | VDict _ items =>
      flat_map (fun kv => fst kv :: templates_of (snd kv)) items
  end.

(** The keys of a Python mapping are distinct, at every depth. *)
Fixpoint distinct (l : list string) : bool :=
  match l with
  | [] => true
  | k :: l' => negb (existsb (String.eqb k) l') && distinct l'
  end.

Fixpoint well_keyed (v : value) : bool :=
  match v with
  | VDict _ items =>
      distinct (Od.keys items)
      && forallb (fun kv => well_keyed (snd kv)) items
  | VList l => forallb well_keyed l
  | _ => true
  end.

(** Full resolution of the fields of a nested configuration, in the
    words of section 4.2 of the specification: the fields are taken in
    declaration order and the reserved ones skipped; a field that is
    itself a nested configuration is resolved in the same way; any other
    field keeps its default as it stands without input, and otherwise
    gets what the free-text prompt returns for that default.
    [resolve_nested no_input fields sc mapping sc'] relates the fields
    and the operator's script to the mapping built and to what is left
    of the script. *)
Inductive resolve_nested (no_input : bool)
  : odict -> script -> odict -> script -> Prop :=
| resolve_nested_done sc :
    resolve_nested no_input [] sc [] sc
| resolve_nested_skip key value rest sc mapping sc' :
    reserved key = true ->
    resolve_nested no_input rest sc mapping sc' ->
    resolve_nested no_input ((key, value) :: rest) sc mapping sc'
| resolve_nested_recurse key kind fields rest sc sub sc1 mapping sc' :
    reserved key = false ->
    Od.mem "__prompts__" fields = true ->
    resolve_nested no_input fields sc sub sc1 ->
    resolve_nested no_input rest sc1 mapping sc' ->
    resolve_nested no_input ((key, VDict kind fields) :: rest) sc
                   ((key, VDict OrderedDict sub) :: mapping) sc'
| resolve_nested_copy key value rest sc mapping sc' :
    reserved key = false ->
    is_nested_config value = false ->
    no_input = true ->
    resolve_nested no_input rest sc mapping sc' ->
    resolve_nested no_input ((key, value) :: rest) sc
                   ((key, value) :: mapping) sc'
| resolve_nested_ask key value rest sc answered sc1 mapping sc' :
    reserved key = false ->
    is_nested_config value = false ->
    no_input = false ->
    Prompt_ask value sc = Ok (answered, sc1) ->
    resolve_nested no_input rest sc1 mapping sc' ->
    resolve_nested no_input ((key, value) :: rest) sc
                   ((key, answered) :: mapping) sc'.

(** The first error of the template engine on a list of strings rendered
    one after the other. *)
Section FirstFailure.

Variable Environment : Type.
Variable render_template : Environment -> string -> odict -> result string.

Fixpoint first_failure (env : Environment) (cookiecutter_dict : odict)
                       (l : list string) : option exn :=
  match l with
  | [] => None
  | s :: l' =>
      match render_template env s (bindings cookiecutter_dict) with
      | Ok _ => first_failure env cookiecutter_dict l'
      | Err e => Some e
      end
  end.

End FirstFailure.

(** A nested configuration as [_prompt_for_nested_config] expects it: a
    mapping whose ['__prompts__'], when given, is a mapping, and so on for
    every field that is itself a nested configuration. *)
Fixpoint prompts_well_formed (v : value) : bool :=
  match v with
  | VDict _ items =>
      match Od.get "__prompts__" items with
      | Some p => is_dict p
      | None => true
      end
      && forallb (fun kv =>
                    if is_nested_config (snd kv)
                    then prompts_well_formed (snd kv)
                    else true)
                 items
  | _ => false
  end.

(** The fields [_prompt_for_nested_config] returns. *)
Definition plain_keys (items : odict) : list string :=
  filter (fun k => negb (reserved k)) (Od.keys items).

(** A visible key that the second loop resolves as a nested
    configuration. *)
Definition uncounted (item : string * value) : bool :=
  let '(key, raw) := item in
  negb (startswith "_" key) && is_nested_config raw
  && negb (is_choice_with_nested raw).

(** No exception of this module's own making. *)
Definition foreign_error (e : exn) : Prop :=
  match e with
  | UndefinedVariableInTemplate _ _ _ => False
  | _ => True
  end.

(** A computation that raises no exception of this module's own. *)
Definition quiet {A} (r : result A) : Prop :=
  forall e, r = Err e -> foreign_error e.

(** The exception raised by the [except] clauses for [key]. *)
Definition reported (key : string) (context : odict) (e : exn) : Prop :=
  exists m,
    e = UndefinedVariableInTemplate
          ("Unable to render variable '" ++ key ++ "'")
          (UndefinedError m) context.

(** [YesNoPrompt.process_response], on ASCII text: [strip] and [lower]
    are Python's [str.strip()] and [str.lower()] for strings whose
    characters are all below 128. *)
Module YesNoPrompt.

Definition yes_choices : list string :=
  ["1"; "true"; "t"; "yes"; "y"; "on"].

Definition no_choices : list string :=
  ["0"; "false"; "f"; "no"; "n"; "off"].

(** [c.isspace()]: tab to carriage return, the four separators, space. *)
Definition is_space (c : ascii) : bool :=
  let n := nat_of_ascii c in
  (Nat.leb 9 n && Nat.leb n 13) || (Nat.leb 28 n && Nat.leb n 32).

Definition to_lower (c : ascii) : ascii :=
  let n := nat_of_ascii c in
  if Nat.leb 65 n && Nat.leb n 90 then ascii_of_nat (n + 32) else c.

Fixpoint lower (s : string) : string :=
  match s with
  | EmptyString => EmptyString
  | String c s' => String (to_lower c) (lower s')
  end.

Fixpoint lstrip (s : string) : string :=
  match s with
  | EmptyString => EmptyString
  | String c s' => if is_space c then lstrip s' else s
  end.

Fixpoint rstrip (s : string) : string :=
  match s with
  | EmptyString => EmptyString
  | String c s' =>
      match rstrip s' with
      | EmptyString => if is_space c then EmptyString
                       else String c EmptyString
      | r => String c r
      end
  end.

Definition strip (s : string) : string := rstrip (lstrip s).

Fixpoint all_space (s : string) : bool :=
  match s with
  | EmptyString => true
  | String c s' => is_space c && all_space s'
  end.

Fixpoint ascii_only (s : string) : bool :=
  match s with
  | EmptyString => true
  | String c s' => Nat.ltb (nat_of_ascii c) 128 && ascii_only s'
  end.

(** [None] stands for [raise InvalidResponse(...)]. *)
Definition process_response (value : string) : option bool :=
  let value := lower (strip value) in
  if existsb (String.eqb value) yes_choices then Some true
  else if existsb (String.eqb value) no_choices then Some false
  else None.

End YesNoPrompt.

(** [prompt_and_delete].  The file system is a collaborator:
    [os.path.isdir], [cookiecutter.utils.rmtree] and [os.remove] are
    section variables over an abstract state [FS].  The outcome is a
    returned boolean, the end of the process ([sys.exit()]) or an
    exception. *)
Section Filesystem.

Variable FS : Type.
Variable os_path_isdir : FS -> string -> bool.
Variable rmtree : FS -> string -> result FS.
Variable os_remove : FS -> string -> result FS.

Inductive delete_outcome : Type :=
| Returned (b : bool) (fs : FS) (sc : script)
| Exited (fs : FS) (sc : script)
| Raised (e : exn).

(** Lines 492-496. *)
Definition delete_path (path : string) (fs : FS) : result FS :=
  if os_path_isdir fs path then rmtree fs path else os_remove fs path.

Definition prompt_and_delete (path : string) (no_input : bool)
                             (sc : script) (fs : FS) : delete_outcome :=
  match (if no_input then Ok (VBool true, sc)
         else read_user_yes_no (VStr "yes") sc) with
  | Err e => Raised e
  | Ok (ok_to_delete, sc1) =>
      if truthy ok_to_delete then
        match delete_path path fs with
        | Ok fs' => Returned true fs' sc1
        | Err e => Raised e
        end
      else
        match read_user_yes_no (VStr "yes") sc1 with
        | Err e => Raised e
        | Ok (ok_to_reuse, sc2) =>
            if truthy ok_to_reuse then Returned false fs sc2
            else Exited fs sc2
        end
  end.

End Filesystem.

Arguments Returned {FS} b fs sc.
Arguments Exited {FS} fs sc.
Arguments Raised {FS} e.

(** ** More schemas and collaborators for the examples *)

Module Cases.

(** A string, a boolean, a number and a plain mapping. *)
Definition flags : odict :=
  [("name", VStr "x");
   ("debug", VBool false);
   ("port", VInt 8080);
   ("cfg", Demo.dict [("a", VStr "b")])].

(** A nested configuration with two fields. *)
Definition server : odict :=
  [("__prompts__", Demo.dict [("host", VStr "Host?")]);
   ("host", VStr "h");
   ("port", VInt 1)].

(** A raw value with numbers at every depth. *)
Definition numbers : value :=
  Demo.dict [("n", VInt 3); ("l", VList [VInt 1; VStr "s"])].

(** A declared template with an absolute path. *)
Definition absolute : odict :=
  [("templates", Demo.dict [("default", Demo.dict [("path", VStr "/abs")])])].

(** The legacy form: a list of descriptions, each with its path in
    parentheses. *)
Definition legacy : odict :=
  [("template", VList [VStr "Basic (./basic)"; VStr "Other (./other)"])].

(** The text after the first opening parenthesis. *)
Fixpoint after_open (s : string) : option string :=
  match s with
  | EmptyString => None
  | String c s' => if Ascii.eqb c "(" then Some s' else after_open s'
  end.

(** The text before the last closing parenthesis. *)
Fixpoint upto_close (s : string) : option string :=
  match s with
  | EmptyString => None
  | String c s' =>
      match upto_close s' with
      | Some r => Some (String c r)
      | None => if Ascii.eqb c ")" then Some EmptyString else None
      end
  end.

(** The first group of a greedy search for a non-empty parenthesised
    text, on a single line. *)
Definition re_search_paren (s : string) : option string :=
  match after_open s with
  | Some r =>
      match upto_close r with
      | Some g => if String.eqb g "" then None else Some g
      | None => None
      end
  | None => None
  end.

Definition choose_nested_template :=
  choose_nested_template Demo.create_env_with_context Demo.render_template
    Demo.path_is_absolute Demo.path_resolve Demo.path_join re_search_paren.

End Cases.

(** * Facts *)

Unset Implicit Arguments.

(** ** Ordered mappings *)

Module OdFacts.

Section Facts.
Context {A : Type}.
Implicit Types (d : list (string * A)) (k : string) (v : A).

Lemma get_some_in k d v : Od.get k d = Some v -> In k (Od.keys d).
Proof.
  induction d as [|[k' v'] d IH]; simpl; [discriminate|].
  destruct (String.eqb_spec k k'); [subst; auto | auto].
Qed.

Lemma get_none k d : Od.get k d = None <-> ~ In k (Od.keys d).
Proof.
  induction d as [|[k' v'] d IH]; simpl.
  - tauto.
  - destruct (String.eqb_spec k k') as [->|Hne].
    + split; [discriminate | intros H; exfalso; apply H; auto].
    + rewrite IH. split; [intros H [E|I]; [congruence | auto] | tauto].
Qed.

Lemma mem_true k d : Od.mem k d = true <-> In k (Od.keys d).
Proof.
  unfold Od.mem. destruct (Od.get k d) eqn:E.
  - split; [intros _; eauto using get_some_in | reflexivity].
  - apply get_none in E. split; [discriminate | tauto].
Qed.

Lemma mem_false k d : Od.mem k d = false <-> ~ In k (Od.keys d).
Proof.
  rewrite <- mem_true. destruct (Od.mem k d); split; congruence.
Qed.

Lemma set_fresh k v d :
  ~ In k (Od.keys d) -> Od.set k v d = d ++ [(k, v)].
Proof.
  induction d as [|[k' v'] d IH]; simpl; intros H; [reflexivity|].
  destruct (String.eqb_spec k k') as [->|Hne]; [tauto|].
  rewrite IH; tauto.
Qed.

Lemma keys_set k v d k' :
  In k' (Od.keys (Od.set k v d)) <-> k' = k \/ In k' (Od.keys d).
Proof.
  induction d as [|[k0 v0] d IH]; simpl.
  - intuition congruence.
  - destruct (String.eqb_spec k k0) as [->|Hne]; simpl.
    + intuition congruence.
    + rewrite IH. tauto.
Qed.

Lemma get_set_same k v d : Od.get k (Od.set k v d) = Some v.
Proof.
  induction d as [|[k0 v0] d IH]; simpl.
  - now rewrite String.eqb_refl.
  - destruct (String.eqb_spec k k0) as [->|Hne]; simpl.
    + now rewrite String.eqb_refl.
    + destruct (String.eqb_spec k k0); [contradiction | exact IH].
Qed.

Lemma get_set_other k k' v d :
  k <> k' -> Od.get k' (Od.set k v d) = Od.get k' d.
Proof.
  intros Hne. induction d as [|[k0 v0] d IH]; simpl.
  - destruct (String.eqb_spec k' k); [congruence | reflexivity].
  - destruct (String.eqb_spec k k0) as [->|Hne0]; simpl.
    + destruct (String.eqb_spec k' k0); [congruence | reflexivity].
    + now rewrite IH.
Qed.

Lemma get_remove_same k d : Od.get k (Od.remove k d) = None.
Proof.
  induction d as [|[k0 v0] d IH]; simpl; [reflexivity|].
  destruct (String.eqb_spec k k0) as [->|Hne]; simpl; [exact IH|].
  destruct (String.eqb_spec k k0); [contradiction | exact IH].
Qed.

Lemma get_remove_other k k' d :
  k <> k' -> Od.get k' (Od.remove k d) = Od.get k' d.
Proof.
  intros Hne. induction d as [|[k0 v0] d IH]; simpl; [reflexivity|].
  destruct (String.eqb_spec k k0) as [->|Hne0]; simpl.
  - destruct (String.eqb_spec k' k0); [congruence | exact IH].
  - now rewrite IH.
Qed.

Lemma keys_remove k d k' :
  In k' (Od.keys (Od.remove k d)) <-> k' <> k /\ In k' (Od.keys d).
Proof.
  unfold Od.keys, Od.remove. rewrite !in_map_iff. split.
  - intros [[k0 v0] [E I]]. apply filter_In in I as [I Hk]. simpl in *.
    subst k0. destruct (String.eqb_spec k k'); [discriminate|].
    split; [intros ->; contradiction | exists (k', v0); auto].
  - intros [Hne [[k0 v0] [E I]]]. simpl in E. subst k0.
    exists (k', v0). split; [reflexivity|]. apply filter_In. split; auto.
    simpl. destruct (String.eqb_spec k k') as [->|]; [contradiction | reflexivity].
Qed.

Lemma NoDup_keys_filter (f : string * A -> bool) d :
  NoDup (Od.keys d) -> NoDup (Od.keys (filter f d)).
Proof.
  unfold Od.keys. induction d as [|[k0 v0] d IH]; simpl; intros H; [constructor|].
  inversion H as [|? ? Hn Hd]; subst.
  destruct (f (k0, v0)); simpl; auto.
  constructor; auto. intros I. apply Hn.
  apply in_map_iff in I as [x [E I]]. apply filter_In in I as [I _].
  apply in_map_iff. eauto.
Qed.

Lemma NoDup_get k v d :
  NoDup (Od.keys d) -> In (k, v) d -> Od.get k d = Some v.
Proof.
  induction d as [|[k0 v0] d IH]; simpl; intros Hn HI; [contradiction|].
  destruct HI as [E|I].
  - inversion E; subst. now rewrite String.eqb_refl.
  - inversion Hn as [|? ? Hni Hd]; subst.
    destruct (String.eqb_spec k k0) as [->|Hne]; [|auto].
    exfalso. apply Hni. change (In k0 (Od.keys d)).
    apply in_map_iff. exists (k0, v). auto.
Qed.

End Facts.

End OdFacts.

(** ** Small facts about the monad and the primitives *)

Lemma bind_ok_inv {A B} (m : result A) (f : A -> result B) (b : B) :
  bind m f = Ok b -> exists a, m = Ok a /\ f a = Ok b.
Proof. destruct m; simpl; [eauto | discriminate]. Qed.

Lemma foldM_app {A S} (f : S -> A -> result S) (l1 l2 : list A) (s : S) :
  foldM f (l1 ++ l2) s = (s' <- foldM f l1 s ;; foldM f l2 s').
Proof.
  revert s. induction l1 as [|a l1 IH]; intros s; simpl; [reflexivity|].
  destruct (f s a); simpl; auto.
Qed.

Lemma startswith_dunder (key : string) :
  startswith "__" key = true -> startswith "_" key = true.
Proof.
  destruct key as [|c key]; [discriminate|].
  change (startswith "__" (String c key))
    with (Ascii.eqb "_" c && startswith "_" key).
  change (startswith "_" (String c key)) with (Ascii.eqb "_" c && true).
  destruct (Ascii.eqb "_" c); [reflexivity | discriminate].
Qed.

Lemma startswith_underscore (key : string) :
  startswith "_" key = is_private key || startswith "__" key.
Proof.
  unfold is_private. destruct (startswith "__" key) eqn:E.
  - rewrite (startswith_dunder _ E). reflexivity.
  - simpl. now rewrite andb_true_r, orb_false_r.
Qed.

Lemma deferred_handled1 (item : string * value) :
  deferred item = negb (handled1 item).
Proof.
  destruct item as [key raw]. unfold deferred, handled1.
  rewrite !negb_orb, negb_involutive. reflexivity.
Qed.

(** [read_user_variable] is its loop: ask, and ask again while the
    answer is [None]. *)
Lemma read_user_variable_loop (default_value : value) (sc : script) :
  read_user_variable default_value sc
  = ('(variable, sc') <- Prompt_ask default_value sc ;;
     match variable with
     | VNone => read_user_variable default_value sc'
     | _ => Ok (variable, sc')
     end).
Proof.
  induction sc as [|a sc IH]; [reflexivity|].
  destruct a as [|v]; simpl.
  - destruct default_value; reflexivity.
  - destruct v; try exact IH. reflexivity.
Qed.

Lemma with_pending_same (st : state) : with_pending (pending st) st = st.
Proof. destruct st; reflexivity. Qed.

Ltac inv_bind H :=
  let a := fresh "a" in
  let E := fresh "E" in
  apply bind_ok_inv in H as [a [E H]].

Ltac crunch :=
  repeat (simpl in *;
    match goal with
    | H : bind _ _ = Ok _ |- _ => inv_bind H
    | H : (if ?b then _ else _) = Ok _ |- _ => destruct b eqn:?
    | H : match ?p with (_, _) => _ end = Ok _ |- _ => destruct p
    | H : Ok _ = Ok _ |- _ => inversion H; clear H; subst
    | H : Err _ = Ok _ |- _ => discriminate H
    end).

Section ResolverFacts.

Variable Environment : Type.
Variable create_env_with_context : odict -> Environment.
Variable render_template : Environment -> string -> odict -> result string.

Variable path_is_absolute : string -> bool.
Variable path_resolve : string -> string.
Variable path_join : string -> string -> string.
Variable re_search_paren : string -> option string.

Notation render_variable := (render_variable render_template).
Notation choose_nested_template :=
  (choose_nested_template create_env_with_context render_template
     path_is_absolute path_resolve path_join re_search_paren).
Notation prompt_choice_for_config :=
  (prompt_choice_for_config render_template).
Notation pass1_step := (pass1_step render_template).
Notation pass2_step := (pass2_step render_template).
Notation pass1 := (pass1 render_template).
Notation pass2 := (pass2 render_template).
Notation prompt_for_config_run :=
  (prompt_for_config_run create_env_with_context render_template).
Notation prompt_for_config :=
  (prompt_for_config create_env_with_context render_template).

Lemma wrap_undefined_ok {A} key context (r : result A) (a : A) :
  wrap_undefined key context r = Ok a -> r = Ok a.
Proof. destruct r as [|[]]; simpl; congruence. Qed.

Lemma wrote_store_tick key v sc st :
  wrote key true st (store key v (with_pending sc (tick key st))).
Proof. repeat split; simpl; eauto; lia. Qed.

Lemma wrote_store key v sc st :
  wrote key false st (store key v (with_pending sc st)).
Proof.
  repeat split; simpl; eauto; rewrite ?app_nil_r; auto; lia.
Qed.

Lemma wrote_store_tick' key v st :
  wrote key true st (store key v (tick key st)).
Proof. repeat split; simpl; eauto; lia. Qed.

Lemma wrote_store' key v st : wrote key false st (store key v st).
Proof.
  repeat split; simpl; eauto; rewrite ?app_nil_r; auto; lia.
Qed.

Hint Resolve wrote_store_tick wrote_store wrote_store_tick' wrote_store'
  : resolver.

(** What one iteration of the first loop does to the local state. *)
Lemma pass1_step_effect env context no_input st key raw st' :
  pass1_step env context no_input st (key, raw) = Ok st' ->
  if handled1 (key, raw)
  then wrote key (ticked1 (key, raw)) st st'
  else st' = st.
Proof.
  unfold pass1_step, handled1, ticked1.
  rewrite startswith_underscore.
  destruct (is_private key) eqn:Hp; simpl.
  { intros H; inversion H; auto with resolver. }
  destruct (startswith "__" key) eqn:Hd; simpl.
  { intros H. inv_bind H. inversion H; auto with resolver. }
  assert (Hsimple : forall st0,
    resolve_simple render_template env context no_input key raw st = Ok st0 ->
    if negb (is_dict raw) then wrote key true st st0 else st0 = st).
  { unfold resolve_simple. intros st0 H. apply wrap_undefined_ok in H.
    destruct raw; simpl in *;
      repeat (first [ progress inv_bind H
                    | match type of H with
                      | (if ?b then _ else _) = _ => destruct b
                      | (let '(_, _) := ?p in _) = _ => destruct p
                      | match ?p with (_, _) => _ end = _ => destruct p
                      end ]; simpl in H);
      inversion H; subst; auto with resolver. }
  destruct raw; simpl; try (intros H; apply Hsimple in H; exact H).
  destruct (Od.mem "choices" items && Od.mem "_" items) eqn:Hc; simpl.
  - unfold resolve_choice_with_nested. intros H.
    repeat (first [ progress inv_bind H
                  | match type of H with
                    | (if ?b then _ else _) = _ => destruct b
                    | (let '(_, _) := ?p in _) = _ => destruct p
                    | match ?p with (_, _) => _ end = _ => destruct p
                    end ]; simpl in H);
      inversion H; subst; auto with resolver.
  - intros H. apply Hsimple in H. exact H.
Qed.

(** What one iteration of the second loop does to the local state. *)
Lemma pass2_step_effect env context no_input st key raw st' :
  pass2_step env context no_input st (key, raw) = Ok st' ->
  if Od.mem key (cookiecutter_dict st) || is_private key
     || negb (is_dict raw)
  then st' = st
  else wrote key (negb (is_nested_config raw)) st st'.
Proof.
  unfold pass2_step.
  destruct (Od.mem key (cookiecutter_dict st)); simpl; [congruence|].
  destruct (is_private key); simpl; [congruence|].
  intros H. apply wrap_undefined_ok in H.
  destruct raw; simpl in *; try congruence.
  unfold resolve_nested_config, resolve_dict in H.
  destruct (Od.mem "__prompts__" items); crunch; auto with resolver.
Qed.

Lemma keys_snoc (d : odict) k v : Od.keys (d ++ [(k, v)]) = Od.keys d ++ [k].
Proof. unfold Od.keys. now rewrite map_app. Qed.

Lemma ticked1_handled1 item : ticked1 item = true -> handled1 item = true.
Proof.
  destruct item as [key raw]. unfold ticked1, handled1.
  destruct (startswith "_" key), (is_dict raw),
    (is_choice_with_nested raw); simpl; congruence.
Qed.

(** The first loop, from any state that holds none of the keys it is
    about to visit. *)
Lemma pass1_effect env context no_input items : forall st st',
  pass1 env context no_input items st = Ok st' ->
  NoDup (Od.keys items) ->
  (forall k, In k (Od.keys items) ->
             ~ In k (Od.keys (cookiecutter_dict st))) ->
  Od.keys (cookiecutter_dict st')
    = Od.keys (cookiecutter_dict st) ++ Od.keys (filter handled1 items) /\
  writes st' = writes st ++ Od.keys (filter handled1 items) /\
  ticks st' = ticks st ++ Od.keys (filter ticked1 items) /\
  count st' = count st + List.length (filter ticked1 items).
Proof.
  induction items as [|[key raw] items IH]; intros st st' H Hnd Hfresh.
  - inversion H; subst. simpl. rewrite !app_nil_r. auto.
  - unfold pass1 in H. simpl in H. inv_bind H.
    apply pass1_step_effect in E.
    inversion Hnd as [|? ? Hnk Hnd']; subst.
    cbn [filter].
    destruct (handled1 (key, raw)) eqn:Hh.
    + destruct E as [[v Ev] [Ew [Et Ec]]].
      rewrite OdFacts.set_fresh in Ev by (apply Hfresh; simpl; auto).
      destruct (IH a st' H Hnd') as [Ik [Iw [It Ic]]].
      { intros k Hk. rewrite Ev, keys_snoc, in_app_iff. simpl.
        intros [I|[->|[]]]; [|contradiction].
        apply (Hfresh k); simpl; auto. }
      rewrite Ik, Iw, It, Ic, Ev, Ew, Et, Ec, keys_snoc.
      destruct (ticked1 (key, raw)); cbn [Od.keys map fst List.length];
        rewrite <- ?app_assoc, ?app_nil_r; cbn [app];
        repeat split; lia.
    + subst a.
      destruct (ticked1 (key, raw)) eqn:Ht.
      { apply ticked1_handled1 in Ht. congruence. }
      apply IH; auto. intros k Hk. apply Hfresh. simpl; auto.
Qed.

Lemma deferred_not_private key raw :
  deferred (key, raw) = true ->
  is_private key = false /\ startswith "__" key = false /\
  is_dict raw = true /\ is_choice_with_nested raw = false.
Proof.
  unfold deferred. rewrite startswith_underscore.
  destruct (is_private key), (startswith "__" key), (is_dict raw),
    (is_choice_with_nested raw); simpl; intros; try discriminate; auto.
Qed.

(** The second loop, from a state that holds exactly the keys the
    first loop assigns. *)
Lemma pass2_effect env context no_input items : forall st st',
  pass2 env context no_input items st = Ok st' ->
  NoDup (Od.keys items) ->
  (forall k raw, In (k, raw) items ->
     (In k (Od.keys (cookiecutter_dict st)) <-> handled1 (k, raw) = true)) ->
  Od.keys (cookiecutter_dict st')
    = Od.keys (cookiecutter_dict st) ++ Od.keys (filter deferred items) /\
  writes st' = writes st ++ Od.keys (filter deferred items) /\
  ticks st' = ticks st ++ Od.keys (filter ticked2 items) /\
  count st' = count st + List.length (filter ticked2 items).
Proof.
  induction items as [|[key raw] items IH]; intros st st' H Hnd Hchar.
  - inversion H; subst. simpl. rewrite !app_nil_r. auto.
  - unfold pass2 in H. simpl in H. inv_bind H.
    apply pass2_step_effect in E.
    inversion Hnd as [|? ? Hnk Hnd']; subst.
    assert (Ht2 : ticked2 (key, raw)
                  = negb (handled1 (key, raw))
                    && negb (is_nested_config raw))
      by (unfold ticked2; rewrite deferred_handled1; reflexivity).
    cbn [filter]. rewrite Ht2, (deferred_handled1 (key, raw)).
    pose proof (Hchar key raw (or_introl eq_refl)) as Hk.
    destruct (handled1 (key, raw)) eqn:Hh; cbn [negb andb].
    + assert (Hm : Od.mem key (cookiecutter_dict st) = true)
        by (apply OdFacts.mem_true, Hk; reflexivity).
      rewrite Hm in E. simpl in E. subst a.
      apply IH; auto. intros k r I. apply Hchar. simpl; auto.
    + assert (Hm : Od.mem key (cookiecutter_dict st) = false).
      { apply OdFacts.mem_false. intros I. apply Hk in I. discriminate. }
      assert (Hd : deferred (key, raw) = true)
        by (rewrite deferred_handled1, Hh; reflexivity).
      apply deferred_not_private in Hd as [Hp [_ [Hdict _]]].
      rewrite Hm, Hp, Hdict in E. simpl in E.
      destruct E as [[v Ev] [Ew [Et Ec]]].
      rewrite OdFacts.set_fresh in Ev by (now apply OdFacts.mem_false).
      destruct (IH a st' H Hnd') as [Ik [Iw [It Ic]]].
      { intros k r I. rewrite Ev, keys_snoc, in_app_iff.
        rewrite <- (Hchar k r) by (simpl; auto).
        split; [intros [J|[<-|[]]]; auto | auto].
        exfalso. apply Hnk. change (In key (map fst items)).
        apply in_map_iff. exists (key, r). auto. }
      rewrite Ik, Iw, It, Ic, Ev, Ew, Et, Ec, keys_snoc.
      destruct (is_nested_config raw); cbn [negb Od.keys map fst List.length];
        rewrite <- ?app_assoc, ?app_nil_r; cbn [app];
        repeat split; lia.
Qed.

(** Both loops, from the empty context. *)
Lemma run_effect env context no_input schema sc st1 st2 :
  NoDup (Od.keys schema) ->
  pass1 env context no_input schema (init sc) = Ok st1 ->
  pass2 env context no_input schema st1 = Ok st2 ->
  Od.keys (cookiecutter_dict st1) = Od.keys (filter handled1 schema) /\
  Od.keys (cookiecutter_dict st2)
    = Od.keys (filter handled1 schema) ++ Od.keys (filter deferred schema) /\
  writes st2 = Od.keys (cookiecutter_dict st2) /\
  ticks st2
    = Od.keys (filter ticked1 schema) ++ Od.keys (filter ticked2 schema) /\
  count st2 = List.length (ticks st2).
Proof.
  intros Hnd H1 H2.
  apply pass1_effect in H1 as [K1 [W1 [T1 C1]]]; auto.
  simpl in K1, W1, T1, C1.
  apply pass2_effect in H2 as [K2 [W2 [T2 C2]]]; auto.
  - rewrite K2, W2, T2, C2, K1, W1, T1, C1.
    repeat split; auto.
    unfold Od.keys. rewrite length_app, !length_map. reflexivity.
  - intros k raw I. rewrite K1. split.
    + intros J. apply in_map_iff in J as [[k' raw'] [Ek J]].
      simpl in Ek. subst k'. apply filter_In in J as [J Hh].
      pose proof (OdFacts.NoDup_get _ _ _ Hnd I) as G1.
      pose proof (OdFacts.NoDup_get _ _ _ Hnd J) as G2.
      congruence.
    + intros Hh. apply in_map_iff. exists (k, raw). split; auto.
      apply filter_In. auto.
Qed.

Lemma run_inv context no_input sc final context' :
  prompt_for_config_run context no_input sc = (Ok final, context') ->
  exists kind schema st1,
    Od.get "cookiecutter" context = Some (VDict kind schema) /\
    context' = Od.set "cookiecutter"
                 (VDict kind (Od.remove "__prompts__" schema)) context /\
    pass1 (create_env_with_context context) context' no_input
          (Od.remove "__prompts__" schema) (init sc) = Ok st1 /\
    pass2 (create_env_with_context context) context' no_input
          (Od.remove "__prompts__" schema) st1 = Ok final.
Proof.
  unfold prompt_for_config_run, pop_prompts.
  destruct (Od.get "cookiecutter" context) as [[| | | | |kind schema]|];
    try (intros H; inversion H; fail).
  intros H. injection H as H1 H2.
  apply bind_ok_inv in H1 as [st1 [E1 E2]].
  exists kind, schema, st1. subst context'. repeat split; auto.
Qed.

Lemma prompt_for_config_of_run context no_input sc :
  prompt_for_config context no_input sc =
  (rmap cookiecutter_dict (fst (prompt_for_config_run context no_input sc)),
   snd (prompt_for_config_run context no_input sc)).
Proof.
  unfold prompt_for_config.
  destruct (prompt_for_config_run context no_input sc) as [[st|e] c];
    reflexivity.
Qed.

Lemma NoDup_keys_partition (f g : string * value -> bool) (l : odict) :
  (forall x, g x = negb (f x)) ->
  NoDup (Od.keys l) ->
  NoDup (Od.keys (filter f l) ++ Od.keys (filter g l)).
Proof.
  intros Hfg Hnd. apply NoDup_app.
  - now apply OdFacts.NoDup_keys_filter.
  - now apply OdFacts.NoDup_keys_filter.
  - intros k I J.
    apply in_map_iff in I as [[k1 v1] [E1 I]].
    apply in_map_iff in J as [[k2 v2] [E2 J]].
    simpl in *. subst k1 k2.
    apply filter_In in I as [I Hf]. apply filter_In in J as [J Hg].
    pose proof (OdFacts.NoDup_get _ _ _ Hnd I) as G1.
    pose proof (OdFacts.NoDup_get _ _ _ Hnd J) as G2.
    assert (v1 = v2) by congruence. subst v2.
    rewrite Hfg, Hf in Hg. discriminate.
Qed.

Lemma NoDup_keys_remove {A} k (d : list (string * A)) :
  NoDup (Od.keys d) -> NoDup (Od.keys (Od.remove k d)).
Proof. apply OdFacts.NoDup_keys_filter. Qed.

(** C2: the returned mapping lists the keys assigned by the first loop
    in declaration order, then the mappings left to the second loop in
    declaration order; the assignments made during the run are exactly
    these keys, each one once, so no key is ever assigned twice. *)
Theorem prompt_for_config_key_order
        context kind schema no_input sc final context' :
  Od.get "cookiecutter" context = Some (VDict kind schema) ->
  NoDup (Od.keys schema) ->
  prompt_for_config_run context no_input sc = (Ok final, context') ->
  let schema' := Od.remove "__prompts__" schema in
  fst (prompt_for_config context no_input sc)
    = Ok (cookiecutter_dict final) /\
  Od.keys (cookiecutter_dict final)
    = Od.keys (filter handled1 schema')
      ++ Od.keys (filter deferred schema') /\
  (forall item, deferred item = negb (handled1 item)) /\
  writes final = Od.keys (cookiecutter_dict final) /\
  NoDup (writes final).
Proof.
  intros Hget Hnd Hrun schema'.
  rewrite prompt_for_config_of_run, Hrun. simpl.
  apply run_inv in Hrun as [kind' [schema0 [st1 [G [_ [H1 H2]]]]]].
  rewrite Hget in G. inversion G; subst kind' schema0. clear G.
  assert (Hnd' : NoDup (Od.keys schema')) by now apply NoDup_keys_remove.
  edestruct run_effect as [_ [K [W _]]];
    [exact Hnd' | exact H1 | exact H2 |].
  repeat split; auto.
  - intros item. apply deferred_handled1.
  - rewrite W, K. apply NoDup_keys_partition; auto.
    intros x. apply deferred_handled1.
Qed.

Lemma count_occ_keys_filter (f : string * value -> bool) (l : odict) k v :
  NoDup (Od.keys l) -> In (k, v) l ->
  count_occ string_dec (Od.keys (filter f l)) k = if f (k, v) then 1 else 0.
Proof.
  induction l as [|[k0 v0] l IH]; intros Hnd HI; [contradiction|].
  inversion Hnd as [|? ? Hn Hd]; subst. cbn [filter].
  destruct HI as [E|I].
  - inversion E; subst. 
    assert (Z : count_occ string_dec (Od.keys (filter f l)) k = 0).
    { apply count_occ_not_In. intros J. apply Hn.
      apply in_map_iff in J as [x [Ex J]]. apply filter_In in J as [J _].
      apply in_map_iff. eauto. }
    destruct (f (k, v)); [|exact Z].
    cbn [Od.keys map fst]. rewrite count_occ_cons_eq by reflexivity.
    unfold Od.keys in Z. now rewrite Z.
  - assert (Hne : k0 <> k).
    { intros ->. apply Hn. apply in_map_iff. exists (k, v). auto. }
    destruct (f (k0, v0)); [|auto].
    cbn [Od.keys map fst]. rewrite count_occ_cons_neq by exact Hne.
    now apply IH.
Qed.

(** Which keys are counted, in a run that completes: [count] is the
    number of counted keys; a key beginning with an underscore is never
    counted; a visible key is counted exactly once, save for a mapping
    that carries ['__prompts__'] without being a choice-with-nested-config
    construct, which is never counted. *)
Lemma counted_keys
        context kind schema no_input sc final context' :
  Od.get "cookiecutter" context = Some (VDict kind schema) ->
  NoDup (Od.keys schema) ->
  prompt_for_config_run context no_input sc = (Ok final, context') ->
  count final = List.length (ticks final) /\
  forall key raw,
    In (key, raw) (Od.remove "__prompts__" schema) ->
    count_occ string_dec (ticks final) key =
    if startswith "_" key then 0
    else if is_nested_config raw && negb (is_choice_with_nested raw)
         then 0 else 1.
Proof.
  intros Hget Hnd Hrun.
  apply run_inv in Hrun as [kind' [schema0 [st1 [G [_ [H1 H2]]]]]].
  rewrite Hget in G. inversion G; subst kind' schema0. clear G.
  assert (Hnd' : NoDup (Od.keys (Od.remove "__prompts__" schema)))
    by now apply NoDup_keys_remove.
  edestruct run_effect as [_ [_ [_ [T C]]]];
    [exact Hnd' | exact H1 | exact H2 |].
  split; [exact C|].
  intros key raw I. rewrite T, count_occ_app.
  rewrite (count_occ_keys_filter ticked1 _ _ _ Hnd' I).
  rewrite (count_occ_keys_filter ticked2 _ _ _ Hnd' I).
  unfold ticked2, ticked1, deferred. cbn [snd].
  destruct raw; cbn [is_dict is_nested_config is_choice_with_nested];
    destruct (startswith "_" key); cbn [negb andb orb]; try reflexivity.
  destruct (Od.mem "choices" items && Od.mem "_" items),
    (Od.mem "__prompts__" items); reflexivity.
Qed.

Lemma pass1_keys_incl env context no_input items : forall st st',
  pass1 env context no_input items st = Ok st' ->
  forall k, In k (Od.keys (cookiecutter_dict st')) ->
            In k (Od.keys (cookiecutter_dict st)) \/ In k (Od.keys items).
Proof.
  induction items as [|[key raw] items IH]; intros st st' H k I.
  - inversion H; subst; auto.
  - unfold pass1 in H. simpl in H. inv_bind H.
    apply pass1_step_effect in E.
    destruct (IH _ _ H k I) as [J|J]; [|simpl; auto].
    destruct (handled1 (key, raw)); [|subst; auto].
    destruct E as [[v Ev] _]. rewrite Ev in J.
    apply OdFacts.keys_set in J as [->|J]; simpl; auto.
Qed.

Lemma pass2_keys_incl env context no_input items : forall st st',
  pass2 env context no_input items st = Ok st' ->
  forall k, In k (Od.keys (cookiecutter_dict st')) ->
            In k (Od.keys (cookiecutter_dict st)) \/ In k (Od.keys items).
Proof.
  induction items as [|[key raw] items IH]; intros st st' H k I.
  - inversion H; subst; auto.
  - unfold pass2 in H. simpl in H. inv_bind H.
    apply pass2_step_effect in E.
    destruct (IH _ _ H k I) as [J|J]; [|simpl; auto].
    destruct (Od.mem key (cookiecutter_dict st) || is_private key
              || negb (is_dict raw)); [subst; auto|].
    destruct E as [[v Ev] _]. rewrite Ev in J.
    apply OdFacts.keys_set in J as [->|J]; simpl; auto.
Qed.

Lemma keys_set_bound {A} k (v v0 : A) (d : list (string * A)) :
  Od.get k d = Some v0 -> Od.keys (Od.set k v d) = Od.keys d.
Proof.
  induction d as [|[k1 v1] d IH]; simpl; [discriminate|].
  destruct (String.eqb k k1); simpl; [reflexivity|].
  intros H. now rewrite IH.
Qed.

(** C10: both entry points pop ['__prompts__'] from the schema held
    under [context['cookiecutter']].  After the call, whatever its
    outcome, the caller's context binds the same keys in the same
    order, ['cookiecutter'] holds the schema without ['__prompts__'],
    every other entry of the schema and of the context is as before,
    and a returned mapping has no ['__prompts__'] key. *)
Theorem pop_prompts_frame context kind schema repo_dir no_input sc :
  Od.get "cookiecutter" context = Some (VDict kind schema) ->
  let schema' := Od.remove "__prompts__" schema in
  let context' := Od.set "cookiecutter" (VDict kind schema') context in
  snd (prompt_for_config context no_input sc) = context' /\
  snd (choose_nested_template context repo_dir no_input sc) = context' /\
  Od.get "cookiecutter" context' = Some (VDict kind schema') /\
  Od.mem "__prompts__" schema' = false /\
  (forall k, k <> "__prompts__" -> Od.get k schema' = Od.get k schema) /\
  (forall k, k <> "cookiecutter" -> Od.get k context' = Od.get k context) /\
  Od.keys context' = Od.keys context /\
  (forall d, fst (prompt_for_config context no_input sc) = Ok d ->
             Od.mem "__prompts__" d = false).
Proof.
  intros Hget schema' context'.
  assert (Hmem : Od.mem "__prompts__" schema' = false).
  { unfold Od.mem, schema'. now rewrite OdFacts.get_remove_same. }
  repeat split.
  - rewrite prompt_for_config_of_run. simpl.
    unfold prompt_for_config_run, pop_prompts. now rewrite Hget.
  - unfold choose_nested_template, pop_prompts. now rewrite Hget.
  - apply OdFacts.get_set_same.
  - exact Hmem.
  - intros k Hk. apply OdFacts.get_remove_other. congruence.
  - intros k Hk. apply OdFacts.get_set_other. congruence.
  - eapply keys_set_bound; eauto.
  - intros d Hd. rewrite prompt_for_config_of_run in Hd. simpl in Hd.
    destruct (prompt_for_config_run context no_input sc) as [r c] eqn:Hrun.
    simpl in Hd. destruct r as [final|]; [|discriminate].
    inversion Hd; subst d. clear Hd.
    apply run_inv in Hrun as [kind' [schema0 [st1 [G [_ [H1 H2]]]]]].
    rewrite Hget in G. inversion G; subst kind' schema0. clear G.
    apply OdFacts.mem_false. intros I.
    apply (pass2_keys_incl _ _ _ _ _ _ H2) in I.
    assert (J : In "__prompts__" (Od.keys schema')).
    { destruct I as [I|I]; [|exact I].
      apply (pass1_keys_incl _ _ _ _ _ _ H1) in I as [[]|I]. exact I. }
    apply OdFacts.mem_true in J. congruence.
Qed.

(** C9: [render_variable] returns [None] and booleans unchanged, walks a
    list through its elements and a mapping through its keys and its
    values (a key is rendered as the string it is), and turns anything
    else into a string that the environment renders with the single
    binding [cookiecutter], bound to the accumulated context. *)
Theorem render_variable_cases env cookiecutter_dict :
  render_variable env VNone cookiecutter_dict = Ok VNone /\
  (forall b, render_variable env (VBool b) cookiecutter_dict
             = Ok (VBool b)) /\
  (forall l, render_variable env (VList l) cookiecutter_dict
             = rmap VList
                 (mapM (fun v => render_variable env v cookiecutter_dict)
                       l)) /\
  (forall kind items,
      render_variable env (VDict kind items) cookiecutter_dict
      = rmap (VDict PlainDict)
          (foldM (fun acc kv =>
                    k' <- render_variable env (VStr (fst kv))
                                          cookiecutter_dict ;;
                    v' <- render_variable env (snd kv) cookiecutter_dict ;;
                    match k' with
                    | VStr k' => Ok (Od.set k' v' acc)
                    | _ => Err TypeError
                    end)
                 items [])) /\
  (forall s, render_variable env (VStr s) cookiecutter_dict
             = rmap VStr
                 (render_template env s
                    [("cookiecutter",
                      VDict OrderedDict cookiecutter_dict)])) /\
  (forall n, render_variable env (VInt n) cookiecutter_dict
             = rmap VStr
                 (render_template env (py_str_int n)
                    [("cookiecutter",
                      VDict OrderedDict cookiecutter_dict)])).
Proof.
  split; [reflexivity|]. split; [reflexivity|]. split; [reflexivity|].
  split; [|split; reflexivity].
  intros kind items. simpl.
  match goal with
  | |- bind (foldM ?f items []) _ = rmap _ (foldM ?g items []) =>
      assert (H : forall its acc, foldM f its acc = foldM g its acc)
  end.
  { induction its as [|[k v] its IH]; intros acc; [reflexivity|].
    simpl. unfold render_str.
    destruct (render_template env k (bindings cookiecutter_dict));
      [|reflexivity].
    cbn [bind].
    destruct (render_variable env v cookiecutter_dict); [|reflexivity].
    cbn [bind]. apply IH. }
  rewrite H. reflexivity.
Qed.

(** *** Without input the operator is never consulted *)

Lemma nested_fields_no_input resolve prompts_nested its :
  (forall kv, In kv its -> forall sc,
      resolve (snd kv) sc = rmap (keep sc) (resolve (snd kv) [])) ->
  forall res sc,
    nested_fields resolve prompts_nested true its res sc
    = rmap (keep sc) (nested_fields resolve prompts_nested true its res []).
Proof.
  induction its as [|[key value] its IH]; intros H res sc; [reflexivity|].
  simpl. destruct (reserved key).
  { apply IH. intros kv I. apply H. simpl; auto. }
  destruct (py_get prompts_nested key VNone); [|reflexivity]. simpl.
  assert (IH' := fun res => IH (fun kv I => H kv (or_intror I)) res sc).
  destruct (is_nested_config value).
  - pose proof (H (key, value) (or_introl eq_refl)) as Hv. simpl in Hv.
    rewrite (Hv sc). pose proof (Hv []) as Hnil.
    destruct (resolve value []) as [[sub sc0]|]; [|reflexivity].
    simpl in *. inversion Hnil; subst sc0. apply IH'.
  - simpl. apply IH'.
Qed.

Lemma nested_config_no_input v :
  forall sc,
    _prompt_for_nested_config v true sc
    = rmap (keep sc) (_prompt_for_nested_config v true []).
Proof.
  induction v using value_induction; intros sc; try reflexivity.
  simpl. apply nested_fields_no_input.
  intros kv I. rewrite Forall_forall in H. apply (H kv I).
Qed.

Lemma prompt_choice_no_input cookiecutter_dict env options sc :
  prompt_choice_for_config cookiecutter_dict env options true sc
  = rmap (keep sc)
      (prompt_choice_for_config cookiecutter_dict env options true []).
Proof.
  unfold prompt_choice_for_config.
  destruct (py_iter options); [|reflexivity]. simpl.
  destruct (mapM _ a) as [[|o rest]|]; reflexivity.
Qed.

Lemma pass1_step_no_input env context st item sc :
  pass1_step env context true (with_pending sc st) item
  = rmap (with_pending sc) (pass1_step env context true st item).
Proof.
  destruct item as [key raw]. unfold pass1_step.
  destruct (is_private key); [reflexivity|].
  destruct (startswith "__" key).
  { simpl. destruct (render_variable env raw _); reflexivity. }
  assert (Hsimple :
    resolve_simple render_template env context true key raw
                   (with_pending sc st)
    = rmap (with_pending sc)
        (resolve_simple render_template env context true key raw st)).
  { unfold resolve_simple. destruct raw; simpl; try reflexivity.
    - destruct (render_str _ env _ _) as [|[]]; reflexivity.
    - destruct (render_str _ env _ _) as [|[]]; reflexivity.
    - rewrite (prompt_choice_no_input _ _ _ sc).
      rewrite (prompt_choice_no_input _ _ _ (pending st)).
      destruct (prompt_choice_for_config _ _ _ true [])
        as [[v s0]|[]]; reflexivity. }
  destruct raw; try exact Hsimple.
  destruct (is_choice_with_nested (VDict kind items)); [|exact Hsimple].
  unfold resolve_choice_with_nested. simpl.
  destruct (py_item items "choices"); [|reflexivity]. simpl.
  rewrite (prompt_choice_no_input _ _ _ sc).
  rewrite (prompt_choice_no_input _ _ _ (pending st)).
  destruct (prompt_choice_for_config _ _ _ true []) as [[v s0]|];
    [|reflexivity].
  simpl. destruct (py_item items "_"); [|reflexivity]. simpl.
  destruct (py_get _ "__conditional__" VNone); reflexivity.
Qed.

Lemma pass2_step_no_input env context st item sc :
  pass2_step env context true (with_pending sc st) item
  = rmap (with_pending sc) (pass2_step env context true st item).
Proof.
  destruct item as [key raw]. unfold pass2_step.
  change (cookiecutter_dict (with_pending sc st))
    with (cookiecutter_dict st).
  destruct (Od.mem key (cookiecutter_dict st)); [reflexivity|].
  destruct (is_private key); [reflexivity|].
  destruct raw; try reflexivity.
  destruct (Od.mem "__prompts__" items).
  - unfold resolve_nested_config.
    rewrite (nested_config_no_input _ (pending (with_pending sc st))).
    rewrite (nested_config_no_input _ (pending st)).
    generalize (_prompt_for_nested_config (VDict kind items) true []).
    intros r. simpl.
    destruct (Od.mem "__conditional__" items).
    + destruct (py_item items "__conditional__") as [c|[]];
        try reflexivity. simpl.
      destruct (py_get c "option" VNone) as [o|[]]; try reflexivity. simpl.
      destruct (py_get c "value" VNone) as [x|[]]; try reflexivity. simpl.
      destruct (context_get _ o) as [y|[]]; try reflexivity. simpl.
      destruct (py_eq y x); [|reflexivity].
      destruct r as [[d s0]|[]]; reflexivity.
    + destruct r as [[d s0]|[]]; reflexivity.
  - unfold resolve_dict. simpl.
    destruct (foldM _ items []) as [|[]]; reflexivity.
Qed.

Lemma foldM_commute {A S} (step : S -> A -> result S) (h : S -> S) :
  (forall s a, step (h s) a = rmap h (step s a)) ->
  forall l s, foldM step l (h s) = rmap h (foldM step l s).
Proof.
  intros H. induction l as [|a l IH]; intros s; [reflexivity|].
  simpl. rewrite H. destruct (step s a); simpl; auto.
Qed.

Lemma no_input_ignores_script context sc :
  prompt_for_config context true sc = prompt_for_config context true [].
Proof.
  unfold prompt_for_config, prompt_for_config_run.
  destruct (pop_prompts context) as [[schema context']|]; [|reflexivity].
  change (init sc) with (with_pending sc (init [])).
  unfold pass1. rewrite (foldM_commute _ (with_pending sc))
    by (intros; apply pass1_step_no_input).
  destruct (foldM _ schema (init [])) as [st1|]; [|reflexivity]. simpl.
  unfold pass2. rewrite (foldM_commute _ (with_pending sc))
    by (intros; apply pass2_step_no_input).
  destruct (foldM _ schema st1); reflexivity.
Qed.

(** C6: without input the outcome of [prompt_for_config], the returned
    context as well as the caller's context after the call, does not
    depend on the operator: two runs on the same context agree. *)
Theorem prompt_for_config_no_input_deterministic context sc1 sc2 :
  prompt_for_config context true sc1 = prompt_for_config context true sc2.
Proof.
  rewrite (no_input_ignores_script context sc1).
  rewrite (no_input_ignores_script context sc2).
  reflexivity.
Qed.

Lemma remove_idempotent {A} k (d : list (string * A)) :
  Od.remove k (Od.remove k d) = Od.remove k d.
Proof.
  unfold Od.remove. induction d as [|[k0 v0] d IH]; simpl; [reflexivity|].
  destruct (String.eqb k k0) eqn:E; simpl; [exact IH|].
  rewrite E. simpl. now rewrite IH.
Qed.

Lemma set_set {A} k (v v' : A) (d : list (string * A)) :
  Od.set k v (Od.set k v' d) = Od.set k v d.
Proof.
  induction d as [|[k0 v0] d IH]; simpl.
  - now rewrite String.eqb_refl.
  - destruct (String.eqb k k0) eqn:E; simpl; rewrite E; [reflexivity|].
    now rewrite IH.
Qed.

(** The same holds for a second run on the very context object the first
    run has popped ['__prompts__'] from, as long as the environment built
    from it is the same. *)
Lemma prompt_for_config_rerun context sc1 sc2 :
  create_env_with_context (snd (prompt_for_config context true sc1))
    = create_env_with_context context ->
  prompt_for_config (snd (prompt_for_config context true sc1)) true sc2
    = prompt_for_config context true sc1.
Proof.
  rewrite (no_input_ignores_script context sc1).
  rewrite (no_input_ignores_script _ sc2).
  unfold prompt_for_config, prompt_for_config_run, pop_prompts.
  destruct (Od.get "cookiecutter" context)
    as [[| | | | |kind schema]|] eqn:G; simpl; try (rewrite G; reflexivity).
  intros Henv. rewrite OdFacts.get_set_same, remove_idempotent, set_set.
  rewrite Henv. reflexivity.
Qed.

(** *** The template selector *)

(** C7: with a non-empty mapping under ['templates'] whose options are
    mappings, and without input, [choose_nested_template] takes the
    first option in declaration order: when that option's ['path'] is a
    non-empty relative path [p], the call returns the repository root
    joined with [p], whatever the later options hold. *)
Theorem choose_nested_template_first
        context kind schema kt k0 ko opt0 rest p repo_dir sc :
  Od.get "cookiecutter" context = Some (VDict kind schema) ->
  Od.get "templates" schema = Some (VDict kt ((k0, VDict ko opt0) :: rest)) ->
  forallb (fun kv => is_dict (snd kv)) rest = true ->
  Od.get "path" opt0 = Some (VStr p) ->
  p <> "" ->
  path_is_absolute p = false ->
  fst (choose_nested_template context repo_dir true sc)
  = Ok (path_resolve (path_join (path_resolve repo_dir) p)).
Proof.
  intros Hctx Htpl Hopts Hpath Hne Habs.
  unfold choose_nested_template, pop_prompts. rewrite Hctx.
  rewrite OdFacts.get_remove_other by discriminate.
  rewrite Htpl. cbn [fst truthy].
  unfold prompt_choice_for_template, _prompts_from_options.
  cbn [forallb snd is_dict andb]. rewrite Hopts.
  cbn [bind Od.keys map fst py_subscript]. unfold py_item at 1.
  cbn [Od.get]. rewrite String.eqb_refl. cbn [bind py_subscript].
  unfold py_item. rewrite Hpath. cbn [bind].
  unfold template_path. cbn [truthy].
  destruct (String.eqb_spec p ""); [contradiction|].
  cbn [negb]. now rewrite Habs.
Qed.

(** *** A run, cut at one key *)

Lemma foldM_split {A S} (step : S -> A -> result S) pre a post s s' :
  foldM step (pre ++ a :: post) s = Ok s' ->
  exists s1 s2,
    foldM step pre s = Ok s1 /\ step s1 a = Ok s2 /\
    foldM step post s2 = Ok s'.
Proof.
  rewrite foldM_app. intros H. inv_bind H. simpl in H. inv_bind H.
  eauto.
Qed.

Lemma pass1_get_stable env context no_input items : forall st st' k,
  pass1 env context no_input items st = Ok st' ->
  ~ In k (Od.keys items) ->
  Od.get k (cookiecutter_dict st') = Od.get k (cookiecutter_dict st).
Proof.
  induction items as [|[key raw] items IH]; intros st st' k H Hk.
  - inversion H; subst; reflexivity.
  - unfold pass1 in H. simpl in H. inv_bind H.
    apply pass1_step_effect in E.
    rewrite (IH _ _ k H) by (intros I; apply Hk; simpl; auto).
    destruct (handled1 (key, raw)); [|subst; reflexivity].
    destruct E as [[v Ev] _]. rewrite Ev.
    apply OdFacts.get_set_other. intros ->. apply Hk. simpl; auto.
Qed.

Lemma pass2_get_stable env context no_input items : forall st st' k v,
  pass2 env context no_input items st = Ok st' ->
  Od.get k (cookiecutter_dict st) = Some v ->
  Od.get k (cookiecutter_dict st') = Some v.
Proof.
  induction items as [|[key raw] items IH]; intros st st' k v H Hk.
  - inversion H; subst; assumption.
  - unfold pass2 in H. simpl in H. inv_bind H.
    apply pass2_step_effect in E.
    apply (IH _ _ k v H).
    destruct (Od.mem key (cookiecutter_dict st)) eqn:Hm; simpl in E;
      [subst; assumption|].
    destruct (is_private key || negb (is_dict raw)); [subst; assumption|].
    destruct E as [[x Ex] _]. rewrite Ex.
    rewrite OdFacts.get_set_other; [assumption|].
    intros ->. unfold Od.mem in Hm. rewrite Hk in Hm. discriminate.
Qed.

(** The value a key receives in the first loop is the one returned. *)
Lemma run_value_from_pass1
      env context no_input pre key raw post st0 st1 st2 st3 final v :
  NoDup (Od.keys (pre ++ (key, raw) :: post)) ->
  pass1 env context no_input pre st0 = Ok st1 ->
  pass1_step env context no_input st1 (key, raw) = Ok st2 ->
  pass1 env context no_input post st2 = Ok st3 ->
  pass2 env context no_input (pre ++ (key, raw) :: post) st3 = Ok final ->
  Od.get key (cookiecutter_dict st2) = Some v ->
  Od.get key (cookiecutter_dict final) = Some v.
Proof.
  intros Hnd _ _ H3 H4 Hv.
  apply (pass2_get_stable _ _ _ _ _ _ _ _ H4).
  rewrite (pass1_get_stable _ _ _ _ _ _ key H3); [assumption|].
  unfold Od.keys in Hnd. rewrite map_app in Hnd.
  apply NoDup_remove_2 in Hnd. intros I. apply Hnd.
  apply in_or_app. auto.
Qed.

Lemma ticks_visible env context no_input schema sc st1 final key :
  NoDup (Od.keys schema) ->
  pass1 env context no_input schema (init sc) = Ok st1 ->
  pass2 env context no_input schema st1 = Ok final ->
  In key (ticks final) -> startswith "_" key = false.
Proof.
  intros Hnd H1 H2 I.
  edestruct run_effect as [_ [_ [_ [T _]]]];
    [exact Hnd | exact H1 | exact H2 |].
  rewrite T in I. apply in_app_or in I.
  destruct I as [I|I]; apply in_map_iff in I as [[k r] [E I]];
    simpl in E; subst k; apply filter_In in I as [_ Ht].
  - unfold ticked1 in Ht. destruct (startswith "_" key);
      [discriminate | reflexivity].
  - unfold ticked2, deferred in Ht. destruct (startswith "_" key);
      [discriminate | reflexivity].
Qed.

(** C4, as amended: a key of the schema other than ['__prompts__']
    (which is popped and never stored) that begins with one underscore
    is assigned its raw value, and one that begins with two underscores
    is assigned the rendering of its raw value against the context
    accumulated so far; in both cases the assignment leaves the script
    and the counter as they were, the key is never counted, and the
    value assigned is the one returned. *)
Theorem underscore_keys
        context kind schema no_input sc final context' pre key raw post :
  Od.get "cookiecutter" context = Some (VDict kind schema) ->
  NoDup (Od.keys schema) ->
  Od.remove "__prompts__" schema = pre ++ (key, raw) :: post ->
  prompt_for_config_run context no_input sc = (Ok final, context') ->
  let env := create_env_with_context context in
  key <> "__prompts__" /\
  exists st1,
    pass1 env context' no_input pre (init sc) = Ok st1 /\
    (is_private key = true ->
       pass1_step env context' no_input st1 (key, raw)
         = Ok (store key raw st1) /\
       Od.get key (cookiecutter_dict final) = Some raw /\
       ~ In key (ticks final)) /\
    (startswith "__" key = true ->
       exists v,
         render_variable env raw (cookiecutter_dict st1) = Ok v /\
         pass1_step env context' no_input st1 (key, raw)
           = Ok (store key v st1) /\
         Od.get key (cookiecutter_dict final) = Some v /\
         ~ In key (ticks final)).
Proof.
  intros Hget Hnd Hsplit Hrun env.
  apply run_inv in Hrun as [kind' [schema0 [st3 [G [_ [H1 H2]]]]]].
  rewrite Hget in G. inversion G; subst kind' schema0. clear G.
  fold env in H1, H2.
  assert (Hnd' : NoDup (Od.keys (Od.remove "__prompts__" schema)))
    by now apply NoDup_keys_remove.
  assert (Hticks : In key (ticks final) -> startswith "_" key = false)
    by (eapply ticks_visible; eauto).
  split.
  { intros ->.
    assert (I : In "__prompts__"
                  (Od.keys (Od.remove "__prompts__" schema))).
    { rewrite Hsplit. unfold Od.keys. rewrite map_app.
      apply in_or_app. simpl; auto. }
    apply OdFacts.keys_remove in I as [I _]. congruence. }
  rewrite Hsplit in *.
  pose proof H1 as H1'. unfold pass1 in H1'.
  apply foldM_split in H1' as [st1 [st2 [P1 [P2 P3]]]].
  exists st1. split; [exact P1|]. split.
  - intros Hp.
    assert (Estep : pass1_step env context' no_input st1 (key, raw)
                    = Ok (store key raw st1))
      by (unfold pass1_step; rewrite Hp; reflexivity).
    split; [exact Estep|]. split.
    + rewrite Estep in P2. inversion P2; subst st2.
      eapply run_value_from_pass1; eauto.
      simpl. apply OdFacts.get_set_same.
    + intros I. apply Hticks in I. rewrite startswith_underscore, Hp in I.
      discriminate.
  - intros Hd.
    assert (Hp : is_private key = false)
      by (unfold is_private; rewrite Hd; apply andb_false_r).
    pose proof P2 as P2'. unfold pass1_step in P2'.
    rewrite Hp, Hd in P2'. inv_bind P2'.
    exists a. split; [exact E|].
    assert (Estep : pass1_step env context' no_input st1 (key, raw)
                    = Ok (store key a st1))
      by (unfold pass1_step; rewrite Hp, Hd, E; reflexivity).
    split; [exact Estep|]. split.
    + inversion P2'; subst st2.
      eapply run_value_from_pass1; eauto.
      simpl. apply OdFacts.get_set_same.
    + intros I. apply Hticks in I.
      rewrite (startswith_dunder _ Hd) in I. discriminate.
Qed.

Lemma prompt_choice_no_input_first cookiecutter_dict env options sc v sc' :
  prompt_choice_for_config cookiecutter_dict env options true sc
    = Ok (v, sc') ->
  sc' = sc /\
  exists its rest,
    py_iter options = Ok its /\
    mapM (fun raw => render_variable env raw cookiecutter_dict) its
      = Ok (v :: rest).
Proof.
  unfold prompt_choice_for_config. intros H.
  inv_bind H. inv_bind H. destruct a0 as [|o rest]; [discriminate|].
  inversion H; subst. eauto.
Qed.

(** C1, as amended: for a key that does not begin with an underscore and
    whose raw value is a mapping with both ['choices'] and ['_'], the
    choice is resolved first.  Without input the value stored is
    [{"choice": c}] with [c] the first rendered option, and nothing is
    asked.  With input, when the ['__conditional__'] of the nested
    configuration is truthy, the nested fields are resolved and merged
    exactly when the choice equals its ['value'], and [{"choice": c}]
    alone is stored otherwise; when ['__conditional__'] is absent or
    falsy the nested fields are always resolved and merged.  The value
    stored is the one returned. *)
Theorem choice_with_nested
        context kind schema no_input sc final context'
        pre key kd d post choices nested_cfg :
  Od.get "cookiecutter" context = Some (VDict kind schema) ->
  NoDup (Od.keys schema) ->
  Od.remove "__prompts__" schema = pre ++ (key, VDict kd d) :: post ->
  prompt_for_config_run context no_input sc = (Ok final, context') ->
  startswith "_" key = false ->
  Od.get "choices" d = Some choices ->
  Od.get "_" d = Some nested_cfg ->
  let env := create_env_with_context context in
  exists st1 choice_val sc1 stored,
    pass1 env context' no_input pre (init sc) = Ok st1 /\
    prompt_choice_for_config (cookiecutter_dict st1) env choices
                             no_input (pending st1)
      = Ok (choice_val, sc1) /\
    Od.get key (cookiecutter_dict final) = Some stored /\
    (no_input = true ->
       stored = choice_only choice_val /\
       pass1_step env context' no_input st1 (key, VDict kd d)
         = Ok (store key stored (tick key st1)) /\
       exists its rest,
         py_iter choices = Ok its /\
         mapM (fun raw => render_variable env raw (cookiecutter_dict st1))
              its = Ok (choice_val :: rest)) /\
    (no_input = false ->
       exists condition,
         py_get nested_cfg "__conditional__" VNone = Ok condition /\
         if truthy condition then
           exists expected_value,
             py_get condition "value" VNone = Ok expected_value /\
             if py_eq choice_val expected_value then
               exists nested_val sc2,
                 _prompt_for_nested_config nested_cfg false sc1
                   = Ok (nested_val, sc2) /\
                 stored = choice_merge choice_val nested_val
             else stored = choice_only choice_val
         else
           exists nested_val sc2,
             _prompt_for_nested_config nested_cfg false sc1
               = Ok (nested_val, sc2) /\
             stored = choice_merge choice_val nested_val).
Proof.
  intros Hget Hnd Hsplit Hrun Hvis Hch Hun env.
  apply run_inv in Hrun as [kind' [schema0 [st3 [G [_ [H1 H2]]]]]].
  rewrite Hget in G. inversion G; subst kind' schema0. clear G.
  fold env in H1, H2.
  assert (Hnd' : NoDup (Od.keys (Od.remove "__prompts__" schema)))
    by now apply NoDup_keys_remove.
  rewrite Hsplit in *.
  pose proof H1 as H1'. unfold pass1 in H1'.
  apply foldM_split in H1' as [st1 [st2 [P1 [P2 P3]]]].
  assert (Hfinal : forall v,
    Od.get key (cookiecutter_dict st2) = Some v ->
    Od.get key (cookiecutter_dict final) = Some v)
    by (intros v Hv; eapply run_value_from_pass1; eauto).
  pose proof P2 as Hstep. unfold pass1_step in Hstep.
  rewrite startswith_underscore in Hvis.
  apply orb_false_elim in Hvis as [Hp Hd].
  rewrite Hp, Hd in Hstep.
  assert (Hcwn : is_choice_with_nested (VDict kd d) = true)
    by (simpl; unfold Od.mem; rewrite Hch, Hun; reflexivity).
  rewrite Hcwn in Hstep. unfold resolve_choice_with_nested in Hstep.
  unfold py_item in Hstep. rewrite Hch, Hun in Hstep.
  cbn [bind tick cookiecutter_dict pending] in Hstep.
  inv_bind Hstep. destruct a as [choice_val sc1].
  inv_bind Hstep. rename a into condition. rename E0 into Econd.
  exists st1, choice_val, sc1.
  destruct no_input.
  - (* without input *)
    cbn [negb andb] in Hstep. inversion Hstep; subst st2.
    exists (choice_only choice_val).
    apply prompt_choice_no_input_first in E as Hfirst.
    destruct Hfirst as [-> Hfirst].
    repeat split; auto; try discriminate.
    apply Hfinal. simpl. apply OdFacts.get_set_same.
  - cbn [negb andb] in Hstep.
    destruct (truthy condition) eqn:Ht; cbn [negb] in Hstep.
    + inv_bind Hstep. rename a into expected_value.
      destruct (py_eq choice_val expected_value) eqn:Heq.
      * inv_bind Hstep. destruct a as [nested_val sc2].
        inversion Hstep; subst st2.
        exists (choice_merge choice_val nested_val).
        repeat split; auto; try discriminate.
        { apply Hfinal. simpl. apply OdFacts.get_set_same. }
        intros _. exists condition. rewrite Ht. split; [exact Econd|].
        exists expected_value. rewrite Heq. split; [exact E0|]. eauto.
      * inversion Hstep; subst st2.
        exists (choice_only choice_val).
        repeat split; auto; try discriminate.
        { apply Hfinal. simpl. apply OdFacts.get_set_same. }
        intros _. exists condition. rewrite Ht. split; [exact Econd|].
        exists expected_value. rewrite Heq. split; [exact E0|]. reflexivity.
    + inv_bind Hstep. destruct a as [nested_val sc2].
      inversion Hstep; subst st2.
      exists (choice_merge choice_val nested_val).
      repeat split; auto; try discriminate.
      { apply Hfinal. simpl. apply OdFacts.get_set_same. }
      intros _. exists condition. rewrite Ht. split; [exact Econd|]. eauto.
Qed.

Lemma mem_get_some {A} k (d : list (string * A)) :
  Od.mem k d = true -> exists v, Od.get k d = Some v.
Proof. unfold Od.mem. destruct (Od.get k d); [eauto | discriminate]. Qed.

Lemma distinct_NoDup l : distinct l = true -> NoDup l.
Proof.
  induction l as [|k l IH]; simpl; intros H; constructor.
  - apply andb_true_iff in H as [H _]. apply negb_true_iff in H.
    intros I.
    assert (E : existsb (String.eqb k) l = true).
    { apply existsb_exists. exists k. split; [exact I|].
      apply String.eqb_refl. }
    congruence.
  - apply andb_true_iff in H as [_ H]. auto.
Qed.

(** The loop of the nested resolver builds, after what it was given,
    the mapping of section 4.2. *)
Lemma nested_fields_resolves no_input
      (resolve : value -> script -> result (odict * script))
      prompts_nested its :
  (forall key value, In (key, value) its ->
     is_nested_config value = true ->
     forall sc sub sc', resolve value sc = Ok (sub, sc') ->
       exists kind fields,
         value = VDict kind fields /\
         resolve_nested no_input fields sc sub sc') ->
  NoDup (Od.keys its) ->
  forall res sc val sc',
    nested_fields resolve prompts_nested no_input its res sc
      = Ok (val, sc') ->
    (forall k, In k (Od.keys its) -> ~ In k (Od.keys res)) ->
    exists mapping,
      val = res ++ mapping /\ resolve_nested no_input its sc mapping sc'.
Proof.
  induction its as [|[key value] its IH];
    intros Hres Hnd res sc val sc' H Hf.
  - inversion H; subst. exists []. split; [now rewrite app_nil_r|].
    constructor.
  - inversion Hnd as [|? ? Hnk Hnd']; subst. simpl in H.
    assert (IH' := IH (fun k v I => Hres k v (or_intror I)) Hnd').
    destruct (reserved key) eqn:Hr.
    + destruct (IH' _ _ _ _ H) as [m [E R]].
      { intros k I. apply Hf. simpl; auto. }
      exists m. split; [exact E|]. now apply resolve_nested_skip.
    + inv_bind H. inv_bind H. destruct a0 as [x sc1].
      destruct (IH' _ _ _ _ H) as [m [Em R]].
      { intros k I. rewrite OdFacts.keys_set. intros [->|J];
          [contradiction|]. apply (Hf k); simpl; auto. }
      rewrite OdFacts.set_fresh in Em by (apply Hf; simpl; auto).
      exists ((key, x) :: m). split.
      { rewrite Em, <- app_assoc. reflexivity. }
      destruct (is_nested_config value) eqn:Hn.
      * inv_bind E0. destruct a0 as [sub sc2].
        inversion E0; subst x sc1.
        destruct (Hres key value (or_introl eq_refl) Hn _ _ _ E1)
          as [kind [fields [-> Rsub]]].
        eapply resolve_nested_recurse; eauto.
      * destruct no_input eqn:Hni.
        -- inversion E0; subst x sc1. now apply resolve_nested_copy.
        -- eapply resolve_nested_ask; eauto.
Qed.

(** What [_prompt_for_nested_config] returns is the full resolution of
    section 4.2. *)
Lemma nested_config_resolves no_input v :
  well_keyed v = true ->
  forall sc val sc',
    _prompt_for_nested_config v no_input sc = Ok (val, sc') ->
    exists kind fields,
      v = VDict kind fields /\
      resolve_nested no_input fields sc val sc'.
Proof.
  induction v using value_induction; intros Hwk sc val sc' Hr;
    simpl in Hr; try discriminate.
  simpl in Hwk. apply andb_true_iff in Hwk as [Hd Hall].
  exists k, d. split; [reflexivity|].
  apply nested_fields_resolves in Hr.
  - destruct Hr as [m [-> R]]. exact R.
  - intros key value I Hn sc0 sub sc0' Hs.
    rewrite Forall_forall in H. rewrite forallb_forall in Hall.
    apply (H (key, value) I (Hall (key, value) I) _ _ _ Hs).
  - now apply distinct_NoDup.
  - intros k0 _ [].
Qed.

(** C3: when the second loop reaches a key that is still unresolved and
    whose raw value is a mapping with ['__prompts__']: with no
    ['__conditional__'] the nested fields are fully resolved; with a
    ['__conditional__'] whose ['option'] names a resolved key, they are
    fully resolved when the value of that key equals the condition's
    ['value'], and otherwise the raw fields minus the two reserved ones
    are stored as they are, the script untouched.  Fully resolved: the
    value stored is the mapping [_prompt_for_nested_config] returns, and
    that mapping is the one section 4.2 describes ([resolve_nested]):
    every field other than the reserved ones, in declaration order, a
    nested configuration resolved in turn, any other field with its
    default without input and with the operator's answer otherwise.
    The value stored is the one returned. *)
Theorem second_pass_nested_config
        context kind schema no_input sc final context'
        pre key kd d post :
  Od.get "cookiecutter" context = Some (VDict kind schema) ->
  NoDup (Od.keys schema) ->
  Od.remove "__prompts__" schema = pre ++ (key, VDict kd d) :: post ->
  prompt_for_config_run context no_input sc = (Ok final, context') ->
  Od.mem "__prompts__" d = true ->
  well_keyed (VDict kd d) = true ->
  let env := create_env_with_context context in
  let raw := VDict kd d in
  exists st1 st2,
    pass1 env context' no_input (pre ++ (key, raw) :: post) (init sc)
      = Ok st1 /\
    pass2 env context' no_input pre st1 = Ok st2 /\
    (Od.mem key (cookiecutter_dict st2) = false ->
     exists st3 stored,
       pass2_step env context' no_input st2 (key, raw) = Ok st3 /\
       Od.get key (cookiecutter_dict st3) = Some stored /\
       Od.get key (cookiecutter_dict final) = Some stored /\
       (Od.get "__conditional__" d = None ->
        exists val sc',
          _prompt_for_nested_config raw no_input (pending st2)
            = Ok (val, sc') /\
          stored = VDict OrderedDict val /\ pending st3 = sc' /\
          resolve_nested no_input d (pending st2) val sc') /\
       (forall condition cond_key resolved expected_value,
          Od.get "__conditional__" d = Some condition ->
          py_get condition "option" VNone = Ok (VStr cond_key) ->
          Od.get cond_key (cookiecutter_dict st2) = Some resolved ->
          py_get condition "value" VNone = Ok expected_value ->
          if py_eq resolved expected_value then
            exists val sc',
              _prompt_for_nested_config raw no_input (pending st2)
                = Ok (val, sc') /\
              stored = VDict OrderedDict val /\ pending st3 = sc' /\
              resolve_nested no_input d (pending st2) val sc'
          else
            stored = strip_reserved d /\
            st3 = store key (strip_reserved d) st2)).
Proof.
  intros Hget Hnd Hsplit Hrun Hprompts Hwk env raw.
  apply run_inv in Hrun as [kind' [schema0 [st1 [G [_ [H1 H2]]]]]].
  rewrite Hget in G. inversion G; subst kind' schema0. clear G.
  fold env in H1, H2.
  assert (Hnd' : NoDup (Od.keys (Od.remove "__prompts__" schema)))
    by now apply NoDup_keys_remove.
  rewrite Hsplit in *. fold raw in H1, H2, Hnd'.
  pose proof H2 as H2'. unfold pass2 in H2'.
  apply foldM_split in H2' as [st2 [st3 [Q1 [Q2 Q3]]]].
  exists st1, st2. split; [exact H1|]. split; [exact Q1|].
  intros Hm.
  assert (Hfull : forall v s,
    _prompt_for_nested_config (VDict kd d) no_input (pending st2)
      = Ok (v, s) ->
    resolve_nested no_input d (pending st2) v s).
  { intros v s Hv.
    destruct (nested_config_resolves no_input _ Hwk _ _ _ Hv)
      as [kind0 [fields [Ev R]]].
    inversion Ev; subst. exact R. }
  assert (Hp : is_private key = false).
  { destruct (is_private key) eqn:Hp; [exfalso | reflexivity].
    edestruct run_effect as [K1 _]; [exact Hnd' | exact H1 | exact H2 |].
    assert (I : In key (Od.keys (cookiecutter_dict st1))).
    { rewrite K1. apply in_map_iff. exists (key, raw). split; auto.
      apply filter_In. split; [apply in_or_app; simpl; auto|].
      unfold handled1. rewrite startswith_underscore, Hp. reflexivity. }
    apply OdFacts.mem_true, mem_get_some in I as [v Hv].
    apply (pass2_get_stable _ _ _ _ _ _ _ _ Q1) in Hv.
    unfold Od.mem in Hm. rewrite Hv in Hm. discriminate. }
  pose proof Q2 as Hstep. unfold pass2_step in Hstep.
  rewrite Hm, Hp in Hstep. apply wrap_undefined_ok in Hstep.
  unfold raw in Hstep. rewrite Hprompts in Hstep.
  unfold resolve_nested_config in Hstep.
  inv_bind Hstep. destruct a as [val sc']. inversion Hstep; subst st3.
  clear Hstep.
  exists (store key val (with_pending sc' st2)), val.
  split; [exact Q2|].
  assert (Hstored : Od.get key (cookiecutter_dict
                                  (store key val (with_pending sc' st2)))
                    = Some val)
    by (simpl; apply OdFacts.get_set_same).
  split; [exact Hstored|].
  split; [exact (pass2_get_stable _ _ _ _ _ _ _ _ Q3 Hstored)|].
  split.
  - intros Hnone. unfold Od.mem in E. rewrite Hnone in E.
    inv_bind E. destruct a as [v s]. inversion E; subst.
    exists v, sc'. split; [auto|]. split; [auto|]. split; [auto|].
    apply Hfull. auto.
  - intros condition cond_key resolved expected_value Hc Ho Hr Hv.
    unfold Od.mem, py_item in E. rewrite Hc in E. cbn [bind] in E.
    rewrite Ho, Hv in E. cbn [bind context_get] in E. rewrite Hr in E.
    cbn [bind] in E.
    destruct (py_eq resolved expected_value).
    + inv_bind E. destruct a as [v s]. inversion E; subst.
      exists v, sc'. split; [auto|]. split; [auto|]. split; [auto|].
      apply Hfull. auto.
    + inversion E; subst. split; [reflexivity|].
      now rewrite with_pending_same.
Qed.

(** *** Where an undefined variable is reported *)

Lemma undefined_wrapped_scalar env context no_input st key s m :
  startswith "_" key = false ->
  render_variable env (VStr s) (cookiecutter_dict st)
    = Err (UndefinedError m) ->
  pass1_step env context no_input st (key, VStr s)
  = Err (UndefinedVariableInTemplate
           ("Unable to render variable '" ++ key ++ "'")
           (UndefinedError m) context).
Proof.
  intros Hv Hr. rewrite startswith_underscore in Hv.
  apply orb_false_elim in Hv as [Hp Hd].
  unfold pass1_step, resolve_simple. rewrite Hp, Hd.
  cbn [is_dict tick cookiecutter_dict]. rewrite Hr. reflexivity.
Qed.

Lemma undefined_wrapped_list env context no_input st key l m :
  startswith "_" key = false ->
  prompt_choice_for_config (cookiecutter_dict st) env (VList l) no_input
                           (pending st)
    = Err (UndefinedError m) ->
  pass1_step env context no_input st (key, VList l)
  = Err (UndefinedVariableInTemplate
           ("Unable to render variable '" ++ key ++ "'")
           (UndefinedError m) context).
Proof.
  intros Hv Hr. rewrite startswith_underscore in Hv.
  apply orb_false_elim in Hv as [Hp Hd].
  unfold pass1_step, resolve_simple. rewrite Hp, Hd.
  cbn [is_dict tick cookiecutter_dict pending]. rewrite Hr. reflexivity.
Qed.

Lemma undefined_wrapped_dict env context no_input st key kd d m :
  Od.mem key (cookiecutter_dict st) = false ->
  is_private key = false ->
  Od.mem "__prompts__" d = false ->
  render_variable env (VDict kd d) (cookiecutter_dict st)
    = Err (UndefinedError m) ->
  pass2_step env context no_input st (key, VDict kd d)
  = Err (UndefinedVariableInTemplate
           ("Unable to render variable '" ++ key ++ "'")
           (UndefinedError m) context).
Proof.
  intros Hm Hp Hn Hr. unfold pass2_step, resolve_dict.
  rewrite Hm, Hp, Hn. cbn [tick cookiecutter_dict]. rewrite Hr.
  reflexivity.
Qed.

Lemma undefined_bare_dunder env context no_input st key raw m :
  startswith "__" key = true ->
  render_variable env raw (cookiecutter_dict st) = Err (UndefinedError m) ->
  pass1_step env context no_input st (key, raw) = Err (UndefinedError m).
Proof.
  intros Hd Hr. unfold pass1_step, is_private. rewrite Hd, andb_false_r.
  rewrite Hr. reflexivity.
Qed.

Lemma undefined_bare_construct env context no_input st key kd d choices m :
  startswith "_" key = false ->
  is_choice_with_nested (VDict kd d) = true ->
  Od.get "choices" d = Some choices ->
  prompt_choice_for_config (cookiecutter_dict st) env choices no_input
                           (pending st)
    = Err (UndefinedError m) ->
  pass1_step env context no_input st (key, VDict kd d)
  = Err (UndefinedError m).
Proof.
  intros Hv Hc Hch Hr. rewrite startswith_underscore in Hv.
  apply orb_false_elim in Hv as [Hp Hd].
  unfold pass1_step, resolve_choice_with_nested, py_item.
  rewrite Hp, Hd, Hc, Hch.
  cbn [bind tick cookiecutter_dict pending]. rewrite Hr. reflexivity.
Qed.

(** ** The prompt functions *)

Lemma py_str_nat_inj i j : py_str_nat i = py_str_nat j -> i = j.
Proof.
  unfold py_str_nat. intros H.
  assert (Hnn : forall n, Nat.to_uint n <> Decimal.Nil).
  { intros n. rewrite <- (DecimalNat.Unsigned.of_to n) at 1.
    rewrite DecimalNat.Unsigned.to_of. apply DecimalFacts.unorm_nonnil. }
  apply DecimalNat.Unsigned.to_uint_inj.
  pose proof (NilZero.usu _ (Hnn i)) as Hi.
  pose proof (NilZero.usu _ (Hnn j)) as Hj.
  rewrite H in Hi. congruence.
Qed.

Lemma choice_map_lookup (l : list value) : forall a i,
  Od.get (py_str_nat (a + i))
         (combine (map py_str_nat (seq a (List.length l))) l)
  = nth_error l i.
Proof.
  induction l as [|x l IH]; intros a i; simpl.
  - destruct i; reflexivity.
  - destruct i as [|i].
    + rewrite Nat.add_0_r, String.eqb_refl. reflexivity.
    + destruct (String.eqb_spec (py_str_nat (a + S i)) (py_str_nat a))
        as [E|_].
      * apply py_str_nat_inj in E. lia.
      * replace (a + S i) with (S a + i) by lia. apply IH.
Qed.

Lemma choice_map_value (options : list value) k v :
  Od.get k (choice_map options) = Some v -> In v options.
Proof.
  unfold choice_map. generalize (map py_str_nat (seq 1 (List.length options))).
  intros ks. revert ks.
  induction options as [|o options IH]; intros [|k0 ks]; simpl;
    try discriminate.
  destruct (String.eqb k k0); [intros [= ->]; auto | eauto].
Qed.

Lemma existsb_keys_get {A} k (d : list (string * A)) :
  existsb (String.eqb k) (Od.keys d) = true -> exists v, Od.get k d = Some v.
Proof.
  induction d as [|[k0 v0] d IH]; simpl; [discriminate|].
  destruct (String.eqb k k0); simpl; eauto.
Qed.

Lemma Prompt_ask_choices_ok choices default sc s sc' :
  Prompt_ask_choices choices default sc = Ok (s, sc') ->
  (s = default \/ existsb (String.eqb s) choices = true) /\
  List.length sc' < List.length sc.
Proof.
  induction sc as [|a sc IH]; simpl; [discriminate|].
  destruct a as [|v].
  - intros [= <- <-]. split; [auto | lia].
  - destruct v; try (intros H; apply IH in H; destruct H; split; [auto|lia]).
    destruct (existsb (String.eqb s0) choices) eqn:E.
    + intros [= <- <-]. split; [auto | lia].
    + intros H; apply IH in H; destruct H; split; [auto|lia].
Qed.

Lemma Prompt_ask_choices_err choices default sc e :
  Prompt_ask_choices choices default sc = Err e -> e = EOFError.
Proof.
  induction sc as [|a sc IH]; simpl; [congruence|].
  destruct a as [|v]; [discriminate|].
  destruct v; auto.
  destruct (existsb (String.eqb s) choices); [discriminate | auto].
Qed.

Lemma read_user_choice_ok options sc v sc' :
  read_user_choice options sc = Ok (v, sc') ->
  In v options /\ List.length sc' < List.length sc.
Proof.
  unfold read_user_choice. destruct options as [|o options]; [discriminate|].
  intros H. inv_bind H. destruct a as [s sc1]. inv_bind H.
  inversion H; subst. apply Prompt_ask_choices_ok in E as [_ Hlen].
  split; [|exact Hlen].
  unfold py_item in E0. destruct (Od.get s _) eqn:G; [|discriminate].
  inversion E0; subst. eapply choice_map_value; eauto.
Qed.

(** X1: [read_user_choice] returns exactly one item of [options], after
    at least one answer of the operator. *)
Theorem read_user_choice_returns_an_option options sc v sc' :
  read_user_choice options sc = Ok (v, sc') ->
  In v options /\ List.length sc' < List.length sc.
Proof. apply read_user_choice_ok. Qed.

Lemma choice_keys_member (options : list value) i :
  i < List.length options ->
  existsb (String.eqb (py_str_nat (S i))) (Od.keys (choice_map options))
  = true.
Proof.
  intros Hi. apply existsb_exists. exists (py_str_nat (S i)).
  split; [|apply String.eqb_refl].
  unfold Od.keys, choice_map. rewrite in_map_iff.
  pose proof (choice_map_lookup options 1 i) as L. simpl in L.
  destruct (nth_error options i) as [o|] eqn:N.
  - exists (py_str_nat (S i), o). split; [reflexivity|].
    clear - L. revert L.
    generalize (combine (map py_str_nat (seq 1 (List.length options)))
                        options).
    induction l as [|[k0 v0] l IH]; simpl; [discriminate|].
    destruct (String.eqb_spec (py_str_nat (S i)) k0) as [->|_].
    + intros [= ->]. auto.
    + auto.
  - apply nth_error_None in N. lia.
Qed.

Lemma read_user_choice_picks options i o sc :
  nth_error options i = Some o ->
  read_user_choice options (Typed (VStr (py_str_nat (S i))) :: sc)
    = Ok (o, sc) /\
  (i = 0 -> read_user_choice options (Default :: sc) = Ok (o, sc)).
Proof.
  intros Hnth.
  assert (Hlen : i < List.length options)
    by (apply nth_error_Some; congruence).
  pose proof (choice_map_lookup options 1 i) as L. simpl in L.
  rewrite Hnth in L.
  destruct options as [|o0 options]; [destruct i; discriminate|].
  split.
  - unfold read_user_choice. cbn [Prompt_ask_choices].
    rewrite (choice_keys_member (o0 :: options) i Hlen).
    cbn [bind]. unfold py_item, choice_map. rewrite L. reflexivity.
  - intros ->. simpl in Hnth. inversion Hnth; subst o0.
    unfold read_user_choice. cbn [Prompt_ask_choices bind].
    unfold py_item. cbn. reflexivity.
Qed.

(** X2: which option an answer selects.  When [read_user_choice]
    returns and the first answer of the operator was the decimal number
    of a position, counted from one, the option returned is the one at
    that position; when the first answer was empty, it is the first
    option.  Either way that answer, and no other, has been consumed. *)
Theorem read_user_choice_selects options a sc v sc' :
  read_user_choice options (a :: sc) = Ok (v, sc') ->
  (forall i o,
      a = Typed (VStr (py_str_nat (S i))) ->
      nth_error options i = Some o ->
      v = o /\ sc' = sc) /\
  (a = Default -> nth_error options 0 = Some v /\ sc' = sc).
Proof.
  intros H. split.
  - intros i o -> Hn.
    destruct (read_user_choice_picks options i o sc Hn) as [E _].
    rewrite E in H. inversion H; auto.
  - intros ->. destruct options as [|o options]; [discriminate|].
    destruct (read_user_choice_picks (o :: options) 0 o sc eq_refl)
      as [_ E].
    rewrite (E eq_refl) in H. inversion H; subst; auto.
Qed.

Lemma read_user_choice_err options sc e :
  read_user_choice options sc = Err e ->
  (options = [] /\ e = ValueError "") \/ (options <> [] /\ e = EOFError).
Proof.
  unfold read_user_choice. destruct options as [|o options].
  - intros [= <-]. auto.
  - intros H. right. split; [discriminate|].
    destruct (Prompt_ask_choices _ _ sc) as [[s sc1]|e1] eqn:E; simpl in H.
    + exfalso. apply Prompt_ask_choices_ok in E as [[->|Hin] _].
      * cbn in H. discriminate.
      * apply existsb_keys_get in Hin as [v Hv].
        unfold py_item in H. rewrite Hv in H. discriminate.
    + inversion H; subst. eapply Prompt_ask_choices_err; eauto.
Qed.


Lemma read_user_variable_ok default_value sc :
  forall v sc',
    read_user_variable default_value sc = Ok (v, sc') ->
    v <> VNone /\ (v = default_value \/ exists s, v = VStr s) /\
    List.length sc' < List.length sc.
Proof.
  induction sc as [|a sc IH]; simpl; [discriminate|].
  destruct a as [|v0].
  - destruct default_value;
      try (intros v sc' [= <- <-]; repeat split;
           [discriminate | auto | lia]).
    intros v sc' H. apply IH in H as [? [? ?]]. repeat split; auto.
  - destruct v0;
      try (intros v sc' H; apply IH in H as [? [? ?]];
           repeat split; auto; fail).
    intros v sc' [= <- <-]. repeat split; [discriminate | eauto | lia].
Qed.

Lemma read_user_variable_err default_value sc e :
  read_user_variable default_value sc = Err e -> e = EOFError.
Proof.
  induction sc as [|a sc IH]; simpl; [congruence|].
  destruct a as [|v0].
  - destruct default_value; auto; discriminate.
  - destruct v0; auto; discriminate.
Qed.


Lemma JsonPrompt_ask_ok default_value sc :
  is_dict default_value = true ->
  forall v sc',
    JsonPrompt_ask default_value sc = Ok (v, sc') ->
    is_dict v = true /\ List.length sc' < List.length sc.
Proof.
  intros Hd. induction sc as [|a sc IH]; simpl; [discriminate|].
  intros v sc'. destruct a as [|v0].
  - intros [= <- <-]. split; [exact Hd | lia].
  - destruct v0; try (intros H; apply IH in H as [? ?]; split; [auto|lia]).
    intros [= <- <-]. split; [reflexivity | lia].
Qed.

(** X5: [read_user_dict] refuses a default that is no mapping without
    asking, and whatever it returns is a mapping. *)
Theorem read_user_dict_returns_a_mapping default_value sc :
  (is_dict default_value = false ->
   read_user_dict default_value sc = Err TypeError) /\
  (forall v sc',
      read_user_dict default_value sc = Ok (v, sc') ->
      is_dict v = true /\ List.length sc' < List.length sc).
Proof.
  unfold read_user_dict. split.
  - intros ->. reflexivity.
  - destruct (is_dict default_value) eqn:Hd; [|discriminate].
    now apply JsonPrompt_ask_ok.
Qed.

(** ** The variable renderer *)

Lemma forallb_set (P : value -> bool) k v (d : odict) :
  P v = true ->
  forallb (fun kv => P (snd kv)) d = true ->
  forallb (fun kv => P (snd kv)) (Od.set k v d) = true.
Proof.
  intros Hv. induction d as [|[k0 v0] d IH]; simpl.
  - now rewrite Hv.
  - destruct (String.eqb k k0); simpl.
    + rewrite Hv. intros H. apply andb_true_iff in H as [_ H]. exact H.
    + intros H. apply andb_true_iff in H as [H0 H].
      rewrite H0. simpl. auto.
Qed.

Lemma render_variable_shape env cookiecutter_dict raw :
  forall v,
    render_variable env raw cookiecutter_dict = Ok v ->
    rendered_shape v = true.
Proof.
  induction raw using value_induction; intros v Hr; simpl in Hr.
  - inversion Hr; reflexivity.
  - inversion Hr; reflexivity.
  - inv_bind Hr. inversion Hr; reflexivity.
  - inv_bind Hr. inversion Hr; reflexivity.
  - inv_bind Hr. inversion Hr; subst v. clear Hr. simpl.
    revert a E. induction H as [|x l Hx Hl IH]; intros l' E; simpl in E.
    + inversion E; reflexivity.
    + inv_bind E. inv_bind E. inversion E; subst l'. simpl.
      rewrite (Hx _ E0), (IH _ E1). reflexivity.
  - inv_bind Hr. inversion Hr; subst v. clear Hr. simpl.
    assert (G : forall acc d',
      forallb (fun kv => rendered_shape (snd kv)) acc = true ->
      foldM (fun acc kv =>
               k' <- render_str render_template env (fst kv)
                                cookiecutter_dict ;;
               v' <- render_variable env (snd kv) cookiecutter_dict ;;
               Ok (Od.set k' v' acc)) d acc = Ok d' ->
      forallb (fun kv => rendered_shape (snd kv)) d' = true).
    { clear a E. induction H as [|[k0 x] d Hx Hd IH]; intros acc d' Hacc E;
        simpl in E.
      - inversion E; subst; exact Hacc.
      - apply bind_ok_inv in E as [acc' [Estep E]]. simpl in Estep.
        apply bind_ok_inv in Estep as [k' [Ek Estep]].
        apply bind_ok_inv in Estep as [v' [Ev Estep]].
        inversion Estep; subst acc'.
        apply (IH _ _ (forallb_set rendered_shape k' v' acc
                         (Hx _ Ev) Hacc) E). }
    apply (G [] a eq_refl E).
Qed.

(** X6: whatever [render_variable] returns holds no number: every
    numeric leaf of the raw value has become a string, and every mapping
    in it is a plain [dict]. *)
Theorem render_variable_stringifies env cookiecutter_dict raw v :
  render_variable env raw cookiecutter_dict = Ok v ->
  rendered_shape v = true.
Proof. apply render_variable_shape. Qed.

Lemma render_variable_error env cookiecutter_dict raw :
  forall e,
    render_variable env raw cookiecutter_dict = Err e ->
    exists s, render_template env s (bindings cookiecutter_dict) = Err e.
Proof.
  induction raw using value_induction; intros e Hr; simpl in Hr;
    try discriminate.
  - unfold render_str in Hr.
    destruct (render_template env (py_str_int n) _) eqn:E; [discriminate|].
    inversion Hr; subst. eauto.
  - unfold render_str in Hr.
    destruct (render_template env s _) eqn:E; [discriminate|].
    inversion Hr; subst. eauto.
  - destruct (mapM _ l) as [l'|e'] eqn:E; [discriminate|].
    inversion Hr; subst e'. clear Hr.
    induction H as [|x l Hx Hl IH]; simpl in E; [discriminate|].
    destruct (render_variable env x cookiecutter_dict) eqn:Ex.
    + simpl in E. destruct (mapM _ l) eqn:El; [discriminate|].
      inversion E; subst. apply IH. reflexivity.
    + inversion E; subst. eauto.
  - destruct (foldM _ d []) as [d'|e'] eqn:E; [discriminate|].
    inversion Hr; subst e'. clear Hr.
    revert E. generalize (@nil (string * value)).
    induction H as [|[k0 x] d Hx Hd IH]; intros acc E; simpl in E;
      [discriminate|].
    unfold render_str in E at 1.
    destruct (render_template env k0 _) eqn:Ek; simpl in E.
    + destruct (render_variable env x cookiecutter_dict) eqn:Ex;
        simpl in E; [eauto|].
      inversion E; subst. eauto.
    + inversion E; subst. eauto.
Qed.

Notation first_failure := (first_failure render_template).

Lemma first_failure_app env cookiecutter_dict l1 l2 :
  first_failure env cookiecutter_dict (l1 ++ l2)
  = match first_failure env cookiecutter_dict l1 with
    | Some e => Some e
    | None => first_failure env cookiecutter_dict l2
    end.
Proof.
  induction l1 as [|s l1 IH]; simpl; [reflexivity|].
  destruct (render_template env s (bindings cookiecutter_dict)); auto.
Qed.

Lemma first_failure_none env cookiecutter_dict l :
  first_failure env cookiecutter_dict l = None <->
  Forall (fun s => exists r,
            render_template env s (bindings cookiecutter_dict) = Ok r) l.
Proof.
  induction l as [|s l IH]; simpl.
  - split; auto.
  - destruct (render_template env s (bindings cookiecutter_dict)) eqn:E.
    + rewrite IH. split.
      * intros F. constructor; eauto.
      * intros F. inversion F; auto.
    + split; [discriminate|].
      intros F. inversion F as [|? ? [r Hr] _]; subst. congruence.
Qed.

Lemma render_variable_first_failure env cookiecutter_dict raw :
  match render_variable env raw cookiecutter_dict with
  | Ok _ => first_failure env cookiecutter_dict (templates_of raw) = None
  | Err e => first_failure env cookiecutter_dict (templates_of raw) = Some e
  end.
Proof.
  induction raw using value_induction; simpl; try reflexivity.
  - unfold render_str.
    destruct (render_template env (py_str_int n) _); reflexivity.
  - unfold render_str. destruct (render_template env s _); reflexivity.
  - assert (M :
      match mapM (fun v => render_variable env v cookiecutter_dict) l with
      | Ok _ => first_failure env cookiecutter_dict
                  (flat_map templates_of l) = None
      | Err e => first_failure env cookiecutter_dict
                   (flat_map templates_of l) = Some e
      end).
    { induction H as [|x l Hx Hl IH]; simpl; [reflexivity|].
      rewrite first_failure_app.
      destruct (render_variable env x cookiecutter_dict); simpl;
        rewrite Hx; [|reflexivity].
      destruct (mapM _ l); simpl; exact IH. }
    destruct (mapM _ l); simpl; exact M.
  - assert (M : forall acc,
      match foldM (fun acc kv =>
                     k' <- render_str render_template env (fst kv)
                                      cookiecutter_dict ;;
                     v' <- render_variable env (snd kv) cookiecutter_dict ;;
                     Ok (Od.set k' v' acc)) d acc with
      | Ok _ => first_failure env cookiecutter_dict
                  (flat_map (fun kv => fst kv :: templates_of (snd kv)) d)
                = None
      | Err e => first_failure env cookiecutter_dict
                   (flat_map (fun kv => fst kv :: templates_of (snd kv)) d)
                 = Some e
      end).
    { induction H as [|[k0 x] d Hx Hd IH]; intros acc; simpl;
        [reflexivity|].
      unfold render_str at 1.
      destruct (render_template env k0 (bindings cookiecutter_dict));
        simpl; [|reflexivity].
      rewrite first_failure_app. simpl in Hx.
      destruct (render_variable env x cookiecutter_dict); simpl;
        rewrite Hx; [|reflexivity].
      apply IH. }
    specialize (M []). destruct (foldM _ d []); simpl; exact M.
Qed.

(** X7: [render_variable] fails exactly where the template engine
    fails.  The strings of a raw value are rendered one after the other
    ([templates_of]); the call raises the error of the engine on the
    first of them that the engine does not render, and it returns when
    the engine renders them all. *)
Theorem render_variable_fails_with_engine env cookiecutter_dict raw :
  (forall e,
      render_variable env raw cookiecutter_dict = Err e <->
      first_failure env cookiecutter_dict (templates_of raw) = Some e) /\
  ((exists v, render_variable env raw cookiecutter_dict = Ok v) <->
   Forall (fun s => exists r,
             render_template env s (bindings cookiecutter_dict) = Ok r)
          (templates_of raw)).
Proof.
  pose proof (render_variable_first_failure env cookiecutter_dict raw) as F.
  split.
  - intros e.
    destruct (render_variable env raw cookiecutter_dict) as [v|e0].
    + rewrite F. split; discriminate.
    + rewrite F. split; intros [= ->]; reflexivity.
  - rewrite <- first_failure_none.
    destruct (render_variable env raw cookiecutter_dict) as [v|e0].
    + split; eauto.
    + rewrite F. split; [intros [v Hv]; discriminate | discriminate].
Qed.

(** ** The nested configuration resolver *)

Lemma nested_fields_keys resolve prompts_nested no_input its :
  forall res sc res' sc',
    nested_fields resolve prompts_nested no_input its res sc
      = Ok (res', sc') ->
    NoDup (Od.keys its) ->
    (forall k, In k (Od.keys its) -> ~ In k (Od.keys res)) ->
    Od.keys res' = Od.keys res ++ plain_keys its.
Proof.
  unfold plain_keys.
  induction its as [|[key value] its IH]; intros res sc res' sc' H Hnd Hf.
  - inversion H; subst. simpl. now rewrite app_nil_r.
  - inversion Hnd as [|? ? Hnk Hnd']; subst. simpl in H. simpl.
    destruct (reserved key); simpl.
    + eapply IH; eauto. intros k I. apply Hf. simpl; auto.
    + inv_bind H. inv_bind H. destruct a0 as [val sc1].
      apply IH in H; auto.
      * rewrite H, OdFacts.set_fresh by (apply Hf; simpl; auto).
        rewrite keys_snoc, <- app_assoc. reflexivity.
      * intros k I. rewrite OdFacts.keys_set. intros [->|J];
          [contradiction|]. apply (Hf k); simpl; auto.
Qed.

(** X8: the mapping returned by [_prompt_for_nested_config] holds exactly
    the fields of the nested configuration other than ['__prompts__'] and
    ['__conditional__'], in declaration order, with or without input. *)
Theorem nested_config_keys kind items no_input sc res sc' :
  NoDup (Od.keys items) ->
  _prompt_for_nested_config (VDict kind items) no_input sc = Ok (res, sc') ->
  Od.keys res
  = filter (fun k => negb (reserved k)) (Od.keys items) /\
  Od.mem "__prompts__" res = false /\
  Od.mem "__conditional__" res = false.
Proof.
  intros Hnd H. simpl in H.
  apply nested_fields_keys in H; auto. simpl in H.
  split; [exact H|].
  split; apply OdFacts.mem_false; rewrite H; unfold plain_keys;
    rewrite filter_In; intros [_ Hr]; discriminate.
Qed.

Lemma nested_fields_get_stable resolve prompts_nested no_input its k :
  forall res sc res' sc',
    nested_fields resolve prompts_nested no_input its res sc
      = Ok (res', sc') ->
    ~ In k (Od.keys its) ->
    Od.get k res' = Od.get k res.
Proof.
  induction its as [|[key value] its IH]; intros res sc res' sc' H Hk.
  - inversion H; subst; reflexivity.
  - simpl in H. destruct (reserved key).
    + eapply IH; eauto. intros I; apply Hk; simpl; auto.
    + inv_bind H. inv_bind H. destruct a0 as [val sc1].
      apply IH in H; [|intros I; apply Hk; simpl; auto].
      rewrite H. apply OdFacts.get_set_other.
      intros ->. apply Hk. simpl; auto.
Qed.

Lemma nested_fields_defaults resolve prompts_nested its k v :
  forall res sc res' sc',
    nested_fields resolve prompts_nested true its res sc = Ok (res', sc') ->
    NoDup (Od.keys its) ->
    In (k, v) its ->
    reserved k = false ->
    is_nested_config v = false ->
    Od.get k res' = Some v.
Proof.
  induction its as [|[key value] its IH]; intros res sc res' sc' H Hnd HI Hr Hn;
    [contradiction|].
  inversion Hnd as [|? ? Hnk Hnd']; subst. simpl in H.
  destruct HI as [E|I].
  - inversion E; subst key value. rewrite Hr in H.
    inv_bind H. rewrite Hn in H. simpl in H.
    rewrite (nested_fields_get_stable _ _ _ _ _ _ _ _ _ H Hnk).
    apply OdFacts.get_set_same.
  - destruct (reserved key); [eapply IH; eauto|].
    inv_bind H. inv_bind H. destruct a0 as [val sc1].
    eapply IH; eauto.
Qed.

(** X9: without input [_prompt_for_nested_config] takes every default as
    it stands: a field that is neither reserved nor itself a nested
    configuration is returned with its raw value, and the operator is not
    consulted. *)
Theorem nested_config_defaults kind items sc res sc' k v :
  NoDup (Od.keys items) ->
  _prompt_for_nested_config (VDict kind items) true sc = Ok (res, sc') ->
  In (k, v) items ->
  reserved k = false ->
  is_nested_config v = false ->
  Od.get k res = Some v /\ sc' = sc.
Proof.
  intros Hnd H HI Hr Hn. split.
  - simpl in H. eapply nested_fields_defaults; eauto.
  - rewrite nested_config_no_input in H.
    destruct (_prompt_for_nested_config (VDict kind items) true [])
      as [[d s]|]; [|discriminate].
    simpl in H. inversion H; reflexivity.
Qed.

Lemma Prompt_ask_err default sc e :
  Prompt_ask default sc = Err e -> e = EOFError.
Proof.
  induction sc as [|a sc IH]; simpl; [congruence|].
  destruct a as [|v]; [discriminate|]. destruct v; auto; discriminate.
Qed.

Lemma nested_fields_err resolve prompts_nested no_input its :
  (forall kv, In kv its -> forall sc e,
      resolve (snd kv) sc = Err e ->
      e = AttributeError \/ (no_input = false /\ e = EOFError)) ->
  forall res sc e,
    nested_fields resolve prompts_nested no_input its res sc = Err e ->
    e = AttributeError \/ (no_input = false /\ e = EOFError).
Proof.
  induction its as [|[key value] its IH]; intros Hres res sc e H;
    [discriminate|].
  simpl in H.
  assert (IH' := IH (fun kv I => Hres kv (or_intror I))).
  destruct (reserved key); [eauto|].
  destruct (py_get prompts_nested key VNone) eqn:Eg; simpl in H.
  - destruct (is_nested_config value).
    + destruct (resolve value sc) as [[sub sc1]|e1] eqn:Er; simpl in H.
      * eauto.
      * inversion H; subst e1.
        apply (Hres (key, value) (or_introl eq_refl) sc e Er).
    + destruct no_input; simpl in H; [eauto|].
      destruct (Prompt_ask value sc) as [[x sc1]|e1] eqn:Ea; simpl in H.
      * eauto.
      * inversion H; subst e1. apply Prompt_ask_err in Ea. auto.
  - inversion H; subst e0. unfold py_get in Eg.
    destruct prompts_nested; inversion Eg; auto.
Qed.

Lemma nested_config_err no_input v :
  forall sc e,
    _prompt_for_nested_config v no_input sc = Err e ->
    e = AttributeError \/ (no_input = false /\ e = EOFError).
Proof.
  induction v using value_induction; intros sc e Hr; simpl in Hr;
    try (inversion Hr; auto; fail).
  eapply nested_fields_err; [|exact Hr].
  intros kv I. rewrite Forall_forall in H. apply (H kv I).
Qed.


Lemma nested_fields_total resolve prompts_nested its :
  is_dict prompts_nested = true ->
  (forall kv, In kv its -> is_nested_config (snd kv) = true ->
     forall sc, exists sub, resolve (snd kv) sc = Ok (sub, sc)) ->
  forall res sc, exists res',
    nested_fields resolve prompts_nested true its res sc = Ok (res', sc).
Proof.
  intros Hp. induction its as [|[key value] its IH]; intros Hres res sc.
  - simpl. eauto.
  - simpl. assert (IH' := IH (fun kv I => Hres kv (or_intror I))).
    destruct (reserved key); [apply IH'|].
    destruct prompts_nested; try discriminate. simpl.
    destruct (is_nested_config value) eqn:Hn.
    + destruct (Hres (key, value) (or_introl eq_refl) Hn sc) as [sub Hs].
      simpl in Hs. rewrite Hs. simpl. apply IH'.
    + simpl. apply IH'.
Qed.

Lemma nested_config_succeeds nested_config sc :
  prompts_well_formed nested_config = true ->
  exists res,
    _prompt_for_nested_config nested_config true sc = Ok (res, sc).
Proof.
  revert sc. induction nested_config using value_induction; intros sc Hwf;
    try discriminate.
  simpl in Hwf. apply andb_true_iff in Hwf as [Hp Hf].
  simpl. apply nested_fields_total.
  - destruct (Od.get "__prompts__" d); [exact Hp | reflexivity].
  - intros kv I Hn sc0. rewrite Forall_forall in H.
    apply (H kv I). rewrite forallb_forall in Hf.
    specialize (Hf kv I). rewrite Hn in Hf. exact Hf.
Qed.

(** X10: without input [_prompt_for_nested_config] asks nothing and
    renders nothing, so it can only raise [AttributeError], and only on
    a configuration that is no mapping or in which, at some depth, the
    ['__prompts__'] is no mapping. *)
Theorem nested_config_failures nested_config sc e :
  _prompt_for_nested_config nested_config true sc = Err e ->
  e = AttributeError /\ prompts_well_formed nested_config = false.
Proof.
  intros H. split.
  - destruct (nested_config_err true _ _ _ H) as [->|[D _]];
      [reflexivity | discriminate].
  - destruct (prompts_well_formed nested_config) eqn:W; [|reflexivity].
    destruct (nested_config_succeeds nested_config sc W) as [res E].
    congruence.
Qed.

(** X11: without input [_prompt_for_nested_config] succeeds on every
    nested configuration whose ['__prompts__'], at every depth, are
    mappings, and it leaves the script as it was. *)
Theorem nested_config_total nested_config sc :
  prompts_well_formed nested_config = true ->
  exists res,
    _prompt_for_nested_config nested_config true sc = Ok (res, sc).
Proof. apply nested_config_succeeds. Qed.

(** ** The context as it grows *)

Lemma first_pass_keys_char (schema : odict) (d : odict) :
  NoDup (Od.keys schema) ->
  Od.keys d = Od.keys (filter handled1 schema) ->
  forall k raw, In (k, raw) schema ->
    (In k (Od.keys d) <-> handled1 (k, raw) = true).
Proof.
  intros Hnd K k raw I. rewrite K. split.
  - intros J. apply in_map_iff in J as [[k' raw'] [Ek J]].
    simpl in Ek. subst k'. apply filter_In in J as [J Hh].
    pose proof (OdFacts.NoDup_get _ _ _ Hnd I) as G1.
    pose proof (OdFacts.NoDup_get _ _ _ Hnd J) as G2.
    congruence.
  - intros Hh. apply in_map_iff. exists (k, raw). split; auto.
    apply filter_In. auto.
Qed.

Lemma in_keys_item {A} k (d : list (string * A)) :
  In k (Od.keys d) <-> exists v, In (k, v) d.
Proof.
  unfold Od.keys. rewrite in_map_iff. split.
  - intros [[k' v] [E I]]. simpl in E. subst. eauto.
  - intros [v I]. exists (k, v). auto.
Qed.

(** X12: no key is lost or invented: the returned mapping binds exactly
    the keys of the schema other than ['__prompts__'], as many as there
    are. *)
Theorem prompt_for_config_keys_complete
        context kind schema no_input sc final context' :
  Od.get "cookiecutter" context = Some (VDict kind schema) ->
  NoDup (Od.keys schema) ->
  prompt_for_config_run context no_input sc = (Ok final, context') ->
  (forall k, In k (Od.keys (cookiecutter_dict final))
             <-> In k (Od.keys schema) /\ k <> "__prompts__") /\
  List.length (cookiecutter_dict final)
  = List.length (Od.remove "__prompts__" schema).
Proof.
  intros Hget Hnd Hrun.
  apply run_inv in Hrun as [kind' [schema0 [st1 [G [_ [H1 H2]]]]]].
  rewrite Hget in G. inversion G; subst kind' schema0. clear G.
  assert (Hnd' : NoDup (Od.keys (Od.remove "__prompts__" schema)))
    by now apply NoDup_keys_remove.
  edestruct run_effect as [_ [K _]]; [exact Hnd' | exact H1 | exact H2 |].
  set (s' := Od.remove "__prompts__" schema) in *.
  split.
  - intros k. rewrite K, in_app_iff.
    rewrite <- (and_comm (k <> "__prompts__")), <- OdFacts.keys_remove.
    fold s'. rewrite !in_keys_item. split.
    + intros [[v I]|[v I]]; apply filter_In in I as [I _]; eauto.
    + intros [v I]. destruct (handled1 (k, v)) eqn:Hh.
      * left. exists v. apply filter_In. auto.
      * right. exists v. apply filter_In. split; auto.
        rewrite deferred_handled1, Hh. reflexivity.
  - rewrite <- (length_map fst (cookiecutter_dict final)).
    change (map fst (cookiecutter_dict final))
      with (Od.keys (cookiecutter_dict final)).
    rewrite K. unfold Od.keys. rewrite length_app, !length_map.
    rewrite (filter_ext deferred (fun x => negb (handled1 x)))
      by apply deferred_handled1.
    apply filter_length.
Qed.

(** X13: resolution is strictly left to right.  When the first loop
    reaches a key, the context it resolves the key against binds exactly
    the keys declared before it that the first loop handles, each to the
    value it has in the returned context; nothing declared later is
    bound. *)
Theorem first_pass_context
        context kind schema no_input sc final context' pre key raw post :
  Od.get "cookiecutter" context = Some (VDict kind schema) ->
  NoDup (Od.keys schema) ->
  Od.remove "__prompts__" schema = pre ++ (key, raw) :: post ->
  prompt_for_config_run context no_input sc = (Ok final, context') ->
  let env := create_env_with_context context in
  exists st1 st2,
    pass1 env context' no_input pre (init sc) = Ok st1 /\
    pass1_step env context' no_input st1 (key, raw) = Ok st2 /\
    Od.keys (cookiecutter_dict st1) = Od.keys (filter handled1 pre) /\
    (forall k, In k (Od.keys post) -> Od.get k (cookiecutter_dict st1) = None) /\
    (forall k v, Od.get k (cookiecutter_dict st1) = Some v ->
                 Od.get k (cookiecutter_dict final) = Some v).
Proof.
  intros Hget Hnd Hsplit Hrun env.
  apply run_inv in Hrun as [kind' [schema0 [st3 [G [_ [H1 H2]]]]]].
  rewrite Hget in G. inversion G; subst kind' schema0. clear G.
  fold env in H1, H2.
  assert (Hnd' : NoDup (Od.keys (Od.remove "__prompts__" schema)))
    by now apply NoDup_keys_remove.
  rewrite Hsplit in *.
  pose proof H1 as H1'. unfold pass1 in H1'.
  apply foldM_split in H1' as [st1 [st2 [P1 [P2 P3]]]].
  assert (Hpre : NoDup (Od.keys pre)).
  { unfold Od.keys in *. rewrite map_app in Hnd'.
    eapply NoDup_app_remove_r; eauto. }
  assert (Hdisj : forall k, In k (Od.keys pre) ->
                            ~ In k (Od.keys ((key, raw) :: post))).
  { intros k I J. unfold Od.keys in *. rewrite map_app in Hnd'.
    revert I J. clear - Hnd'. revert Hnd'.
    generalize (map fst pre) (map fst ((key, raw) :: post)).
    induction l as [|x l IH]; intros l0 Hn I J; [contradiction|].
    inversion Hn as [|? ? Hx Hn']; subst. destruct I as [->|I].
    - apply Hx. apply in_or_app. auto.
    - eapply IH; eauto. }
  destruct (pass1_effect _ _ _ _ _ _ P1 Hpre) as [K1 _].
  { intros k _ I. exact I. }
  simpl in K1.
  exists st1, st2. repeat split; auto.
  - intros k I. apply OdFacts.get_none. rewrite K1. intros J.
    apply (Hdisj k).
    + apply in_map_iff in J as [x [E J]]. apply filter_In in J as [J _].
      apply in_map_iff. eauto.
    + simpl. auto.
  - intros k v Hv.
    assert (Ik : In k (Od.keys pre)).
    { apply OdFacts.get_some_in in Hv. rewrite K1 in Hv.
      apply in_map_iff in Hv as [x [E J]]. apply filter_In in J as [J _].
      apply in_map_iff. eauto. }
    apply (pass2_get_stable _ _ _ _ _ _ _ _ H2).
    assert (Hrest : pass1 env context' no_input ((key, raw) :: post) st1
                    = Ok st3).
    { unfold pass1. cbn [foldM]. rewrite P2. exact P3. }
    rewrite (pass1_get_stable _ _ _ _ _ _ k Hrest (Hdisj k Ik)).
    exact Hv.
Qed.

(** ** What each shape of raw value resolves to *)

Lemma run_at_key
      context kind schema no_input sc final context' pre key raw post :
  Od.get "cookiecutter" context = Some (VDict kind schema) ->
  NoDup (Od.keys schema) ->
  Od.remove "__prompts__" schema = pre ++ (key, raw) :: post ->
  prompt_for_config_run context no_input sc = (Ok final, context') ->
  exists st1 st2,
    pass1 (create_env_with_context context) context' no_input pre (init sc)
      = Ok st1 /\
    pass1_step (create_env_with_context context) context' no_input st1
               (key, raw) = Ok st2 /\
    (forall v, Od.get key (cookiecutter_dict st2) = Some v ->
               Od.get key (cookiecutter_dict final) = Some v).
Proof.
  intros Hget Hnd Hsplit Hrun.
  apply run_inv in Hrun as [kind' [schema0 [st3 [G [_ [H1 H2]]]]]].
  rewrite Hget in G. inversion G; subst kind' schema0. clear G.
  assert (Hnd' : NoDup (Od.keys (Od.remove "__prompts__" schema)))
    by now apply NoDup_keys_remove.
  rewrite Hsplit in *.
  pose proof H1 as H1'. unfold pass1 in H1'.
  apply foldM_split in H1' as [st1 [st2 [P1 [P2 P3]]]].
  exists st1, st2. repeat split; auto.
  intros v Hv. eapply run_value_from_pass1; eauto.
Qed.

Lemma mapM_ok_length {A B} (f : A -> result B) l l' :
  mapM f l = Ok l' -> List.length l' = List.length l.
Proof.
  revert l'. induction l as [|a l IH]; intros l' H; simpl in H.
  - inversion H; reflexivity.
  - inv_bind H. inv_bind H. inversion H; subst. simpl. f_equal. auto.
Qed.

(** X14: a visible key whose raw value is a list is stored as
    [{"choice": v}], where [v] is one of the options of the list as
    rendered against the context of the keys before it: the first one
    without input; otherwise the one [read_user_choice] returns for the
    rendered options on the script as the first loop has left it, which
    is the option at the position the operator typed, or the first
    option on an empty answer. *)
Theorem list_key_resolution
        context kind schema no_input sc final context' pre key l post :
  Od.get "cookiecutter" context = Some (VDict kind schema) ->
  NoDup (Od.keys schema) ->
  Od.remove "__prompts__" schema = pre ++ (key, VList l) :: post ->
  prompt_for_config_run context no_input sc = (Ok final, context') ->
  startswith "_" key = false ->
  let env := create_env_with_context context in
  exists st1 rendered v,
    pass1 env context' no_input pre (init sc) = Ok st1 /\
    mapM (fun raw => render_variable env raw (cookiecutter_dict st1)) l
      = Ok rendered /\
    In v rendered /\
    Od.get key (cookiecutter_dict final) = Some (choice_only v) /\
    (no_input = true -> nth_error rendered 0 = Some v) /\
    (no_input = false ->
     exists sc',
       read_user_choice rendered (pending st1) = Ok (v, sc') /\
       (forall i o sc2,
           pending st1 = Typed (VStr (py_str_nat (S i))) :: sc2 ->
           nth_error rendered i = Some o -> v = o) /\
       (forall sc2,
           pending st1 = Default :: sc2 -> nth_error rendered 0 = Some v)).
Proof.
  intros Hget Hnd Hsplit Hrun Hvis env.
  destruct (run_at_key _ _ _ _ _ _ _ _ _ _ _ Hget Hnd Hsplit Hrun)
    as [st1 [st2 [P1 [P2 Hfinal]]]].
  fold env in P1, P2.
  rewrite startswith_underscore in Hvis.
  apply orb_false_elim in Hvis as [Hp Hd].
  unfold pass1_step, resolve_simple in P2. rewrite Hp, Hd in P2.
  apply wrap_undefined_ok in P2.
  cbn [is_dict tick cookiecutter_dict pending] in P2.
  inv_bind P2. destruct a as [v sc1]. inversion P2; subst st2. clear P2.
  unfold prompt_choice_for_config in E. cbn [py_iter bind] in E.
  inv_bind E. rename a into rendered.
  exists st1, rendered, v.
  assert (Hin : In v rendered /\ (no_input = true ->
                                  nth_error rendered 0 = Some v)).
  { destruct no_input.
    - destruct rendered as [|o rest]; [discriminate|].
      inversion E; subst. simpl. auto.
    - apply read_user_choice_ok in E as [I _]. split; [exact I|].
      discriminate. }
  destruct Hin as [Hin Hfirst].
  split; [exact P1|]. split; [exact E0|]. split; [exact Hin|].
  split; [apply Hfinal; simpl; apply OdFacts.get_set_same|].
  split; [exact Hfirst|].
  intros ->. exists sc1. split; [exact E|]. split.
  - intros i o sc2 Hsc Hn. rewrite Hsc in E.
    destruct (read_user_choice_picks rendered i o sc2 Hn) as [Ep _].
    rewrite Ep in E. inversion E; reflexivity.
  - intros sc2 Hsc. rewrite Hsc in E.
    destruct rendered as [|o rest]; [discriminate|].
    destruct (read_user_choice_picks (o :: rest) 0 o sc2 eq_refl)
      as [_ Ep].
    rewrite (Ep eq_refl) in E. inversion E; reflexivity.
Qed.

Lemma YesNoPrompt_ask_bool b sc v sc' :
  YesNoPrompt_ask (VBool b) sc = Ok (v, sc') -> exists b', v = VBool b'.
Proof.
  induction sc as [|a sc IH]; simpl; [discriminate|].
  destruct a as [|v0].
  - intros [= <- _]. eauto.
  - destruct v0; auto. intros [= <- _]. eauto.
Qed.

(** X15: a visible key whose raw value is a boolean resolves to a
    boolean: the raw value itself without input, the operator's answer
    or the raw value otherwise. *)
Theorem boolean_key_resolution
        context kind schema no_input sc final context' pre key b post :
  Od.get "cookiecutter" context = Some (VDict kind schema) ->
  NoDup (Od.keys schema) ->
  Od.remove "__prompts__" schema = pre ++ (key, VBool b) :: post ->
  prompt_for_config_run context no_input sc = (Ok final, context') ->
  startswith "_" key = false ->
  exists b',
    Od.get key (cookiecutter_dict final) = Some (VBool b') /\
    (no_input = true -> b' = b).
Proof.
  intros Hget Hnd Hsplit Hrun Hvis.
  destruct (run_at_key _ _ _ _ _ _ _ _ _ _ _ Hget Hnd Hsplit Hrun)
    as [st1 [st2 [P1 [P2 Hfinal]]]].
  rewrite startswith_underscore in Hvis.
  apply orb_false_elim in Hvis as [Hp Hd].
  unfold pass1_step, resolve_simple in P2. rewrite Hp, Hd in P2.
  apply wrap_undefined_ok in P2.
  cbn [is_dict tick cookiecutter_dict pending] in P2.
  destruct no_input.
  - simpl in P2. inversion P2; subst st2. exists b. split; [|reflexivity].
    apply Hfinal. simpl. apply OdFacts.get_set_same.
  - inv_bind P2. destruct a as [v sc1]. inversion P2; subst st2.
    unfold read_user_yes_no in E.
    apply YesNoPrompt_ask_bool in E as [b' ->].
    exists b'. split; [|discriminate].
    apply Hfinal. simpl. apply OdFacts.get_set_same.
Qed.

(** X16: a visible key whose raw value is a string or a number resolves
    to a string: the raw value rendered against the context of the keys
    before it without input, that rendering or what the operator typed
    otherwise.  A numeric default comes back as text. *)
Theorem scalar_key_resolution
        context kind schema no_input sc final context' pre key raw post :
  Od.get "cookiecutter" context = Some (VDict kind schema) ->
  NoDup (Od.keys schema) ->
  Od.remove "__prompts__" schema = pre ++ (key, raw) :: post ->
  prompt_for_config_run context no_input sc = (Ok final, context') ->
  startswith "_" key = false ->
  (exists s, raw = VStr s) \/ (exists n, raw = VInt n) ->
  let env := create_env_with_context context in
  exists st1 rendered stored,
    pass1 env context' no_input pre (init sc) = Ok st1 /\
    render_variable env raw (cookiecutter_dict st1) = Ok (VStr rendered) /\
    Od.get key (cookiecutter_dict final) = Some (VStr stored) /\
    (no_input = true -> stored = rendered).
Proof.
  intros Hget Hnd Hsplit Hrun Hvis Hraw env.
  destruct (run_at_key _ _ _ _ _ _ _ _ _ _ _ Hget Hnd Hsplit Hrun)
    as [st1 [st2 [P1 [P2 Hfinal]]]].
  fold env in P1, P2.
  rewrite startswith_underscore in Hvis.
  apply orb_false_elim in Hvis as [Hp Hd].
  unfold pass1_step, resolve_simple in P2. rewrite Hp, Hd in P2.
  assert (Hinner :
    (val <- render_variable env raw (cookiecutter_dict st1) ;;
     if negb no_input then
       '(val, sc0) <- read_user_variable val (pending st1) ;;
       Ok (store key val (with_pending sc0 (tick key st1)))
     else Ok (store key val (tick key st1))) = Ok st2).
  { destruct Hraw as [[s ->]|[n ->]]; apply wrap_undefined_ok in P2;
      exact P2. }
  clear P2. inv_bind Hinner. rename a into val.
  assert (Hval : exists rendered, val = VStr rendered).
  { destruct Hraw as [[s ->]|[n ->]]; simpl in E; inv_bind E;
      inversion E; eauto. }
  destruct Hval as [rendered ->].
  exists st1, rendered.
  destruct no_input; cbn [negb] in Hinner.
  - inversion Hinner; subst st2. exists rendered. repeat split; auto.
    apply Hfinal. simpl. apply OdFacts.get_set_same.
  - inv_bind Hinner. destruct a as [val sc0]. inversion Hinner; subst st2.
    apply read_user_variable_ok in E0 as [_ [Hv _]].
    assert (Hs : exists stored, val = VStr stored)
      by (destruct Hv as [->|[s ->]]; eauto).
    destruct Hs as [stored ->]. exists stored. repeat split; auto.
    + apply Hfinal. simpl. apply OdFacts.get_set_same.
    + discriminate.
Qed.

Lemma NoDup_keys_app_l {A} (pre post : list (string * A)) :
  NoDup (Od.keys (pre ++ post)) -> NoDup (Od.keys pre).
Proof.
  unfold Od.keys. rewrite map_app. apply NoDup_app_remove_r.
Qed.

Lemma second_pass_at_key
      context kind schema no_input sc final context' pre key raw post :
  Od.get "cookiecutter" context = Some (VDict kind schema) ->
  NoDup (Od.keys schema) ->
  Od.remove "__prompts__" schema = pre ++ (key, raw) :: post ->
  prompt_for_config_run context no_input sc = (Ok final, context') ->
  let env := create_env_with_context context in
  let schema' := pre ++ (key, raw) :: post in
  exists st1 st2 st3,
    pass1 env context' no_input schema' (init sc) = Ok st1 /\
    pass2 env context' no_input pre st1 = Ok st2 /\
    pass2_step env context' no_input st2 (key, raw) = Ok st3 /\
    pass2 env context' no_input post st3 = Ok final /\
    Od.keys (cookiecutter_dict st2)
      = Od.keys (filter handled1 schema') ++ Od.keys (filter deferred pre) /\
    (forall k r, In (k, r) schema' -> handled1 (k, r) = true ->
       exists v, Od.get k (cookiecutter_dict st2) = Some v /\
                 Od.get k (cookiecutter_dict final) = Some v) /\
    (deferred (key, raw) = true ->
     Od.mem key (cookiecutter_dict st2) = false).
Proof.
  intros Hget Hnd Hsplit Hrun env schema'.
  apply run_inv in Hrun as [kind' [schema0 [st1 [G [_ [H1 H2]]]]]].
  rewrite Hget in G. inversion G; subst kind' schema0. clear G.
  fold env in H1, H2.
  assert (Hnd' : NoDup (Od.keys (Od.remove "__prompts__" schema)))
    by now apply NoDup_keys_remove.
  rewrite Hsplit in *. fold schema' in H1, H2, Hnd'.
  pose proof H2 as H2'. unfold pass2, schema' in H2'.
  apply foldM_split in H2' as [st2 [st3 [Q1 [Q2 Q3]]]].
  edestruct run_effect as [K1 _]; [exact Hnd' | exact H1 | exact H2 |].
  pose proof (first_pass_keys_char schema' _ Hnd' K1) as Hchar.
  assert (Hpre : NoDup (Od.keys pre))
    by (apply (NoDup_keys_app_l pre ((key, raw) :: post)); exact Hnd').
  destruct (pass2_effect _ _ _ _ _ _ Q1 Hpre) as [K2 _].
  { intros k r I. apply Hchar. unfold schema'. apply in_or_app. auto. }
  rewrite K1 in K2.
  exists st1, st2, st3. repeat split; auto.
  - intros k r I Hh.
    assert (J : In k (Od.keys (cookiecutter_dict st1)))
      by (apply (Hchar k r I); exact Hh).
    apply OdFacts.mem_true, mem_get_some in J as [v Hv].
    exists v. split.
    + apply (pass2_get_stable _ _ _ _ _ _ _ _ Q1 Hv).
    + apply (pass2_get_stable _ _ _ _ _ _ _ _ H2 Hv).
  - intros Hdef. apply OdFacts.mem_false. rewrite K2, in_app_iff.
    intros [J|J].
    + rewrite <- K1 in J.
      apply (Hchar key raw) in J;
        [|unfold schema'; apply in_or_app; simpl; auto].
      rewrite deferred_handled1, J in Hdef. discriminate.
    + apply in_map_iff in J as [x [E J]]. apply filter_In in J as [J _].
      unfold Od.keys, schema' in Hnd'. rewrite map_app in Hnd'.
      apply NoDup_remove_2 in Hnd'. apply Hnd'. apply in_or_app. left.
      apply in_map_iff. eauto.
Qed.

(** X17: the second loop sees the whole first loop.  When it reaches a
    key, the context binds every key of the schema that the first loop
    handles, those declared after the key as well as those before it,
    each to the value it has in the returned context, and besides them
    only the mappings resolved earlier in the second loop. *)
Theorem second_pass_context
        context kind schema no_input sc final context' pre key raw post :
  Od.get "cookiecutter" context = Some (VDict kind schema) ->
  NoDup (Od.keys schema) ->
  Od.remove "__prompts__" schema = pre ++ (key, raw) :: post ->
  prompt_for_config_run context no_input sc = (Ok final, context') ->
  let env := create_env_with_context context in
  let schema' := pre ++ (key, raw) :: post in
  exists st1 st2 st3,
    pass1 env context' no_input schema' (init sc) = Ok st1 /\
    pass2 env context' no_input pre st1 = Ok st2 /\
    pass2_step env context' no_input st2 (key, raw) = Ok st3 /\
    Od.keys (cookiecutter_dict st2)
      = Od.keys (filter handled1 schema') ++ Od.keys (filter deferred pre) /\
    (forall k r, In (k, r) schema' -> handled1 (k, r) = true ->
       exists v, Od.get k (cookiecutter_dict st2) = Some v /\
                 Od.get k (cookiecutter_dict final) = Some v).
Proof.
  intros Hget Hnd Hsplit Hrun env schema'.
  destruct (second_pass_at_key _ _ _ _ _ _ _ _ _ _ _ Hget Hnd Hsplit Hrun)
    as [st1 [st2 [st3 [H1 [Q1 [Q2 [_ [K [Hall _]]]]]]]]].
  exists st1, st2, st3. repeat split; auto.
Qed.

(** X18: a visible key whose raw value is a mapping without
    ['__prompts__'], and not the choice construct, resolves to a mapping:
    without input, the raw value rendered against the context the second
    loop has reached, which holds every answer of the first loop;
    otherwise what [read_user_dict] returns for that rendering on the
    script as it stands, which is the rendering itself on an empty
    answer and the mapping the operator typed otherwise. *)
Theorem plain_dict_key_resolution
        context kind schema no_input sc final context' pre key raw post :
  Od.get "cookiecutter" context = Some (VDict kind schema) ->
  NoDup (Od.keys schema) ->
  Od.remove "__prompts__" schema = pre ++ (key, raw) :: post ->
  prompt_for_config_run context no_input sc = (Ok final, context') ->
  deferred (key, raw) = true ->
  is_nested_config raw = false ->
  let env := create_env_with_context context in
  exists st1 st2 rendered stored,
    pass1 env context' no_input (pre ++ (key, raw) :: post) (init sc)
      = Ok st1 /\
    pass2 env context' no_input pre st1 = Ok st2 /\
    render_variable env raw (cookiecutter_dict st2) = Ok rendered /\
    Od.get key (cookiecutter_dict final) = Some stored /\
    is_dict stored = true /\
    (no_input = true -> stored = rendered) /\
    (no_input = false ->
     exists sc',
       read_user_dict rendered (pending st2) = Ok (stored, sc') /\
       (forall sc2, pending st2 = Default :: sc2 -> stored = rendered) /\
       (forall k0 d0 sc2,
           pending st2 = Typed (VDict k0 d0) :: sc2 ->
           stored = VDict k0 d0)).
Proof.
  intros Hget Hnd Hsplit Hrun Hdef Hplain env.
  destruct (second_pass_at_key _ _ _ _ _ _ _ _ _ _ _ Hget Hnd Hsplit Hrun)
    as [st1 [st2 [st3 [H1 [Q1 [Q2 [Q3 [_ [_ Hm]]]]]]]]].
  fold env in H1, Q1, Q2, Q3.
  specialize (Hm Hdef).
  apply deferred_not_private in Hdef as [Hp [Hd [Hdict _]]].
  unfold pass2_step in Q2. rewrite Hm, Hp in Q2.
  apply wrap_undefined_ok in Q2.
  destruct raw as [| | | | |kd d]; try discriminate.
  simpl in Hplain. rewrite Hplain in Q2. unfold resolve_dict in Q2.
  cbn [tick cookiecutter_dict pending] in Q2.
  inv_bind Q2. rename a into rendered.
  assert (Hrd : is_dict rendered = true).
  { simpl in E. inv_bind E. inversion E; reflexivity. }
  exists st1, st2, rendered.
  assert (Hfinal : forall v,
    Od.get key (cookiecutter_dict st3) = Some v ->
    Od.get key (cookiecutter_dict final) = Some v)
    by (intros v Hv; apply (pass2_get_stable _ _ _ _ _ _ _ _ Q3 Hv)).
  rewrite Hd, andb_true_r in Q2.
  destruct no_input; cbn [negb] in Q2.
  - inversion Q2; subst st3. exists rendered.
    split; [exact H1|]. split; [exact Q1|]. split; [exact E|].
    split; [apply Hfinal; simpl; apply OdFacts.get_set_same|].
    split; [exact Hrd|]. split; [reflexivity | discriminate].
  - inv_bind Q2. destruct a as [val sc1]. inversion Q2; subst st3.
    pose proof E0 as Hask.
    unfold read_user_dict in E0. rewrite Hrd in E0.
    pose proof E0 as Hjson.
    apply (JsonPrompt_ask_ok _ _ Hrd) in E0 as [Hv _].
    exists val.
    split; [exact H1|]. split; [exact Q1|]. split; [exact E|].
    split; [apply Hfinal; simpl; apply OdFacts.get_set_same|].
    split; [exact Hv|]. split; [discriminate|].
    intros _. exists sc1. split; [exact Hask|]. split.
    + intros sc2 Hsc. rewrite Hsc in Hjson. simpl in Hjson.
      inversion Hjson; reflexivity.
    + intros k0 d0 sc2 Hsc. rewrite Hsc in Hjson. simpl in Hjson.
      inversion Hjson; reflexivity.
Qed.

(** ** What is raised *)

Lemma quiet_ok {A} (a : A) : quiet (Ok a).
Proof. intros e H. discriminate. Qed.

Lemma quiet_err {A} e : foreign_error e -> quiet (@Err A e).
Proof. intros He e' H. inversion H; subst. exact He. Qed.

Lemma quiet_bind {A B} (m : result A) (f : A -> result B) :
  quiet m -> (forall a, quiet (f a)) -> quiet (bind m f).
Proof.
  intros Hm Hf e H. destruct m as [a|e0]; simpl in H.
  - apply (Hf a e H).
  - inversion H; subst e0. apply (Hm e eq_refl).
Qed.

Lemma quiet_engine_error e :
  (e = AttributeError \/ e = EOFError \/ e = TypeError \/ e = IndexError
   \/ (exists k, e = KeyError k) \/ (exists m, e = ValueError m)) ->
  foreign_error e.
Proof.
  intros [->|[->|[->|[->|[[k ->]|[m ->]]]]]]; exact I.
Qed.

Lemma quiet_py_item d k : quiet (py_item d k).
Proof.
  unfold py_item. destruct (Od.get k d); [apply quiet_ok|].
  apply quiet_err. exact I.
Qed.

Lemma quiet_py_get v k default : quiet (py_get v k default).
Proof.
  unfold py_get. destruct v; try (apply quiet_err; exact I). apply quiet_ok.
Qed.

Lemma quiet_py_iter v : quiet (py_iter v).
Proof.
  unfold py_iter. destruct v; try (apply quiet_err; exact I); apply quiet_ok.
Qed.

Lemma quiet_context_get d k : quiet (context_get d k).
Proof.
  unfold context_get.
  destruct k; try (apply quiet_err; exact I); apply quiet_ok.
Qed.

Lemma quiet_read_user_choice options sc : quiet (read_user_choice options sc).
Proof.
  intros e H. apply read_user_choice_err in H as [[_ ->]|[_ ->]]; exact I.
Qed.

Lemma quiet_read_user_variable d sc : quiet (read_user_variable d sc).
Proof. intros e H. apply read_user_variable_err in H as ->. exact I. Qed.

Lemma YesNoPrompt_ask_err default sc e :
  YesNoPrompt_ask default sc = Err e -> e = EOFError.
Proof.
  induction sc as [|a sc IH]; simpl; [congruence|].
  destruct a as [|v]; [discriminate|]. destruct v; auto; discriminate.
Qed.

Lemma JsonPrompt_ask_err default sc e :
  JsonPrompt_ask default sc = Err e -> e = EOFError.
Proof.
  induction sc as [|a sc IH]; simpl; [congruence|].
  destruct a as [|v]; [discriminate|]. destruct v; auto; discriminate.
Qed.

Lemma quiet_read_user_yes_no d sc : quiet (read_user_yes_no d sc).
Proof. intros e H. apply YesNoPrompt_ask_err in H as ->. exact I. Qed.

Lemma quiet_read_user_dict d sc : quiet (read_user_dict d sc).
Proof.
  unfold read_user_dict. destruct (is_dict d); [|apply quiet_err; exact I].
  intros e H. apply JsonPrompt_ask_err in H as ->. exact I.
Qed.

Lemma quiet_nested_config v no_input sc :
  quiet (_prompt_for_nested_config v no_input sc).
Proof.
  intros e H. apply nested_config_err in H as [->|[_ ->]]; exact I.
Qed.

Section EngineErrors.

(** The engine raises its own exceptions, never this module's. *)
Hypothesis engine_foreign :
  forall env s b e, render_template env s b = Err e -> foreign_error e.

Lemma quiet_render_variable env raw d : quiet (render_variable env raw d).
Proof.
  intros e H. apply render_variable_error in H as [s Hs].
  eapply engine_foreign; eauto.
Qed.

Lemma quiet_mapM {A B} (f : A -> result B) l :
  (forall a, quiet (f a)) -> quiet (mapM f l).
Proof.
  intros Hf. induction l as [|a l IH]; simpl; [apply quiet_ok|].
  apply quiet_bind; [apply Hf|]. intros b.
  apply quiet_bind; [exact IH|]. intros bs. apply quiet_ok.
Qed.

Lemma quiet_prompt_choice d env options no_input sc :
  quiet (prompt_choice_for_config d env options no_input sc).
Proof.
  unfold prompt_choice_for_config.
  apply quiet_bind; [apply quiet_py_iter|]. intros its.
  apply quiet_bind;
    [apply quiet_mapM; intros; apply quiet_render_variable|].
  intros rendered. destruct no_input; [|apply quiet_read_user_choice].
  destruct rendered; [apply quiet_err; exact I | apply quiet_ok].
Qed.

Ltac quiet_step :=
  first
    [ apply quiet_ok
    | apply quiet_py_item | apply quiet_py_get | apply quiet_context_get
    | apply quiet_render_variable | apply quiet_prompt_choice
    | apply quiet_nested_config | apply quiet_read_user_yes_no
    | apply quiet_read_user_variable | apply quiet_read_user_dict
    | apply quiet_bind; [|intros]
    | match goal with
      | |- quiet (if ?b then _ else _) => destruct b
      | |- quiet (match ?p with (_, _) => _ end) => destruct p
      | |- quiet (let '(_, _) := ?p in _) => destruct p
      end ].

Lemma wrap_undefined_report {A} key context (r : result A) e :
  quiet r ->
  wrap_undefined key context r = Err e ->
  foreign_error e \/ reported key context e.
Proof.
  intros Hq H. destruct r as [a|e0]; [discriminate|].
  destruct e0; simpl in H; inversion H; subst;
    try (left; apply (Hq _ eq_refl)).
  right. exists message. reflexivity.
Qed.

Lemma pass1_step_report env context no_input st key raw e :
  pass1_step env context no_input st (key, raw) = Err e ->
  foreign_error e \/ reported key context e.
Proof.
  unfold pass1_step.
  destruct (is_private key); [discriminate|].
  destruct (startswith "__" key).
  { intros H. left. revert e H. change (quiet
      (v <- render_variable env raw (cookiecutter_dict st) ;;
       Ok (store key v st))). repeat quiet_step. }
  assert (Hsimple : forall e,
    resolve_simple render_template env context no_input key raw st = Err e ->
    foreign_error e \/ reported key context e).
  { intros e0. unfold resolve_simple. apply wrap_undefined_report.
    destruct raw; repeat quiet_step. }
  destruct raw; try apply Hsimple.
  destruct (is_choice_with_nested (VDict kind items)); [|apply Hsimple].
  intros H. left. revert e H.
  change (quiet (resolve_choice_with_nested render_template env no_input
                   key items st)).
  unfold resolve_choice_with_nested. repeat quiet_step.
Qed.

Lemma pass2_step_report env context no_input st key raw e :
  pass2_step env context no_input st (key, raw) = Err e ->
  foreign_error e \/ reported key context e.
Proof.
  unfold pass2_step.
  destruct (Od.mem key (cookiecutter_dict st)); [discriminate|].
  destruct (is_private key); [discriminate|].
  apply wrap_undefined_report.
  destruct raw; try apply quiet_ok.
  destruct (Od.mem "__prompts__" items).
  - unfold resolve_nested_config. repeat quiet_step.
  - unfold resolve_dict. repeat quiet_step.
Qed.

Lemma foldM_report {S} (step : S -> string * value -> result S)
      (context : odict) items :
  (forall s key raw e, step s (key, raw) = Err e ->
     foreign_error e \/ reported key context e) ->
  forall s e,
    foldM step items s = Err e ->
    foreign_error e \/
    exists key, In key (Od.keys items) /\ reported key context e.
Proof.
  intros Hstep. induction items as [|[key raw] items IH]; intros s e H;
    simpl in H; [discriminate|].
  destruct (step s (key, raw)) as [s'|e0] eqn:E; simpl in H.
  - apply IH in H as [H|[k [I R]]]; [auto|]. right. exists k. simpl. auto.
  - inversion H; subst e0. apply Hstep in E as [E|E]; [auto|].
    right. exists key. simpl. auto.
Qed.

(** X19: as long as the template engine raises only its own exceptions,
    an [UndefinedVariableInTemplate] that leaves [prompt_for_config] has
    the message [Unable to render variable 'key'] for a key of the schema
    other than ['__prompts__'], wraps the engine's [UndefinedError], and
    carries the caller's context as the call has left it. *)
Theorem undefined_variable_report
        context no_input sc message error reported_context context' :
  prompt_for_config_run context no_input sc
    = (Err (UndefinedVariableInTemplate message error reported_context),
       context') ->
  reported_context = context' /\
  exists kind schema key m,
    Od.get "cookiecutter" context = Some (VDict kind schema) /\
    In key (Od.keys schema) /\ key <> "__prompts__" /\
    message = ("Unable to render variable '" ++ key ++ "'")%string /\
    error = UndefinedError m.
Proof.
  unfold prompt_for_config_run, pop_prompts.
  destruct (Od.get "cookiecutter" context)
    as [[| | | | |kind schema]|] eqn:G; try (intros [= ]; fail).
  intros H. injection H as H Hctx.
  set (schema' := Od.remove "__prompts__" schema) in *.
  assert (Hrep : foreign_error
                   (UndefinedVariableInTemplate message error
                                                reported_context) \/
                 exists key, In key (Od.keys schema') /\
                   reported key context'
                     (UndefinedVariableInTemplate message error
                                                  reported_context)).
  { subst context'.
    destruct (pass1 _ _ no_input schema' (init sc)) as [st1|e1] eqn:E1;
      simpl in H.
    - eapply foldM_report; [|exact H].
      intros s key raw e. apply pass2_step_report.
    - inversion H; subst e1. eapply foldM_report; [|exact E1].
      intros s key raw e. apply pass1_step_report. }
  destruct Hrep as [[]|[key [I [m R]]]].
  inversion R; subst. split; [reflexivity|].
  apply OdFacts.keys_remove in I as [Hne I].
  exists kind, schema, key, m. repeat split; auto.
Qed.

End EngineErrors.

(** ** The progress counter *)

Lemma progress_split (l : odict) :
  List.length (filter ticked1 l) + List.length (filter ticked2 l)
  + List.length (filter uncounted l)
  = List.length (filter (fun k => negb (startswith "_" k)) (Od.keys l)).
Proof.
  unfold Od.keys.
  induction l as [|[key raw] l IH]; [reflexivity|].
  cbn [filter map fst].
  assert (Hcases :
    (if ticked1 (key, raw) then 1 else 0)
    + (if ticked2 (key, raw) then 1 else 0)
    + (if uncounted (key, raw) then 1 else 0)
    = if negb (startswith "_" key) then 1 else 0).
  { unfold ticked2, ticked1, uncounted, deferred. cbn [snd].
    destruct (startswith "_" key); [reflexivity|].
    destruct raw; cbn [is_dict is_nested_config is_choice_with_nested
                       negb andb orb]; try reflexivity.
    destruct (Od.mem "choices" items && Od.mem "_" items),
      (Od.mem "__prompts__" items); reflexivity. }
  destruct (ticked1 (key, raw)), (ticked2 (key, raw)),
    (uncounted (key, raw)), (negb (startswith "_" key));
    cbn [List.length]; simpl in Hcases; lia.
Qed.

(** X20: the progress shown as [N/M] never runs past [M]: in a run that
    completes, the counter ends at the number of visible keys less the
    visible keys that the second loop resolves as nested
    configurations. *)
Theorem progress_accounting
        context kind schema no_input sc final context' :
  Od.get "cookiecutter" context = Some (VDict kind schema) ->
  NoDup (Od.keys schema) ->
  prompt_for_config_run context no_input sc = (Ok final, context') ->
  let schema' := Od.remove "__prompts__" schema in
  count final + List.length (filter uncounted schema')
    = visible_size schema' /\
  count final <= visible_size schema'.
Proof.
  intros Hget Hnd Hrun schema'.
  apply run_inv in Hrun as [kind' [schema0 [st1 [G [_ [H1 H2]]]]]].
  rewrite Hget in G. inversion G; subst kind' schema0. clear G.
  assert (Hnd' : NoDup (Od.keys schema')) by now apply NoDup_keys_remove.
  edestruct run_effect as [_ [_ [_ [T C]]]];
    [exact Hnd' | exact H1 | exact H2 |].
  assert (E : count final + List.length (filter uncounted schema')
              = visible_size schema').
  { unfold visible_size. rewrite <- progress_split, C, T.
    unfold Od.keys. rewrite length_app, !length_map. reflexivity. }
  split; [exact E | lia].
Qed.

(** ** The template selector, further *)

Lemma template_path_ok repo_dir template r :
  template_path path_is_absolute path_resolve path_join repo_dir template
    = Ok r ->
  exists p,
    template = VStr p /\ p <> "" /\ path_is_absolute p = false /\
    r = path_resolve (path_join (path_resolve repo_dir) p).
Proof.
  unfold template_path.
  destruct (truthy template) eqn:Ht; [|discriminate].
  destruct template; try discriminate.
  destruct (path_is_absolute s) eqn:Ha; [discriminate|].
  intros [= <-]. exists s. repeat split; auto.
  intros ->. discriminate.
Qed.

Lemma choose_nested_template_inv context repo_dir no_input sc r :
  fst (choose_nested_template context repo_dir no_input sc) = Ok r ->
  exists kind schema template,
    Od.get "cookiecutter" context = Some (VDict kind schema) /\
    template_path path_is_absolute path_resolve path_join repo_dir template
      = Ok r /\
    let config :=
      match Od.get "templates" schema with
      | Some c => c
      | None => VDict PlainDict []
      end in
    (if truthy config then
       '(val, _) <- prompt_choice_for_template config no_input sc ;;
       match val with
       | VStr k => opt <- py_subscript config k ;; py_subscript opt "path"
       | _ => Err (KeyError "")
       end
     else
       let config :=
         match Od.get "template" schema with
         | Some c => c
         | None => VList []
         end in
       '(val, _) <- prompt_choice_for_config [] (create_env_with_context
                                                   context)
                                             config no_input sc ;;
       match val with
       | VStr s =>
           match re_search_paren s with
           | Some g => Ok (VStr g)
           | None => Err AttributeError
           end
       | _ => Err TypeError
       end) = Ok template.
Proof.
  unfold choose_nested_template, pop_prompts.
  destruct (Od.get "cookiecutter" context)
    as [[| | | | |kind schema]|] eqn:G; try discriminate.
  cbn [fst]. rewrite !OdFacts.get_remove_other by discriminate.
  intros H. apply bind_ok_inv in H as [template [E H]].
  exists kind, schema, template. repeat split; auto.
Qed.

(** X21: whatever the form of the schema and with or without input, a
    path returned by [choose_nested_template] is the repository root
    joined with a template path that is not empty and not absolute. *)
Theorem choose_nested_template_relative context repo_dir no_input sc r :
  fst (choose_nested_template context repo_dir no_input sc) = Ok r ->
  exists p,
    p <> "" /\ path_is_absolute p = false /\
    r = path_resolve (path_join (path_resolve repo_dir) p).
Proof.
  intros H.
  apply choose_nested_template_inv in H
    as [kind [schema [template [_ [Hp _]]]]].
  apply template_path_ok in Hp as [p [_ [Hne [Ha Hr]]]]. eauto.
Qed.

(** X22: with a non-empty mapping under ['templates'], with or without
    input, the path returned is built from the ['path'] of one of the
    declared options. *)
Theorem choose_nested_template_declared
        context kind schema kt options repo_dir no_input sc r :
  Od.get "cookiecutter" context = Some (VDict kind schema) ->
  Od.get "templates" schema = Some (VDict kt options) ->
  options <> [] ->
  fst (choose_nested_template context repo_dir no_input sc) = Ok r ->
  exists k ko option p,
    Od.get k options = Some (VDict ko option) /\
    Od.get "path" option = Some (VStr p) /\
    r = path_resolve (path_join (path_resolve repo_dir) p).
Proof.
  intros Hctx Htpl Hne H.
  apply choose_nested_template_inv in H
    as [kind' [schema' [template [G [Hp Hsel]]]]].
  rewrite Hctx in G. inversion G; subst kind' schema'. clear G.
  rewrite Htpl in Hsel. cbn zeta in Hsel.
  assert (Ht : truthy (VDict kt options) = true)
    by (destruct options; [contradiction | reflexivity]).
  rewrite Ht in Hsel.
  apply bind_ok_inv in Hsel as [[val sc1] [_ Hsel]].
  destruct val as [| | |k| |]; try discriminate.
  apply bind_ok_inv in Hsel as [opt [Eo Hsel]].
  apply template_path_ok in Hp as [p [-> [_ [_ ->]]]].
  simpl in Eo. unfold py_item in Eo.
  destruct (Od.get k options) as [o|] eqn:Gk; [|discriminate].
  inversion Eo; subst o.
  destruct opt as [| | | | |ko option]; try discriminate.
  simpl in Hsel. unfold py_item in Hsel.
  destruct (Od.get "path" option) as [pv|] eqn:Gp; [|discriminate].
  inversion Hsel; subst pv.
  exists k, ko, option, p. auto.
Qed.

(** X23: an illegal template path is refused.  With a mapping under
    ['templates'] and without input, when the ['path'] of the first
    option is falsy (empty, for instance) or absolute, the call raises
    [ValueError("Illegal template path")]. *)
Theorem choose_nested_template_illegal
        context kind schema kt k0 ko opt0 rest path repo_dir sc :
  Od.get "cookiecutter" context = Some (VDict kind schema) ->
  Od.get "templates" schema = Some (VDict kt ((k0, VDict ko opt0) :: rest)) ->
  forallb (fun kv => is_dict (snd kv)) rest = true ->
  Od.get "path" opt0 = Some path ->
  truthy path = false \/ (exists p, path = VStr p /\ path_is_absolute p = true) ->
  fst (choose_nested_template context repo_dir true sc)
  = Err (ValueError "Illegal template path").
Proof.
  intros Hctx Htpl Hopts Hpath Hbad.
  unfold choose_nested_template, pop_prompts. rewrite Hctx.
  rewrite OdFacts.get_remove_other by discriminate.
  rewrite Htpl. cbn [fst truthy].
  unfold prompt_choice_for_template, _prompts_from_options.
  cbn [forallb snd is_dict andb]. rewrite Hopts.
  cbn [bind Od.keys map fst py_subscript]. unfold py_item at 1.
  cbn [Od.get]. rewrite String.eqb_refl. cbn [bind py_subscript].
  unfold py_item. rewrite Hpath. cbn [bind].
  unfold template_path.
  destruct Hbad as [Hf|[p [-> Ha]]].
  - rewrite Hf. reflexivity.
  - destruct (truthy (VStr p)); [|reflexivity]. now rewrite Ha.
Qed.

(** X24: the legacy form.  With no ['templates'] mapping (absent or
    empty) and without input, the first entry of the ['template'] list
    is rendered, and the text between its parentheses, when it is a
    relative path, is joined with the repository root. *)
Theorem choose_nested_template_legacy
        context kind schema entry rest rendered rendered_rest g
        repo_dir sc :
  Od.get "cookiecutter" context = Some (VDict kind schema) ->
  match Od.get "templates" schema with
  | Some c => truthy c = false
  | None => True
  end ->
  Od.get "template" schema = Some (VList (entry :: rest)) ->
  mapM (fun raw => render_variable (create_env_with_context context) raw [])
       (entry :: rest) = Ok (VStr rendered :: rendered_rest) ->
  re_search_paren rendered = Some g ->
  g <> "" ->
  path_is_absolute g = false ->
  fst (choose_nested_template context repo_dir true sc)
  = Ok (path_resolve (path_join (path_resolve repo_dir) g)).
Proof.
  intros Hctx Htpl Hlist Hrender Hre Hne Habs.
  unfold choose_nested_template, pop_prompts. rewrite Hctx.
  rewrite !OdFacts.get_remove_other by discriminate.
  cbn [fst].
  assert (Hf : truthy (match Od.get "templates" schema with
                       | Some c => c
                       | None => VDict PlainDict []
                       end) = false)
    by (destruct (Od.get "templates" schema); [exact Htpl | reflexivity]).
  rewrite Hf, Hlist. unfold prompt_choice_for_config.
  cbn [py_iter bind]. rewrite Hrender. cbn [bind]. rewrite Hre.
  cbn [bind]. unfold template_path. cbn [truthy].
  destruct (String.eqb_spec g ""); [contradiction|].
  cbn [negb]. now rewrite Habs.
Qed.

(** X25: a schema with neither ['templates'] nor ['template'] offers
    nothing to choose: without input the call raises [IndexError], with
    input [ValueError], and the operator is not asked. *)
Theorem choose_nested_template_nothing_to_choose
        context kind schema repo_dir no_input sc :
  Od.get "cookiecutter" context = Some (VDict kind schema) ->
  Od.get "templates" schema = None ->
  Od.get "template" schema = None ->
  fst (choose_nested_template context repo_dir no_input sc)
  = Err (if no_input then IndexError else ValueError "").
Proof.
  intros Hctx Htpl Hlist.
  unfold choose_nested_template, pop_prompts. rewrite Hctx.
  rewrite !OdFacts.get_remove_other by discriminate.
  rewrite Htpl, Hlist. destruct no_input; reflexivity.
Qed.

(** ** An operator who accepts every default *)

Lemma Prompt_ask_defaults d m v sc' :
  Prompt_ask d (repeat Default m) = Ok (v, sc') ->
  v = d /\ exists m', sc' = repeat Default m'.
Proof.
  destruct m as [|m]; simpl; [discriminate|].
  intros [= <- <-]. eauto.
Qed.

Lemma YesNoPrompt_ask_defaults d m v sc' :
  YesNoPrompt_ask d (repeat Default m) = Ok (v, sc') ->
  v = d /\ exists m', sc' = repeat Default m'.
Proof.
  destruct m as [|m]; simpl; [discriminate|].
  intros [= <- <-]. eauto.
Qed.

Lemma JsonPrompt_ask_defaults d m v sc' :
  JsonPrompt_ask d (repeat Default m) = Ok (v, sc') ->
  v = d /\ exists m', sc' = repeat Default m'.
Proof.
  destruct m as [|m]; simpl; [discriminate|].
  intros [= <- <-]. eauto.
Qed.

Lemma read_user_variable_defaults d m v sc' :
  read_user_variable d (repeat Default m) = Ok (v, sc') ->
  v = d /\ exists m', sc' = repeat Default m'.
Proof.
  induction m as [|m IH]; simpl; [discriminate|].
  destruct d; try (intros [= <- <-]; eauto). exact IH.
Qed.

Lemma read_user_choice_defaults options m v sc' :
  read_user_choice options (repeat Default m) = Ok (v, sc') ->
  nth_error options 0 = Some v /\ exists m', sc' = repeat Default m'.
Proof.
  unfold read_user_choice. destruct options as [|o options]; [discriminate|].
  destruct m as [|m]; [discriminate|].
  cbn. intros [= <- <-]. eauto.
Qed.

Lemma nested_fields_defaults_script resolve_i resolve_n prompts_nested its :
  (forall kv, In kv its -> forall m sub sc',
      resolve_i (snd kv) (repeat Default m) = Ok (sub, sc') ->
      (forall sc0, resolve_n (snd kv) sc0 = Ok (sub, sc0)) /\
      exists m', sc' = repeat Default m') ->
  forall res m res' sc',
    nested_fields resolve_i prompts_nested false its res (repeat Default m)
      = Ok (res', sc') ->
    (forall sc0,
        nested_fields resolve_n prompts_nested true its res sc0
        = Ok (res', sc0)) /\
    exists m', sc' = repeat Default m'.
Proof.
  induction its as [|[key value] its IH]; intros Hres res m res' sc' H.
  - inversion H; subst. split; [reflexivity | eauto].
  - simpl in H. simpl.
    assert (IH' := IH (fun kv I => Hres kv (or_intror I))).
    destruct (reserved key); [eauto|].
    destruct (py_get prompts_nested key VNone); [|discriminate].
    simpl in H. simpl.
    destruct (is_nested_config value).
    + destruct (resolve_i value (repeat Default m)) as [[sub sc1]|] eqn:Er;
        [|discriminate].
      simpl in H.
      destruct (Hres (key, value) (or_introl eq_refl) m sub sc1 Er)
        as [Hn [m1 ->]].
      simpl in Hn.
      destruct (IH' _ _ _ _ H) as [Hrest Hm]. split; [|exact Hm].
      intros sc0. rewrite Hn. simpl. apply Hrest.
    + destruct (Prompt_ask value (repeat Default m)) as [[x sc1]|] eqn:Ea;
        [|discriminate].
      simpl in H. apply Prompt_ask_defaults in Ea as [-> [m1 ->]].
      destruct (IH' _ _ _ _ H) as [Hrest Hm]. split; [|exact Hm].
      intros sc0. apply Hrest.
Qed.

Lemma nested_config_defaults_script v :
  forall m res sc',
    _prompt_for_nested_config v false (repeat Default m) = Ok (res, sc') ->
    (forall sc0, _prompt_for_nested_config v true sc0 = Ok (res, sc0)) /\
    exists m', sc' = repeat Default m'.
Proof.
  induction v using value_induction; intros m res sc' Hr; simpl in Hr;
    try discriminate.
  simpl. eapply nested_fields_defaults_script; [|exact Hr].
  intros kv I. rewrite Forall_forall in H. apply (H kv I).
Qed.

Lemma prompt_choice_defaults d env options m v sc' :
  prompt_choice_for_config d env options false (repeat Default m)
    = Ok (v, sc') ->
  (forall sc0, prompt_choice_for_config d env options true sc0
               = Ok (v, sc0)) /\
  exists m', sc' = repeat Default m'.
Proof.
  unfold prompt_choice_for_config. intros H.
  inv_bind H. inv_bind H.
  apply read_user_choice_defaults in H as [Hn Hm]. split; [|exact Hm].
  intros sc0. rewrite E. cbn [bind]. rewrite E0. cbn [bind].
  destruct a0; [discriminate|]. simpl in Hn.
  inversion Hn; subst. reflexivity.
Qed.

Lemma pass1_step_defaults env context st key raw st' m :
  pending st = repeat Default m ->
  (startswith "_" key = false -> is_choice_with_nested raw = false) ->
  pass1_step env context false st (key, raw) = Ok st' ->
  pass1_step env context true st (key, raw)
    = Ok (with_pending (pending st) st') /\
  exists m', pending st' = repeat Default m'.
Proof.
  intros Hpend Hcwn. unfold pass1_step.
  rewrite startswith_underscore in Hcwn.
  destruct (is_private key).
  { intros [= <-]. simpl. split; [|eauto].
    now rewrite <- (with_pending_same st) at 1. }
  destruct (startswith "__" key).
  { intros H. inv_bind H. inversion H; subst st'. rewrite E. simpl.
    split; [|eauto]. destruct st; reflexivity. }
  specialize (Hcwn eq_refl).
  assert (Hsimple :
    resolve_simple render_template env context false key raw st = Ok st' ->
    resolve_simple render_template env context true key raw st
      = Ok (with_pending (pending st) st') /\
    exists m', pending st' = repeat Default m').
  { unfold resolve_simple. intros H. apply wrap_undefined_ok in H.
    destruct raw; cbn [is_dict negb] in *.
    - (* None *)
      inv_bind H. inv_bind H. destruct a0 as [v sc1].
      inversion H; subst st'. cbn [tick pending] in E0.
      rewrite Hpend in E0.
      apply read_user_variable_defaults in E0 as [-> [m1 ->]].
      rewrite E. simpl. split; [|eauto]. destruct st; reflexivity.
    - (* bool *)
      inv_bind H. destruct a as [v sc1].
      inversion H; subst st'. unfold read_user_yes_no in E.
      cbn [tick pending] in E. rewrite Hpend in E.
      apply YesNoPrompt_ask_defaults in E as [-> [m1 ->]].
      simpl. split; [|eauto]. destruct st; reflexivity.
    - (* int *)
      inv_bind H. inv_bind H. destruct a0 as [v sc1].
      inversion H; subst st'. cbn [tick pending] in E0.
      rewrite Hpend in E0.
      apply read_user_variable_defaults in E0 as [-> [m1 ->]].
      rewrite E. simpl. split; [|eauto]. destruct st; reflexivity.
    - (* str *)
      inv_bind H. inv_bind H. destruct a0 as [v sc1].
      inversion H; subst st'. cbn [tick pending] in E0.
      rewrite Hpend in E0.
      apply read_user_variable_defaults in E0 as [-> [m1 ->]].
      rewrite E. simpl. split; [|eauto]. destruct st; reflexivity.
    - (* list *)
      inv_bind H. destruct a as [v sc1]. inversion H; subst st'.
      cbn [tick pending cookiecutter_dict] in E. rewrite Hpend in E.
      apply prompt_choice_defaults in E as [Hn [m1 ->]].
      cbn [tick pending cookiecutter_dict]. rewrite Hn. simpl.
      split; [|eauto]. destruct st; reflexivity.
    - (* dict *)
      inversion H; subst st'. simpl. split; [|eauto].
      now rewrite with_pending_same. }
  destruct raw; try exact Hsimple.
  rewrite Hcwn. exact Hsimple.
Qed.

Lemma pass2_step_defaults env context st key raw st' m :
  pending st = repeat Default m ->
  pass2_step env context false st (key, raw) = Ok st' ->
  pass2_step env context true st (key, raw)
    = Ok (with_pending (pending st) st') /\
  exists m', pending st' = repeat Default m'.
Proof.
  intros Hpend. unfold pass2_step.
  destruct (Od.mem key (cookiecutter_dict st)).
  { intros [= <-]. split; [|eauto]. now rewrite with_pending_same. }
  destruct (is_private key).
  { intros [= <-]. split; [|eauto]. now rewrite with_pending_same. }
  intros H. apply wrap_undefined_ok in H.
  destruct raw;
    try (inversion H; subst st'; split;
         [now rewrite with_pending_same | eauto]; fail).
  destruct (Od.mem "__prompts__" items).
  - unfold resolve_nested_config in *.
    inv_bind H. destruct a as [val sc1]. inversion H; subst st'. clear H.
    assert (Hinner :
      (if Od.mem "__conditional__" items
       then
         condition <- py_item items "__conditional__";;
         cond_key <- py_get condition "option" VNone;;
         expected_value <- py_get condition "value" VNone;;
         resolved <- context_get (cookiecutter_dict st) cond_key;;
         (if py_eq resolved expected_value
          then
            '(val0, sc0) <-
               _prompt_for_nested_config (VDict kind items) true (pending st);;
            Ok (VDict OrderedDict val0, sc0)
          else Ok (strip_reserved items, pending st))
       else
         '(val0, sc0) <-
            _prompt_for_nested_config (VDict kind items) true (pending st);;
         Ok (VDict OrderedDict val0, sc0))
      = Ok (val, pending st) /\ exists m', sc1 = repeat Default m').
    { destruct (Od.mem "__conditional__" items).
      - inv_bind E. rewrite E0. cbn [bind].
        inv_bind E. rewrite E1. cbn [bind].
        inv_bind E. rewrite E2. cbn [bind].
        inv_bind E. rewrite E3. cbn [bind].
        destruct (py_eq a2 a1).
        + inv_bind E. destruct a3 as [v0 s0]. inversion E; subst.
          rewrite Hpend in E4.
          apply nested_config_defaults_script in E4 as [Hn Hm].
          rewrite Hn. simpl. auto.
        + inversion E; subst. split; [reflexivity | eauto].
      - inv_bind E. destruct a as [v0 s0]. inversion E; subst.
        rewrite Hpend in E0.
        apply nested_config_defaults_script in E0 as [Hn Hm].
        rewrite Hn. simpl. auto. }
    destruct Hinner as [Hinner Hm]. rewrite Hinner. simpl.
    split; [|exact Hm]. destruct st; reflexivity.
  - unfold resolve_dict in *. cbn [tick cookiecutter_dict pending] in *.
    inv_bind H. rewrite E. cbn [bind negb andb].
    destruct (startswith "__" key); cbn [negb andb] in H.
    + inversion H; subst st'. split; [|simpl; eauto].
      destruct st; reflexivity.
    + inv_bind H. destruct a0 as [v sc1]. inversion H; subst st'.
      unfold read_user_dict in E0.
      destruct (is_dict a); [|discriminate].
      rewrite Hpend in E0.
      apply JsonPrompt_ask_defaults in E0 as [-> [m1 ->]].
      split; [|simpl; eauto]. destruct st; reflexivity.
Qed.

Lemma foldM_defaults (step : bool -> state -> string * value -> result state)
      (ok : string * value -> Prop) items :
  (forall st item sc,
      step true (with_pending sc st) item
      = rmap (with_pending sc) (step true st item)) ->
  (forall st item st' m,
      ok item -> pending st = repeat Default m ->
      step false st item = Ok st' ->
      step true st item = Ok (with_pending (pending st) st') /\
      exists m', pending st' = repeat Default m') ->
  (forall item, In item items -> ok item) ->
  forall st st' m,
    pending st = repeat Default m ->
    foldM (step false) items st = Ok st' ->
    foldM (step true) items st = Ok (with_pending (pending st) st') /\
    exists m', pending st' = repeat Default m'.
Proof.
  intros Hcomm Hstep. induction items as [|item items IH];
    intros Hok st st' m Hpend H; simpl in H.
  - inversion H; subst. simpl. split; [|eauto].
    now rewrite with_pending_same.
  - inv_bind H. rename a into st1.
    destruct (Hstep _ _ _ _ (Hok item (or_introl eq_refl)) Hpend E)
      as [E1 [m1 Hm1]].
    destruct (IH (fun i I => Hok i (or_intror I)) _ _ _ Hm1 H)
      as [E2 Hm'].
    split; [|exact Hm'].
    simpl. rewrite E1. simpl.
    rewrite (foldM_commute (step true) (with_pending (pending st)))
      by (intros; apply Hcomm).
    rewrite E2. simpl. reflexivity.
Qed.

(** X28: accepting every default is running without input.  For a
    schema in which no visible key holds the choice-with-nested-config
    construct, if the operator only ever presses Enter and the run
    completes, the context returned is the one returned without input. *)
Theorem accepting_defaults_is_no_input
        context kind schema n final context' :
  Od.get "cookiecutter" context = Some (VDict kind schema) ->
  (forall key raw, In (key, raw) schema ->
     startswith "_" key = false -> is_choice_with_nested raw = false) ->
  prompt_for_config_run context false (repeat Default n)
    = (Ok final, context') ->
  prompt_for_config context true []
  = (Ok (cookiecutter_dict final), context').
Proof.
  intros Hget Hcwn Hrun.
  apply run_inv in Hrun as [kind' [schema0 [st1 [G [Hctx [H1 H2]]]]]].
  rewrite Hget in G. inversion G; subst kind' schema0. clear G.
  rewrite <- (no_input_ignores_script context (repeat Default n)).
  unfold prompt_for_config, prompt_for_config_run, pop_prompts.
  rewrite Hget, <- Hctx.
  set (schema' := Od.remove "__prompts__" schema) in *.
  set (env := create_env_with_context context) in *.
  assert (Hok : forall item, In item schema' ->
     startswith "_" (fst item) = false ->
     is_choice_with_nested (snd item) = false).
  { intros [k r] I. apply Hcwn. unfold schema', Od.remove in I.
    apply filter_In in I as [I _]. exact I. }
  destruct (foldM_defaults
              (fun b => pass1_step env context' b)
              (fun item => startswith "_" (fst item) = false ->
                           is_choice_with_nested (snd item) = false)
              schema') with (st := init (repeat Default n)) (st' := st1)
                            (m := n) as [E1 [m1 Hm1]]; auto.
  { intros; apply pass1_step_no_input. }
  { intros st [k r] st' m Hi Hp Hs.
    eapply pass1_step_defaults; eauto. }
  destruct (foldM_defaults
              (fun b => pass2_step env context' b)
              (fun _ => True) schema') with (st := st1) (st' := final)
                                            (m := m1) as [E2 _]; auto.
  { intros; apply pass2_step_no_input. }
  { intros st [k r] st' m _ Hp Hs. eapply pass2_step_defaults; eauto. }
  unfold pass1. rewrite E1. cbn [bind].
  unfold pass2.
  rewrite (foldM_commute (pass2_step env context' true)
             (with_pending (pending (init (repeat Default n)))))
    by (intros; apply pass2_step_no_input).
  rewrite E2. reflexivity.
Qed.


End ResolverFacts.

(** * The resolver at work

    Runs with the collaborators of [Demo]: the statements above at
    concrete schemas, and the places where the code departs from the
    specification. *)

Ltac nodup_keys :=
  repeat (constructor; [simpl; intuition discriminate|]); constructor.

(** The construct of the specification: choosing ["a"] merges the nested
    field, choosing ["b"] stores the choice alone, and without input the
    first option is stored alone. *)
Example choice_with_nested_spec_example :
  fst (Demo.prompt_for_config (Demo.ctx Demo.cwn) false
         [Typed (VStr "1"); Typed (VStr "7")])
    = Ok [("db", VDict PlainDict [("choice", VStr "a"); ("x", VStr "7")])] /\
  fst (Demo.prompt_for_config (Demo.ctx Demo.cwn) false
         [Typed (VStr "2"); Typed (VStr "7")])
    = Ok [("db", VDict PlainDict [("choice", VStr "b")])] /\
  fst (Demo.prompt_for_config (Demo.ctx Demo.cwn) true [])
    = Ok [("db", VDict PlainDict [("choice", VStr "a")])].
Proof. repeat split; vm_compute; reflexivity. Qed.

Lemma choice_with_nested_witness :
  Od.get "db" (cookiecutter_dict
                 (Demo.final_of Demo.cwn false [Default; Typed (VStr "7")]))
  = Some (VDict PlainDict [("choice", VStr "a"); ("x", VStr "7")]).
Proof.
  destruct (choice_with_nested
              Demo.Environment
              Demo.create_env_with_context Demo.render_template
              (Demo.ctx Demo.cwn) OrderedDict Demo.cwn false
              [Default; Typed (VStr "7")]
              (Demo.final_of Demo.cwn false [Default; Typed (VStr "7")])
              (Demo.context_after Demo.cwn)
              [] "db" OrderedDict
              [("choices", Demo.dict [("a", Demo.dict []);
                                      ("b", Demo.dict [])]);
               ("_", Demo.dict [("x", VInt 1);
                                ("__conditional__",
                                 Demo.dict [("value", VStr "a")])])]
              []
              (Demo.dict [("a", Demo.dict []); ("b", Demo.dict [])])
              (Demo.dict [("x", VInt 1);
                          ("__conditional__",
                           Demo.dict [("value", VStr "a")])]))
    as [st1 [choice_val [sc1 [stored [P1 [Hchoice [G [_ Hinput]]]]]]]].
  - reflexivity.
  - nodup_keys.
  - reflexivity.
  - vm_compute. reflexivity.
  - reflexivity.
  - reflexivity.
  - reflexivity.
  - vm_compute in P1. injection P1 as <-.
    vm_compute in Hchoice. injection Hchoice as <- <-.
    destruct (Hinput eq_refl) as [condition [Hcond Hgate]].
    vm_compute in Hcond. injection Hcond as <-.
    cbn [truthy Demo.dict] in Hgate.
    destruct Hgate as [expected_value [Hvalue Hgate]].
    vm_compute in Hvalue. injection Hvalue as <-.
    cbn [py_eq] in Hgate. rewrite String.eqb_refl in Hgate.
    destruct Hgate as [nested_val [sc2 [Hnested ->]]].
    vm_compute in Hnested. injection Hnested as <- <-.
    exact G.
Defined.

(** C1 as worded fails in two places: a private key holding the construct
    is copied through, and an empty ['__conditional__'] does not gate. *)
Lemma choice_with_nested_counterexample :
  (is_choice_with_nested (Demo.gate [("value", VStr "a")]) = true /\
   fst (Demo.prompt_for_config (Demo.ctx Demo.cwn_private) true [])
     = Ok [("_db", Demo.gate [("value", VStr "a")])] /\
   Demo.gate [("value", VStr "a")] <> choice_only (VStr "a")) /\
  (py_get (Demo.dict []) "value" VNone = Ok VNone /\
   py_eq (VStr "b") VNone = false /\
   fst (Demo.prompt_for_config (Demo.ctx Demo.cwn_empty_condition) false
          [Typed (VStr "2"); Default])
     = Ok [("db", VDict PlainDict [("choice", VStr "b"); ("x", VInt 1)])]).
Proof.
  repeat split; try (vm_compute; reflexivity). discriminate.
Qed.

(** Keys of every shape: the first loop assigns [name], [_p], [opts] and
    [__d], the second one [cfg] and [db]. *)
Example key_order_example :
  fst (Demo.prompt_for_config (Demo.ctx Demo.mixed) true [])
  = Ok [("name", VStr "x");
        ("_p", VInt 3);
        ("opts", VDict PlainDict [("choice", VStr "u")]);
        ("__d", VStr "lit");
        ("cfg", VDict PlainDict [("a", VStr "b")]);
        ("db", VDict OrderedDict [("host", VStr "h")])].
Proof. vm_compute. reflexivity. Qed.

Lemma prompt_for_config_key_order_witness :
  Od.keys (cookiecutter_dict (Demo.final_of Demo.mixed true []))
  = ["name"; "_p"; "opts"; "__d"] ++ ["cfg"; "db"] /\
  NoDup (writes (Demo.final_of Demo.mixed true [])).
Proof.
  destruct (prompt_for_config_key_order
              Demo.Environment
              Demo.create_env_with_context Demo.render_template
              (Demo.ctx Demo.mixed) OrderedDict Demo.mixed true []
              (Demo.final_of Demo.mixed true [])
              (Demo.context_after Demo.mixed))
    as [_ [K [_ [_ N]]]].
  - reflexivity.
  - nodup_keys.
  - vm_compute. reflexivity.
  - split; [exact K | exact N].
Defined.

Ltac invert_resolve_nested :=
  repeat match goal with
         | H : resolve_nested _ (_ :: _) _ _ _ |- _ =>
             inversion H; clear H; subst; try discriminate
         | H : resolve_nested _ [] _ _ _ |- _ =>
             inversion H; clear H; subst
         | H : Prompt_ask _ (_ :: _) = Ok _ |- _ =>
             cbn in H; injection H as <- <-
         end.

Lemma second_pass_nested_config_witness :
  Od.get "db" (cookiecutter_dict
                 (Demo.final_of Demo.gated false
                    [Default; Typed (VStr "db.local")]))
  = Some (VDict OrderedDict [("host", VStr "db.local")]) /\
  Od.get "db" (cookiecutter_dict
                 (Demo.final_of Demo.gated false [Typed (VStr "no")]))
  = Some (VDict PlainDict [("host", VStr "localhost")]).
Proof.
  split.
  - destruct (second_pass_nested_config
                Demo.Environment
                Demo.create_env_with_context Demo.render_template
                (Demo.ctx Demo.gated) OrderedDict Demo.gated false
                [Default; Typed (VStr "db.local")]
                (Demo.final_of Demo.gated false
                   [Default; Typed (VStr "db.local")])
                (Demo.context_after Demo.gated)
                [("use_db", VStr "yes")] "db" OrderedDict
                [("__prompts__", Demo.dict [("host", VStr "Host?")]);
                 ("__conditional__",
                  Demo.dict [("option", VStr "use_db");
                             ("value", VStr "yes")]);
                 ("host", VStr "localhost")]
                [])
      as [st1 [st2 [P1 [P2 Hunresolved]]]].
    + reflexivity.
    + nodup_keys.
    + reflexivity.
    + vm_compute. reflexivity.
    + reflexivity.
    + reflexivity.
    + vm_compute in P1. injection P1 as <-.
      vm_compute in P2. injection P2 as <-.
      destruct (Hunresolved eq_refl)
        as [st3 [stored [_ [_ [G [_ Hcond]]]]]].
      specialize (Hcond
                    (Demo.dict [("option", VStr "use_db");
                                ("value", VStr "yes")])
                    "use_db" (VStr "yes") (VStr "yes")
                    eq_refl eq_refl eq_refl eq_refl).
      cbn in Hcond.
      destruct Hcond as [val [sc' [_ [-> [_ Resolved]]]]].
      invert_resolve_nested. exact G.
  - destruct (second_pass_nested_config
                Demo.Environment
                Demo.create_env_with_context Demo.render_template
                (Demo.ctx Demo.gated) OrderedDict Demo.gated false
                [Typed (VStr "no")]
                (Demo.final_of Demo.gated false [Typed (VStr "no")])
                (Demo.context_after Demo.gated)
                [("use_db", VStr "yes")] "db" OrderedDict
                [("__prompts__", Demo.dict [("host", VStr "Host?")]);
                 ("__conditional__",
                  Demo.dict [("option", VStr "use_db");
                             ("value", VStr "yes")]);
                 ("host", VStr "localhost")]
                [])
      as [st1 [st2 [P1 [P2 Hunresolved]]]].
    + reflexivity.
    + nodup_keys.
    + reflexivity.
    + vm_compute. reflexivity.
    + reflexivity.
    + reflexivity.
    + vm_compute in P1. injection P1 as <-.
      vm_compute in P2. injection P2 as <-.
      destruct (Hunresolved eq_refl)
        as [st3 [stored [_ [_ [G [_ Hcond]]]]]].
      specialize (Hcond
                    (Demo.dict [("option", VStr "use_db");
                                ("value", VStr "yes")])
                    "use_db" (VStr "no") (VStr "yes")
                    eq_refl eq_refl eq_refl eq_refl).
      cbn in Hcond. destruct Hcond as [-> _]. exact G.
Defined.

(** The gate of the second loop: a match resolves the nested fields, a
    mismatch stores the raw fields. *)
Example second_pass_example :
  fst (Demo.prompt_for_config (Demo.ctx Demo.gated) false
         [Default; Typed (VStr "db.local")])
    = Ok [("use_db", VStr "yes");
          ("db", VDict OrderedDict [("host", VStr "db.local")])] /\
  fst (Demo.prompt_for_config (Demo.ctx Demo.gated) false
         [Typed (VStr "no"); Typed (VStr "db.local")])
    = Ok [("use_db", VStr "no");
          ("db", VDict PlainDict [("host", VStr "localhost")])].
Proof. split; vm_compute; reflexivity. Qed.

Lemma underscore_keys_witness :
  Od.get "_p" (cookiecutter_dict (Demo.final_of Demo.mixed true []))
  = Some (VInt 3).
Proof.
  destruct (underscore_keys
              Demo.Environment
              Demo.create_env_with_context Demo.render_template
              (Demo.ctx Demo.mixed) OrderedDict Demo.mixed true []
              (Demo.final_of Demo.mixed true [])
              (Demo.context_after Demo.mixed)
              [("name", VStr "x"); ("cfg", Demo.dict [("a", VStr "b")])]
              "_p" (VInt 3)
              [("opts", VList [VStr "u"; VStr "v"]);
               ("__d", VStr "lit");
               ("db", Demo.dict [("__prompts__", Demo.dict []);
                                 ("host", VStr "h")])])
    as [_ [st1 [_ [Hprivate _]]]].
  - reflexivity.
  - nodup_keys.
  - reflexivity.
  - vm_compute. reflexivity.
  - destruct (Hprivate eq_refl) as [_ [G _]]. exact G.
Defined.

(** C4 as worded fails at ['__prompts__']: it begins with two
    underscores and is neither rendered nor stored. *)
Lemma underscore_keys_counterexample :
  startswith "__" "__prompts__" = true /\
  In "__prompts__" (Od.keys Demo.with_prompts) /\
  fst (Demo.prompt_for_config (Demo.ctx Demo.with_prompts) true [])
    = Ok [("name", VStr "x")].
Proof.
  repeat split; try (vm_compute; reflexivity). simpl. auto.
Qed.

Example counted_keys_example :
  count (Demo.final_of Demo.mixed true []) = 3 /\
  count_occ string_dec (ticks (Demo.final_of Demo.mixed true [])) "cfg" = 1 /\
  count_occ string_dec (ticks (Demo.final_of Demo.mixed true [])) "db" = 0.
Proof.
  destruct (counted_keys
              Demo.Environment
              Demo.create_env_with_context Demo.render_template
              (Demo.ctx Demo.mixed) OrderedDict Demo.mixed true []
              (Demo.final_of Demo.mixed true [])
              (Demo.context_after Demo.mixed))
    as [C T].
  - reflexivity.
  - nodup_keys.
  - vm_compute. reflexivity.
  - split; [exact C|]. split.
    + apply (T "cfg" (Demo.dict [("a", VStr "b")])). simpl. auto.
    + apply (T "db" (Demo.dict [("__prompts__", Demo.dict []);
                                ("host", VStr "h")])).
      simpl. auto 10.
Qed.

(** C5 at work: two visible keys, so the progress is shown out of two;
    the operator accepts both defaults, the run completes, and the
    counter stops at one: the key holding a nested configuration was
    resolved without being counted, so not every visible key is counted
    exactly once. *)
Theorem nested_config_key_not_counted :
  exists st,
    fst (Demo.prompt_for_config_run (Demo.ctx Demo.nested_only) false
           [Default; Default])
      = Ok st /\
    cookiecutter_dict st
      = [("name", VStr "x");
         ("db", VDict OrderedDict [("host", VStr "localhost")])] /\
    visible_size Demo.nested_only = 2 /\
    count st = 1 /\
    count_occ string_dec (ticks st) "db" = 0 /\
    ~ progress_once Demo.nested_only st.
Proof.
  eexists. split; [vm_compute; reflexivity|].
  repeat split; try reflexivity.
  intros H.
  specialize (H "db" _ (or_intror (or_introl eq_refl)) eq_refl).
  vm_compute in H. discriminate.
Qed.

Lemma choose_nested_template_first_witness :
  fst (Demo.choose_nested_template (Demo.ctx Demo.templates) "/repo" true [])
  = Ok "/repo/tpl1".
Proof.
  apply (choose_nested_template_first
           Demo.Environment
           Demo.create_env_with_context Demo.render_template
           Demo.path_is_absolute Demo.path_resolve Demo.path_join
           Demo.re_search_paren
           (Demo.ctx Demo.templates) OrderedDict Demo.templates
           OrderedDict "default" OrderedDict [("path", VStr "tpl1")]
           [("alt", Demo.dict [("path", VStr "tpl2")])]
           "tpl1" "/repo" []).
  - reflexivity.
  - reflexivity.
  - reflexivity.
  - reflexivity.
  - discriminate.
  - reflexivity.
Defined.

Lemma pop_prompts_frame_witness :
  snd (Demo.prompt_for_config (Demo.ctx Demo.with_prompts) true [])
  = Demo.ctx [("name", VStr "x")] /\
  snd (Demo.choose_nested_template (Demo.ctx Demo.with_prompts) "/repo"
         true [])
  = Demo.ctx [("name", VStr "x")].
Proof.
  destruct (pop_prompts_frame
              Demo.Environment
              Demo.create_env_with_context Demo.render_template
              Demo.path_is_absolute Demo.path_resolve Demo.path_join
              Demo.re_search_paren
              (Demo.ctx Demo.with_prompts) OrderedDict Demo.with_prompts
              "/repo" true [])
    as [P [C _]].
  - reflexivity.
  - split; [exact P | exact C].
Defined.

(** C8 at work: the same undefined name is reported wrapped from a plain
    list of choices, and bare from the choices of the construct and from
    a key that begins with two underscores. *)
Theorem undefined_variable_not_always_wrapped :
  fst (Demo.prompt_for_config (Demo.ctx Demo.undefined_in_list) true [])
    = Err (UndefinedVariableInTemplate
             "Unable to render variable 'db'"
             (UndefinedError Demo.undefined)
             (Demo.ctx Demo.undefined_in_list)) /\
  fst (Demo.prompt_for_config (Demo.ctx Demo.undefined_in_construct) true [])
    = Err (UndefinedError Demo.undefined) /\
  fst (Demo.prompt_for_config (Demo.ctx Demo.undefined_in_dunder) true [])
    = Err (UndefinedError Demo.undefined).
Proof. repeat split; vm_compute; reflexivity. Qed.

(** * The rest of the module *)

(** ** [YesNoPrompt.process_response] *)

Module YesNoPromptFacts.

Import YesNoPrompt.

Lemma to_lower_idem c : to_lower (to_lower c) = to_lower c.
Proof.
  destruct c as [[] [] [] [] [] [] [] []]; reflexivity.
Qed.

Lemma is_space_to_lower c : is_space (to_lower c) = is_space c.
Proof.
  destruct c as [[] [] [] [] [] [] [] []]; reflexivity.
Qed.

Lemma lower_idem s : lower (lower s) = lower s.
Proof.
  induction s as [|c s IH]; simpl; [reflexivity|].
  now rewrite to_lower_idem, IH.
Qed.

Lemma lstrip_lower s : lstrip (lower s) = lower (lstrip s).
Proof.
  induction s as [|c s IH]; simpl; [reflexivity|].
  rewrite is_space_to_lower. destruct (is_space c); [exact IH | reflexivity].
Qed.

Lemma rstrip_lower s : rstrip (lower s) = lower (rstrip s).
Proof.
  induction s as [|c s IH]; simpl; [reflexivity|].
  rewrite IH, is_space_to_lower.
  destruct (rstrip s); simpl; [destruct (is_space c)|]; reflexivity.
Qed.

Lemma strip_lower s : strip (lower s) = lower (strip s).
Proof. unfold strip. now rewrite lstrip_lower, rstrip_lower. Qed.

Lemma rstrip_spaces pad : all_space pad = true -> rstrip pad = "".
Proof.
  induction pad as [|c pad IH]; simpl; [reflexivity|].
  intros H. apply andb_true_iff in H as [Hc Hp].
  now rewrite (IH Hp), Hc.
Qed.

Lemma rstrip_app_spaces s pad :
  all_space pad = true -> rstrip (s ++ pad) = rstrip s.
Proof.
  intros Hp. induction s as [|c s IH]; simpl.
  - now apply rstrip_spaces.
  - now rewrite IH.
Qed.

Lemma lstrip_app_spaces pad s :
  all_space pad = true -> lstrip (pad ++ s) = lstrip s.
Proof.
  induction pad as [|c pad IH]; simpl; [reflexivity|].
  intros H. apply andb_true_iff in H as [Hc Hp]. now rewrite Hc, IH.
Qed.

Lemma append_nil_r_string s : (s ++ "")%string = s.
Proof. induction s as [|c s IH]; simpl; [reflexivity | now rewrite IH]. Qed.

Lemma strip_app_spaces s pad :
  all_space pad = true -> rstrip (lstrip (s ++ pad)) = rstrip (lstrip s).
Proof.
  intros Hp. induction s as [|c s IH]; simpl.
  - pose proof (lstrip_app_spaces pad "" Hp) as E.
    rewrite append_nil_r_string in E. rewrite E. reflexivity.
  - destruct (is_space c); [exact IH|].
    change (String c (s ++ pad)) with (String c s ++ pad)%string.
    now apply rstrip_app_spaces.
Qed.

Lemma strip_padded pad1 s pad2 :
  all_space pad1 = true -> all_space pad2 = true ->
  strip (pad1 ++ s ++ pad2) = strip s.
Proof.
  intros H1 H2. unfold strip.
  rewrite (lstrip_app_spaces pad1 _ H1). now apply strip_app_spaces.
Qed.

Lemma strip_idem s : strip (strip s) = strip s.
Proof.
  unfold strip.
  assert (R : forall t, rstrip (rstrip t) = rstrip t).
  { induction t as [|c t IH]; simpl; [reflexivity|].
    destruct (rstrip t) eqn:E; simpl.
    - destruct (is_space c) eqn:Hc; simpl; [reflexivity|].
      now rewrite Hc.
    - simpl in IH. rewrite IH. reflexivity. }
  assert (L : forall t, lstrip (rstrip (lstrip t)) = rstrip (lstrip t)).
  { induction t as [|c t IH]; simpl; [reflexivity|].
    destruct (is_space c) eqn:Hc; [exact IH|].
    simpl. destruct (rstrip t); repeat (rewrite Hc || simpl);
      reflexivity. }
  now rewrite L, R.
Qed.

(** X26: the answer to a yes/no question is read without regard to
    letter case or to surrounding white space: for ASCII text, the
    outcome of [process_response] on a padded answer is its outcome on
    the lower-cased, stripped answer; and the twelve spellings are told
    apart, six for yes and six for no. *)
Theorem process_response_insensitive s pad1 pad2 :
  ascii_only s = true ->
  all_space pad1 = true ->
  all_space pad2 = true ->
  process_response (pad1 ++ s ++ pad2) = process_response (lower (strip s)) /\
  (In (lower (strip s)) yes_choices ->
   process_response (pad1 ++ s ++ pad2) = Some true) /\
  (In (lower (strip s)) no_choices ->
   process_response (pad1 ++ s ++ pad2) = Some false).
Proof.
  intros _ H1 H2.
  assert (E : process_response (pad1 ++ s ++ pad2)
              = process_response (lower (strip s))).
  { unfold process_response.
    rewrite (strip_padded pad1 s pad2 H1 H2).
    now rewrite strip_lower, strip_idem, lower_idem. }
  split; [exact E|].
  rewrite E.
  split; intros Hin; simpl in Hin;
    repeat (destruct Hin as [<-|Hin]; [reflexivity|]); contradiction.
Qed.

End YesNoPromptFacts.

(** ** [prompt_and_delete] *)

Lemma YesNoPrompt_ask_consumes default sc v sc' :
  YesNoPrompt_ask default sc = Ok (v, sc') ->
  List.length sc' < List.length sc.
Proof.
  induction sc as [|a sc IH]; simpl; [discriminate|].
  destruct a as [|v0].
  - intros [= _ <-]. lia.
  - destruct v0; try (intros H; apply IH in H; lia).
    intros [= _ <-]. lia.
Qed.

Section FilesystemFacts.

Variable FS : Type.
Variable os_path_isdir : FS -> string -> bool.
Variable rmtree : FS -> string -> result FS.
Variable os_remove : FS -> string -> result FS.

Notation prompt_and_delete :=
  (prompt_and_delete os_path_isdir rmtree os_remove).
Notation delete_path := (delete_path os_path_isdir rmtree os_remove).


End FilesystemFacts.

(** * The rest of the module at work *)

Lemma read_user_choice_returns_an_option_witness :
  In (VStr "b") [VStr "a"; VStr "b"] /\
  List.length (@nil answer) < List.length [Typed (VStr "2")].
Proof.
  apply (read_user_choice_returns_an_option
           [VStr "a"; VStr "b"] [Typed (VStr "2")] (VStr "b") []).
  vm_compute. reflexivity.
Defined.

Lemma read_user_choice_selects_witness :
  (forall i o,
      Typed (VStr "2") = Typed (VStr (py_str_nat (S i))) ->
      nth_error [VStr "a"; VStr "b"] i = Some o ->
      VStr "b" = o /\ [Typed (VStr "1")] = [Typed (VStr "1")]) /\
  (Typed (VStr "2") = Default ->
   nth_error [VStr "a"; VStr "b"] 0 = Some (VStr "b") /\
   [Typed (VStr "1")] = [Typed (VStr "1")]).
Proof.
  apply (read_user_choice_selects
           [VStr "a"; VStr "b"] (Typed (VStr "2")) [Typed (VStr "1")]
           (VStr "b") [Typed (VStr "1")]).
  vm_compute. reflexivity.
Defined.



Lemma render_variable_stringifies_witness :
  rendered_shape
    (VDict PlainDict [("n", VStr "3"); ("l", VList [VStr "1"; VStr "s"])])
  = true.
Proof.
  apply (render_variable_stringifies
           Demo.Environment Demo.render_template tt [] Cases.numbers).
  vm_compute. reflexivity.
Defined.

Lemma render_variable_fails_with_engine_witness :
  render_variable Demo.render_template tt
    (VList [VStr "a"; VStr Demo.undefined; VStr "{{ later }}"]) []
  = Err (UndefinedError Demo.undefined).
Proof.
  destruct (render_variable_fails_with_engine
              Demo.Environment Demo.render_template tt []
              (VList [VStr "a"; VStr Demo.undefined; VStr "{{ later }}"]))
    as [Fails _].
  apply (proj2 (Fails (UndefinedError Demo.undefined))).
  reflexivity.
Defined.


Lemma nested_config_keys_witness :
  Od.keys [("host", VStr "h"); ("port", VInt 1)]
  = filter (fun k => negb (reserved k)) (Od.keys Cases.server) /\
  Od.mem "__prompts__" [("host", VStr "h"); ("port", VInt 1)] = false /\
  Od.mem "__conditional__" [("host", VStr "h"); ("port", VInt 1)] = false.
Proof.
  apply (nested_config_keys OrderedDict Cases.server true []
           [("host", VStr "h"); ("port", VInt 1)] []).
  - nodup_keys.
  - vm_compute. reflexivity.
Defined.

Lemma nested_config_defaults_witness :
  Od.get "port" [("host", VStr "h"); ("port", VInt 1)] = Some (VInt 1) /\
  [Typed (VStr "unread")] = [Typed (VStr "unread")].
Proof.
  apply (nested_config_defaults OrderedDict Cases.server
           [Typed (VStr "unread")]
           [("host", VStr "h"); ("port", VInt 1)]
           [Typed (VStr "unread")] "port" (VInt 1)).
  - nodup_keys.
  - vm_compute. reflexivity.
  - simpl. auto.
  - reflexivity.
  - reflexivity.
Defined.

Lemma nested_config_failures_witness :
  AttributeError = AttributeError /\
  prompts_well_formed
    (Demo.dict [("__prompts__", VStr "Host?"); ("host", VStr "h")])
  = false.
Proof.
  apply (nested_config_failures
           (Demo.dict [("__prompts__", VStr "Host?"); ("host", VStr "h")])
           [] AttributeError).
  reflexivity.
Defined.


Lemma nested_config_total_witness :
  exists res,
    _prompt_for_nested_config (Demo.dict Cases.server) true
      [Typed (VStr "unread")]
    = Ok (res, [Typed (VStr "unread")]).
Proof.
  apply (nested_config_total (Demo.dict Cases.server)
           [Typed (VStr "unread")]).
  reflexivity.
Defined.

Lemma prompt_for_config_keys_complete_witness :
  List.length (cookiecutter_dict (Demo.final_of Demo.mixed true []))
  = List.length (Od.remove "__prompts__" Demo.mixed).
Proof.
  destruct (prompt_for_config_keys_complete
              Demo.Environment
              Demo.create_env_with_context Demo.render_template
              (Demo.ctx Demo.mixed) OrderedDict Demo.mixed true []
              (Demo.final_of Demo.mixed true [])
              (Demo.context_after Demo.mixed))
    as [_ L].
  - reflexivity.
  - nodup_keys.
  - vm_compute. reflexivity.
  - exact L.
Defined.

Lemma first_pass_context_witness :
  exists st1,
    Od.keys (cookiecutter_dict st1) = ["name"; "_p"] /\
    Od.get "__d" (cookiecutter_dict st1) = None /\
    Od.get "db" (cookiecutter_dict st1) = None.
Proof.
  destruct (first_pass_context
              Demo.Environment
              Demo.create_env_with_context Demo.render_template
              (Demo.ctx Demo.mixed) OrderedDict Demo.mixed true []
              (Demo.final_of Demo.mixed true [])
              (Demo.context_after Demo.mixed)
              [("name", VStr "x"); ("cfg", Demo.dict [("a", VStr "b")]);
               ("_p", VInt 3)]
              "opts" (VList [VStr "u"; VStr "v"])
              [("__d", VStr "lit");
               ("db", Demo.dict [("__prompts__", Demo.dict []);
                                 ("host", VStr "h")])])
    as [st1 [st2 [_ [_ [K [Later _]]]]]].
  - reflexivity.
  - nodup_keys.
  - reflexivity.
  - vm_compute. reflexivity.
  - exists st1. split; [exact K|]. split; apply Later; simpl; auto.
Defined.

Lemma list_key_resolution_witness :
  Od.get "opts"
    (cookiecutter_dict
       (Demo.final_of Demo.mixed false
          [Default; Typed (VStr "2"); Default; Default]))
  = Some (choice_only (VStr "v")).
Proof.
  destruct (list_key_resolution
              Demo.Environment
              Demo.create_env_with_context Demo.render_template
              (Demo.ctx Demo.mixed) OrderedDict Demo.mixed false
              [Default; Typed (VStr "2"); Default; Default]
              (Demo.final_of Demo.mixed false
                 [Default; Typed (VStr "2"); Default; Default])
              (Demo.context_after Demo.mixed)
              [("name", VStr "x"); ("cfg", Demo.dict [("a", VStr "b")]);
               ("_p", VInt 3)]
              "opts" [VStr "u"; VStr "v"]
              [("__d", VStr "lit");
               ("db", Demo.dict [("__prompts__", Demo.dict []);
                                 ("host", VStr "h")])])
    as [st1 [rendered [v [P1 [M [_ [G [_ Asked]]]]]]]].
  - reflexivity.
  - nodup_keys.
  - reflexivity.
  - vm_compute. reflexivity.
  - reflexivity.
  - vm_compute in P1. injection P1 as <-.
    vm_compute in M. injection M as <-.
    destruct (Asked eq_refl) as [sc' [_ [Picked _]]].
    rewrite (Picked 1 (VStr "v") [Default; Default] eq_refl eq_refl) in G.
    exact G.
Defined.


Lemma boolean_key_resolution_witness :
  Od.get "debug" (cookiecutter_dict (Demo.final_of Cases.flags true []))
  = Some (VBool false).
Proof.
  destruct (boolean_key_resolution
              Demo.Environment
              Demo.create_env_with_context Demo.render_template
              (Demo.ctx Cases.flags) OrderedDict Cases.flags true []
              (Demo.final_of Cases.flags true [])
              (Demo.context_after Cases.flags)
              [("name", VStr "x")] "debug" false
              [("port", VInt 8080); ("cfg", Demo.dict [("a", VStr "b")])])
    as [b' [G Same]].
  - reflexivity.
  - nodup_keys.
  - reflexivity.
  - vm_compute. reflexivity.
  - reflexivity.
  - rewrite (Same eq_refl) in G. exact G.
Defined.

Lemma scalar_key_resolution_witness :
  Od.get "port" (cookiecutter_dict (Demo.final_of Cases.flags true []))
  = Some (VStr "8080").
Proof.
  destruct (scalar_key_resolution
              Demo.Environment
              Demo.create_env_with_context Demo.render_template
              (Demo.ctx Cases.flags) OrderedDict Cases.flags true []
              (Demo.final_of Cases.flags true [])
              (Demo.context_after Cases.flags)
              [("name", VStr "x"); ("debug", VBool false)]
              "port" (VInt 8080)
              [("cfg", Demo.dict [("a", VStr "b")])])
    as [st1 [rendered [stored [P1 [R [G Same]]]]]].
  - reflexivity.
  - nodup_keys.
  - reflexivity.
  - vm_compute. reflexivity.
  - reflexivity.
  - right. exists 8080%Z. reflexivity.
  - vm_compute in R. injection R as <-.
    rewrite (Same eq_refl) in G. exact G.
Defined.

Lemma second_pass_context_witness :
  exists st2,
    Od.keys (cookiecutter_dict st2) = ["name"; "debug"; "port"] /\
    Od.get "port" (cookiecutter_dict st2) = Some (VStr "8080").
Proof.
  destruct (second_pass_context
              Demo.Environment
              Demo.create_env_with_context Demo.render_template
              (Demo.ctx Cases.flags) OrderedDict Cases.flags true []
              (Demo.final_of Cases.flags true [])
              (Demo.context_after Cases.flags)
              [("name", VStr "x"); ("debug", VBool false);
               ("port", VInt 8080)]
              "cfg" (Demo.dict [("a", VStr "b")]) [])
    as [st1 [st2 [st3 [_ [_ [_ [K Seen]]]]]]].
  - reflexivity.
  - nodup_keys.
  - reflexivity.
  - vm_compute. reflexivity.
  - exists st2. split; [exact K|].
    destruct (Seen "port" (VInt 8080)) as [v [G2 Gf]].
    + simpl. auto.
    + reflexivity.
    + vm_compute in Gf. injection Gf as <-. exact G2.
Defined.

Lemma plain_dict_key_resolution_witness :
  Od.get "cfg"
    (cookiecutter_dict
       (Demo.final_of Cases.flags false
          [Default; Default; Default;
           Typed (VDict PlainDict [("k", VStr "w")])]))
  = Some (VDict PlainDict [("k", VStr "w")]).
Proof.
  destruct (plain_dict_key_resolution
              Demo.Environment
              Demo.create_env_with_context Demo.render_template
              (Demo.ctx Cases.flags) OrderedDict Cases.flags false
              [Default; Default; Default;
               Typed (VDict PlainDict [("k", VStr "w")])]
              (Demo.final_of Cases.flags false
                 [Default; Default; Default;
                  Typed (VDict PlainDict [("k", VStr "w")])])
              (Demo.context_after Cases.flags)
              [("name", VStr "x"); ("debug", VBool false);
               ("port", VInt 8080)]
              "cfg" (Demo.dict [("a", VStr "b")]) [])
    as [st1 [st2 [rendered [stored [P1 [P2 [_ [G [_ [_ Asked]]]]]]]]]].
  - reflexivity.
  - nodup_keys.
  - reflexivity.
  - vm_compute. reflexivity.
  - reflexivity.
  - reflexivity.
  - vm_compute in P1. injection P1 as <-.
    vm_compute in P2. injection P2 as <-.
    destruct (Asked eq_refl) as [sc' [_ [_ Typed_mapping]]].
    rewrite (Typed_mapping PlainDict [("k", VStr "w")] [] eq_refl) in G.
    exact G.
Defined.


Lemma Demo_engine_foreign env s b e :
  Demo.render_template env s b = Err e -> foreign_error e.
Proof.
  unfold Demo.render_template.
  destruct (String.index 0 "{{" s); [|discriminate].
  intros [= <-]. exact I.
Qed.

Lemma undefined_variable_report_witness :
  Demo.ctx Demo.undefined_in_list
  = snd (Demo.prompt_for_config_run (Demo.ctx Demo.undefined_in_list)
           true []) /\
  exists kind schema key m,
    Od.get "cookiecutter" (Demo.ctx Demo.undefined_in_list)
      = Some (VDict kind schema) /\
    In key (Od.keys schema) /\ key <> "__prompts__" /\
    "Unable to render variable 'db'"
      = ("Unable to render variable '" ++ key ++ "'")%string /\
    UndefinedError Demo.undefined = UndefinedError m.
Proof.
  apply (undefined_variable_report
           Demo.Environment
           Demo.create_env_with_context Demo.render_template
           Demo_engine_foreign
           (Demo.ctx Demo.undefined_in_list) true []
           "Unable to render variable 'db'"
           (UndefinedError Demo.undefined)
           (Demo.ctx Demo.undefined_in_list)
           (snd (Demo.prompt_for_config_run
                   (Demo.ctx Demo.undefined_in_list) true []))).
  vm_compute. reflexivity.
Defined.

Lemma progress_accounting_witness :
  count (Demo.final_of Demo.mixed true []) + 1 = 4 /\
  count (Demo.final_of Demo.mixed true []) <= 4.
Proof.
  apply (progress_accounting
           Demo.Environment
           Demo.create_env_with_context Demo.render_template
           (Demo.ctx Demo.mixed) OrderedDict Demo.mixed true []
           (Demo.final_of Demo.mixed true [])
           (Demo.context_after Demo.mixed)).
  - reflexivity.
  - nodup_keys.
  - vm_compute. reflexivity.
Defined.

Lemma choose_nested_template_relative_witness :
  exists p,
    p <> "" /\ Demo.path_is_absolute p = false /\
    "/repo/tpl1"
    = Demo.path_resolve (Demo.path_join (Demo.path_resolve "/repo") p).
Proof.
  apply (choose_nested_template_relative
           Demo.Environment
           Demo.create_env_with_context Demo.render_template
           Demo.path_is_absolute Demo.path_resolve Demo.path_join
           Demo.re_search_paren
           (Demo.ctx Demo.templates) "/repo" true [] "/repo/tpl1").
  vm_compute. reflexivity.
Defined.

Lemma choose_nested_template_declared_witness :
  exists k ko option p,
    Od.get k [("default", Demo.dict [("path", VStr "tpl1")]);
              ("alt", Demo.dict [("path", VStr "tpl2")])]
      = Some (VDict ko option) /\
    Od.get "path" option = Some (VStr p) /\
    "/repo/tpl2"
    = Demo.path_resolve (Demo.path_join (Demo.path_resolve "/repo") p).
Proof.
  apply (choose_nested_template_declared
           Demo.Environment
           Demo.create_env_with_context Demo.render_template
           Demo.path_is_absolute Demo.path_resolve Demo.path_join
           Demo.re_search_paren
           (Demo.ctx Demo.templates) OrderedDict Demo.templates
           OrderedDict
           [("default", Demo.dict [("path", VStr "tpl1")]);
            ("alt", Demo.dict [("path", VStr "tpl2")])]
           "/repo" false [Typed (VStr "2")] "/repo/tpl2").
  - reflexivity.
  - reflexivity.
  - discriminate.
  - vm_compute. reflexivity.
Defined.

Lemma choose_nested_template_illegal_witness :
  fst (Demo.choose_nested_template (Demo.ctx Cases.absolute) "/repo" true [])
  = Err (ValueError "Illegal template path").
Proof.
  apply (choose_nested_template_illegal
           Demo.Environment
           Demo.create_env_with_context Demo.render_template
           Demo.path_is_absolute Demo.path_resolve Demo.path_join
           Demo.re_search_paren
           (Demo.ctx Cases.absolute) OrderedDict Cases.absolute
           OrderedDict "default" OrderedDict [("path", VStr "/abs")] []
           (VStr "/abs") "/repo" []).
  - reflexivity.
  - reflexivity.
  - reflexivity.
  - reflexivity.
  - right. exists "/abs". split; reflexivity.
Defined.

Lemma choose_nested_template_legacy_witness :
  fst (Cases.choose_nested_template (Demo.ctx Cases.legacy) "/repo" true [])
  = Ok "/repo/./basic".
Proof.
  apply (choose_nested_template_legacy
           Demo.Environment
           Demo.create_env_with_context Demo.render_template
           Demo.path_is_absolute Demo.path_resolve Demo.path_join
           Cases.re_search_paren
           (Demo.ctx Cases.legacy) OrderedDict Cases.legacy
           (VStr "Basic (./basic)") [VStr "Other (./other)"]
           "Basic (./basic)" [VStr "Other (./other)"]
           "./basic" "/repo" []).
  - reflexivity.
  - exact I.
  - reflexivity.
  - reflexivity.
  - reflexivity.
  - discriminate.
  - reflexivity.
Defined.

Lemma choose_nested_template_nothing_to_choose_witness :
  fst (Demo.choose_nested_template (Demo.ctx Cases.flags) "/repo" false
         [Typed (VStr "1")])
  = Err (ValueError "").
Proof.
  apply (choose_nested_template_nothing_to_choose
           Demo.Environment
           Demo.create_env_with_context Demo.render_template
           Demo.path_is_absolute Demo.path_resolve Demo.path_join
           Demo.re_search_paren
           (Demo.ctx Cases.flags) OrderedDict Cases.flags
           "/repo" false [Typed (VStr "1")]).
  - reflexivity.
  - reflexivity.
  - reflexivity.
Defined.

Lemma process_response_insensitive_witness :
  YesNoPrompt.process_response " YeS  " = Some true /\
  YesNoPrompt.process_response "oFF " = Some false.
Proof.
  split.
  - destruct (YesNoPromptFacts.process_response_insensitive "YeS" " " "  ")
      as [_ [Yes _]]; [reflexivity | reflexivity | reflexivity |].
    apply Yes. simpl. auto.
  - destruct (YesNoPromptFacts.process_response_insensitive "oFF" "" " ")
      as [_ [_ No]]; [reflexivity | reflexivity | reflexivity |].
    apply No. simpl. auto 10.
Defined.

Lemma accepting_defaults_is_no_input_witness :
  Demo.prompt_for_config (Demo.ctx Cases.flags) true []
  = (Ok (cookiecutter_dict
           (Demo.final_of Cases.flags false (repeat Default 4))),
     Demo.context_after Cases.flags).
Proof.
  apply (accepting_defaults_is_no_input
           Demo.Environment
           Demo.create_env_with_context Demo.render_template
           (Demo.ctx Cases.flags) OrderedDict Cases.flags 4
           (Demo.final_of Cases.flags false (repeat Default 4))
           (Demo.context_after Cases.flags)).
  - reflexivity.
  - intros key raw Hin _. simpl in Hin.
    repeat (destruct Hin as [[= <- <-]|Hin]; [reflexivity|]).
    contradiction.
  - vm_compute. reflexivity.
Defined.
